(** * ERP / MES / MRP back office: a model of the Django applications

    The development follows the layout of the repository: [core] (accounts,
    employees, the audit log and its signal receivers), [erp] (products and
    order lines), [mes] (work orders, production logs and the console
    transitions), [mrp] (materials, bills of materials, inventory) and the
    dashboard KPI.  Model classes become records, one module per class, with
    the field names of the source; model methods and properties become
    functions in the module of their class; the relational store becomes one
    record of tables that every operation threads explicitly. *)

From Stdlib Require Import ZArith QArith Qcanon Ascii String.
From stdpp Require Import base option list gmap strings numbers sorting fin_maps pretty.

Local Open Scope Z_scope.
Local Open Scope string_scope.

(** ** Numbers, time, results *)

(** [decimal.Decimal].  Every Decimal is a rational number, and the sums,
    differences and products the models compute on their columns are exact
    in Python's default context (28 significant digits; the widest product
    is of a 12-digit by a 15-digit column).  Values are therefore taken in
    [Qc], the rationals in lowest terms, whose equality is Leibniz equality.
    Quotients, which Python rounds to the context precision, and the binary
    floating point values of [timedelta.total_seconds()] are read as the
    exact rational they approximate. *)
Module Decimal.
Abbreviation t := Qc (only parsing).

Definition of_Z (n : Z) : t := Qc_of_Z n.

(** [Decimal("n.dd")]: a literal given in hundredths. *)
Definition cents (n : Z) : t := (Qc_of_Z n / Qc_of_Z 100)%Qc.

(** [a < b] as a truth value. *)
Definition ltb (a b : t) : bool := bool_decide (a < b)%Qc.

(** Truth value of a number: [bool(x)] is [x != 0]. *)
Definition truthy (a : t) : bool := negb (bool_decide (a = 0%Qc)).

(** [floor(q)] and Python's [round(q)]: to the nearest integer, ties to the
    even one. *)
Definition floor (q : t) : Z := (Qnum q / Z.pos (Qden q))%Z.

Definition round_half_even (q : t) : Z :=
  let n := Qnum q in
  let d := Z.pos (Qden q) in
  let f := (n / d)%Z in
  match (2 * (n mod d) ?= d)%Z with
  | Lt => f
  | Gt => (f + 1)%Z
  | Eq => if Z.even f then f else (f + 1)%Z
  end.

(** [round(q, ndigits)]. *)
Definition round (q : t) (ndigits : nat) : t :=
  let scale := Qc_of_Z (10 ^ Z.of_nat ndigits) in
  (Qc_of_Z (round_half_even (q * scale)) / scale)%Qc.

(** [q.quantize(Decimal(1).scaleb(-decimal_places))] in the default context,
    which rounds half to even: the value a [DecimalField] column of
    [decimal_places] digits takes for [q]. *)
Definition quantize (decimal_places : nat) (q : t) : t := round q decimal_places.
End Decimal.

(** A [datetime] is an instant, counted in microseconds; a [timedelta] is a
    difference of two instants. *)
Abbreviation datetime := Z (only parsing).
Abbreviation timedelta := Z (only parsing).

Definition total_seconds (d : timedelta) : Decimal.t :=
  (Qc_of_Z d / Qc_of_Z 1000000)%Qc.

(** Exceptions that leave a view, and the outcome of a call that may raise. *)
Inductive Exception : Type :=
  | DoesNotExist (model : string)
  | PermissionDenied
  | ProtectedError (model : string)
  | ValueError.

Inductive Result (A : Type) : Type :=
  | Ok (a : A)
  | Raise (e : Exception).
Arguments Ok {A} a.
Arguments Raise {A} e.

#[global] Instance Result_ret : MRet Result := λ A a, Ok a.
#[global] Instance Result_bind : MBind Result := λ A B k r,
  match r with
  | Ok a => k a
  | Raise e => Raise e
  end.
#[global] Instance Result_fmap : FMap Result := λ A B f r,
  match r with
  | Ok a => Ok (f a)
  | Raise e => Raise e
  end.

(** ** Model classes

    One module per model class; [t] is the type of its instances.  The
    primary key of an instance is [None] until its first save (accounts and
    their profiles are only met saved).  A foreign key whose target the code
    dereferences is held as the related object, the way the ORM hands it to
    the code on attribute access; the other foreign keys are held as the
    primary key they store.  Columns that no modelled operation reads or
    writes (free-text notes, images, contact data) are left out. *)

(** *** core/models.py *)

Module Employee.
Record t : Type := {
  id : option Z;
  employee_id : string;
  first_name : string;
  last_name : string;
  email : string;
  role : string;
  nfc_uid : option string;
  active : bool;
  created_at : datetime;
  updated_at : datetime;
}.

Definition with_id (k : Z) (self : t) : t :=
  {| id := Some k; employee_id := employee_id self; first_name := first_name self;
     last_name := last_name self; email := email self; role := role self;
     nfc_uid := nfc_uid self; active := active self;
     created_at := created_at self; updated_at := updated_at self |}.

Definition with_timestamps (c u : datetime) (self : t) : t :=
  {| id := id self; employee_id := employee_id self; first_name := first_name self;
     last_name := last_name self; email := email self; role := role self;
     nfc_uid := nfc_uid self; active := active self;
     created_at := c; updated_at := u |}.

Definition full_name (self : t) : string :=
  first_name self ++ " " ++ last_name self.

Definition str (self : t) : string :=
  employee_id self ++ " - " ++ first_name self ++ " " ++ last_name self.
End Employee.

Module UserProfile.
Record t : Type := {
  id : Z;
  employee : option Z;
  nfc_uid : option string;
  language : string;
  theme : string;
}.

Definition with_employee (e : option Z) (self : t) : t :=
  {| id := id self; employee := e; nfc_uid := nfc_uid self;
     language := language self; theme := theme self |}.
End UserProfile.

(** [django.contrib.auth.models.User], with the reverse one-to-one accessor
    [profile]: [hasattr(user, 'profile')] holds when a profile row exists. *)
Module User.
Record t : Type := {
  id : Z;
  username : string;
  is_authenticated : bool;
  is_staff : bool;
  is_superuser : bool;
  user_permissions : list string;
  profile : option UserProfile.t;
}.

Definition with_profile (p : option UserProfile.t) (self : t) : t :=
  {| id := id self; username := username self;
     is_authenticated := is_authenticated self; is_staff := is_staff self;
     is_superuser := is_superuser self;
     user_permissions := user_permissions self; profile := p |}.

Definition has_perm (self : t) (perm : string) : bool :=
  is_superuser self || bool_decide (perm ∈ user_permissions self).
End User.

(** An [HttpRequest]: the account and the two [META] entries the audit
    writer reads. *)
Module Request.
Record t : Type := {
  user : User.t;
  REMOTE_ADDR : option string;
  HTTP_USER_AGENT : option string;
}.
End Request.

Module LogData.
Record t : Type := {
  id : option Z;
  user : option Z;
  employee : option Z;
  action_type : string;
  model_name : option string;
  object_id : option Z;
  description : string;
  ip_address : option string;
  device_info : option string;
  nfc_uid : option string;
  timestamp : datetime;
}.

Definition with_id (k : Z) (self : t) : t :=
  {| id := Some k; user := user self; employee := employee self;
     action_type := action_type self; model_name := model_name self;
     object_id := object_id self; description := description self;
     ip_address := ip_address self; device_info := device_info self;
     nfc_uid := nfc_uid self; timestamp := timestamp self |}.

Definition with_timestamp (ts : datetime) (self : t) : t :=
  {| id := id self; user := user self; employee := employee self;
     action_type := action_type self; model_name := model_name self;
     object_id := object_id self; description := description self;
     ip_address := ip_address self; device_info := device_info self;
     nfc_uid := nfc_uid self; timestamp := ts |}.

Definition with_user (u : option Z) (self : t) : t :=
  {| id := id self; user := u; employee := employee self;
     action_type := action_type self; model_name := model_name self;
     object_id := object_id self; description := description self;
     ip_address := ip_address self; device_info := device_info self;
     nfc_uid := nfc_uid self; timestamp := timestamp self |}.

Definition with_employee (e : option Z) (self : t) : t :=
  {| id := id self; user := user self; employee := e;
     action_type := action_type self; model_name := model_name self;
     object_id := object_id self; description := description self;
     ip_address := ip_address self; device_info := device_info self;
     nfc_uid := nfc_uid self; timestamp := timestamp self |}.

(** [Meta.ordering = ['-timestamp']]: [a] may come before [b]. *)
Definition newer_or_equal (a b : t) : Prop := (timestamp b ≤ timestamp a)%Z.

#[global] Instance newer_or_equal_dec : RelDecision newer_or_equal.
Proof. intros a b. unfold newer_or_equal. apply _. Defined.
End LogData.

(** *** erp/models.py *)

Module Product.
Record t : Type := {
  id : option Z;
  product_number : string;
  name : string;
  sku : option string;
  barcode : option string;
  product_type : string;
  price : Decimal.t;
  cost : Decimal.t;
  unit : string;
  min_stock : Decimal.t;
  max_stock : Decimal.t;
  active : bool;
  created_at : datetime;
  updated_at : datetime;
}.

Definition with_id (k : Z) (self : t) : t :=
  {| id := Some k; product_number := product_number self; name := name self;
     sku := sku self; barcode := barcode self; product_type := product_type self;
     price := price self; cost := cost self; unit := unit self;
     min_stock := min_stock self; max_stock := max_stock self; active := active self;
     created_at := created_at self; updated_at := updated_at self |}.

Definition with_sku (v : option string) (self : t) : t :=
  {| id := id self; product_number := product_number self; name := name self;
     sku := v; barcode := barcode self; product_type := product_type self;
     price := price self; cost := cost self; unit := unit self;
     min_stock := min_stock self; max_stock := max_stock self; active := active self;
     created_at := created_at self; updated_at := updated_at self |}.

Definition with_timestamps (c u : datetime) (self : t) : t :=
  {| id := id self; product_number := product_number self; name := name self;
     sku := sku self; barcode := barcode self; product_type := product_type self;
     price := price self; cost := cost self; unit := unit self;
     min_stock := min_stock self; max_stock := max_stock self; active := active self;
     created_at := c; updated_at := u |}.

Definition str (self : t) : string :=
  product_number self ++ " - " ++ name self.

(** [
    @property
    def margin(self):
        if self.price > 0:
            return ((self.price - self.cost) / self.price) * 100
        return 0
    ] *)
Definition margin (self : t) : Decimal.t :=
  if Decimal.ltb 0%Qc (price self)
  then ((price self - cost self) / price self * Decimal.of_Z 100)%Qc
  else 0%Qc.
End Product.

Module PurchaseOrderLine.
Record t : Type := {
  id : option Z;
  purchase_order : Z;
  product : Z;
  quantity : Decimal.t;
  unit_price : Decimal.t;
  total_price : option Decimal.t;
  received_quantity : Decimal.t;
}.

Definition with_id (k : Z) (self : t) : t :=
  {| id := Some k; purchase_order := purchase_order self; product := product self;
     quantity := quantity self; unit_price := unit_price self;
     total_price := total_price self; received_quantity := received_quantity self |}.

Definition with_total_price (v : option Decimal.t) (self : t) : t :=
  {| id := id self; purchase_order := purchase_order self; product := product self;
     quantity := quantity self; unit_price := unit_price self;
     total_price := v; received_quantity := received_quantity self |}.
End PurchaseOrderLine.

Module SalesOrderLine.
Record t : Type := {
  id : option Z;
  sales_order : Z;
  product : Z;
  quantity : Decimal.t;
  unit_price : Decimal.t;
  total_price : option Decimal.t;
  shipped_quantity : Decimal.t;
}.

Definition with_id (k : Z) (self : t) : t :=
  {| id := Some k; sales_order := sales_order self; product := product self;
     quantity := quantity self; unit_price := unit_price self;
     total_price := total_price self; shipped_quantity := shipped_quantity self |}.

Definition with_total_price (v : option Decimal.t) (self : t) : t :=
  {| id := id self; sales_order := sales_order self; product := product self;
     quantity := quantity self; unit_price := unit_price self;
     total_price := v; shipped_quantity := shipped_quantity self |}.
End SalesOrderLine.

(** *** mes/models.py *)

Module WorkOrder.
Record t : Type := {
  id : option Z;
  wo_number : string;
  sales_order : option Z;
  product : Product.t;
  production_line : option Z;
  planned_quantity : Decimal.t;
  produced_quantity : Decimal.t;
  rejected_quantity : Decimal.t;
  planned_start : option datetime;
  planned_end : option datetime;
  actual_start : option datetime;
  actual_end : option datetime;
  status : string;
  priority : Z;
  notes : option string;
  created_by : option Z;
  created_at : datetime;
  updated_at : datetime;
}.

Definition with_id (k : Z) (self : t) : t :=
  {| id := Some k; wo_number := wo_number self; sales_order := sales_order self;
     product := product self; production_line := production_line self;
     planned_quantity := planned_quantity self;
     produced_quantity := produced_quantity self;
     rejected_quantity := rejected_quantity self;
     planned_start := planned_start self; planned_end := planned_end self;
     actual_start := actual_start self; actual_end := actual_end self;
     status := status self; priority := priority self; notes := notes self;
     created_by := created_by self;
     created_at := created_at self; updated_at := updated_at self |}.

Definition with_status (v : string) (self : t) : t :=
  {| id := id self; wo_number := wo_number self; sales_order := sales_order self;
     product := product self; production_line := production_line self;
     planned_quantity := planned_quantity self;
     produced_quantity := produced_quantity self;
     rejected_quantity := rejected_quantity self;
     planned_start := planned_start self; planned_end := planned_end self;
     actual_start := actual_start self; actual_end := actual_end self;
     status := v; priority := priority self; notes := notes self;
     created_by := created_by self;
     created_at := created_at self; updated_at := updated_at self |}.

Definition with_actual_start (v : option datetime) (self : t) : t :=
  {| id := id self; wo_number := wo_number self; sales_order := sales_order self;
     product := product self; production_line := production_line self;
     planned_quantity := planned_quantity self;
     produced_quantity := produced_quantity self;
     rejected_quantity := rejected_quantity self;
     planned_start := planned_start self; planned_end := planned_end self;
     actual_start := v; actual_end := actual_end self;
     status := status self; priority := priority self; notes := notes self;
     created_by := created_by self;
     created_at := created_at self; updated_at := updated_at self |}.

Definition with_actual_end (v : option datetime) (self : t) : t :=
  {| id := id self; wo_number := wo_number self; sales_order := sales_order self;
     product := product self; production_line := production_line self;
     planned_quantity := planned_quantity self;
     produced_quantity := produced_quantity self;
     rejected_quantity := rejected_quantity self;
     planned_start := planned_start self; planned_end := planned_end self;
     actual_start := actual_start self; actual_end := v;
     status := status self; priority := priority self; notes := notes self;
     created_by := created_by self;
     created_at := created_at self; updated_at := updated_at self |}.

Definition with_created_by (v : option Z) (self : t) : t :=
  {| id := id self; wo_number := wo_number self; sales_order := sales_order self;
     product := product self; production_line := production_line self;
     planned_quantity := planned_quantity self;
     produced_quantity := produced_quantity self;
     rejected_quantity := rejected_quantity self;
     planned_start := planned_start self; planned_end := planned_end self;
     actual_start := actual_start self; actual_end := actual_end self;
     status := status self; priority := priority self; notes := notes self;
     created_by := v;
     created_at := created_at self; updated_at := updated_at self |}.

Definition with_timestamps (c u : datetime) (self : t) : t :=
  {| id := id self; wo_number := wo_number self; sales_order := sales_order self;
     product := product self; production_line := production_line self;
     planned_quantity := planned_quantity self;
     produced_quantity := produced_quantity self;
     rejected_quantity := rejected_quantity self;
     planned_start := planned_start self; planned_end := planned_end self;
     actual_start := actual_start self; actual_end := actual_end self;
     status := status self; priority := priority self; notes := notes self;
     created_by := created_by self;
     created_at := c; updated_at := u |}.

Definition str (self : t) : string :=
  wo_number self ++ " - " ++ Product.name (product self).

(** [
    @property
    def efficiency(self):
        if self.actual_start and self.actual_end and self.planned_end and self.planned_start:
            planned_duration = (self.planned_end - self.planned_start).total_seconds()
            actual_duration = (self.actual_end - self.actual_start).total_seconds()
            if actual_duration > 0:
                return (planned_duration / actual_duration) * 100
        return None
    ]
    A [datetime] is always true, so each conjunct tests for [None]. *)
Definition efficiency (self : t) : option Decimal.t :=
  match actual_start self, actual_end self, planned_end self, planned_start self with
  | Some a_start, Some a_end, Some p_end, Some p_start =>
      let planned_duration := total_seconds (p_end - p_start) in
      let actual_duration := total_seconds (a_end - a_start) in
      if Decimal.ltb 0%Qc actual_duration
      then Some (planned_duration / actual_duration * Decimal.of_Z 100)%Qc
      else None
  | _, _, _, _ => None
  end.
End WorkOrder.

Module ProductionLog.
Record t : Type := {
  id : option Z;
  work_order : WorkOrder.t;
  operator : option Z;
  shift : option Z;
  action_type : string;
  timestamp : datetime;
  quantity : Decimal.t;
  rejects : Decimal.t;
  downtime_minutes : Decimal.t;
  downtime_reason : option string;
  nfc_uid : option string;
  notes : option string;
}.

Definition with_id (k : Z) (self : t) : t :=
  {| id := Some k; work_order := work_order self; operator := operator self;
     shift := shift self; action_type := action_type self;
     timestamp := timestamp self; quantity := quantity self;
     rejects := rejects self; downtime_minutes := downtime_minutes self;
     downtime_reason := downtime_reason self; nfc_uid := nfc_uid self;
     notes := notes self |}.

Definition with_operator (v : option Z) (self : t) : t :=
  {| id := id self; work_order := work_order self; operator := v;
     shift := shift self; action_type := action_type self;
     timestamp := timestamp self; quantity := quantity self;
     rejects := rejects self; downtime_minutes := downtime_minutes self;
     downtime_reason := downtime_reason self; nfc_uid := nfc_uid self;
     notes := notes self |}.

(** [__str__]; the instant is printed as its count of microseconds. *)
Definition str (self : t) : string :=
  WorkOrder.wo_number (work_order self) ++ " - " ++ action_type self
    ++ " at " ++ pretty (timestamp self).
End ProductionLog.

(** *** mrp/models.py *)

Module Material.
Record t : Type := {
  id : option Z;
  material_code : string;
  name : string;
  material_type : string;
  unit : string;
  unit_cost : Decimal.t;
  lead_time_days : Z;
  min_order_quantity : Decimal.t;
  active : bool;
}.

Definition str (self : t) : string :=
  material_code self ++ " - " ++ name self.
End Material.

Module BOMLine.
Record t : Type := {
  id : option Z;
  bom : Z;
  line_number : Z;
  material : option Material.t;
  component : option Product.t;
  quantity : Decimal.t;
  unit : string;
  scrap_factor : Decimal.t;
}.

Definition with_scrap_factor (v : Decimal.t) (self : t) : t :=
  {| id := id self; bom := bom self; line_number := line_number self;
     material := material self; component := component self;
     quantity := quantity self; unit := unit self; scrap_factor := v |}.

(** [
    @property
    def adjusted_quantity(self):
        return self.quantity * (1 + self.scrap_factor / 100)
    ] *)
Definition adjusted_quantity (self : t) : Decimal.t :=
  (quantity self * (1 + scrap_factor self / Decimal.of_Z 100))%Qc.
End BOMLine.

(** [lines] is the reverse relation of [BOMLine.bom]: what [self.lines.all()]
    returns. *)
Module BOM.
Record t : Type := {
  id : option Z;
  bom_number : string;
  product : Product.t;
  version : string;
  active : bool;
  lines : list BOMLine.t;
}.

Definition with_lines (v : list BOMLine.t) (self : t) : t :=
  {| id := id self; bom_number := bom_number self; product := product self;
     version := version self; active := active self; lines := v |}.

(** [
    @property
    def total_cost(self):
        total = Decimal(0)
        for line in self.lines.all():
            if line.material:
                total += line.quantity * line.material.unit_cost
            elif line.component:
                total += line.quantity * line.component.cost
        return total
    ]
    One iteration of the loop, then the loop. *)
Definition total_cost_step (total : Decimal.t) (line : BOMLine.t) : Decimal.t :=
  match BOMLine.material line with
  | Some m => (total + BOMLine.quantity line * Material.unit_cost m)%Qc
  | None =>
      match BOMLine.component line with
      | Some c => (total + BOMLine.quantity line * Product.cost c)%Qc
      | None => total
      end
  end.

Definition total_cost (self : t) : Decimal.t :=
  foldl total_cost_step (Decimal.of_Z 0) (lines self).
End BOM.

Module Inventory.
Record t : Type := {
  id : option Z;
  product : option Product.t;
  material : option Material.t;
  warehouse : string;
  location : option string;
  quantity_on_hand : Decimal.t;
  quantity_reserved : Decimal.t;
  quantity_available : Decimal.t;
  last_count_date : option Z;
  updated_at : datetime;
}.

Definition with_id (k : Z) (self : t) : t :=
  {| id := Some k; product := product self; material := material self;
     warehouse := warehouse self; location := location self;
     quantity_on_hand := quantity_on_hand self;
     quantity_reserved := quantity_reserved self;
     quantity_available := quantity_available self;
     last_count_date := last_count_date self; updated_at := updated_at self |}.

Definition with_quantity_available (v : Decimal.t) (self : t) : t :=
  {| id := id self; product := product self; material := material self;
     warehouse := warehouse self; location := location self;
     quantity_on_hand := quantity_on_hand self;
     quantity_reserved := quantity_reserved self;
     quantity_available := v;
     last_count_date := last_count_date self; updated_at := updated_at self |}.

Definition with_updated_at (u : datetime) (self : t) : t :=
  {| id := id self; product := product self; material := material self;
     warehouse := warehouse self; location := location self;
     quantity_on_hand := quantity_on_hand self;
     quantity_reserved := quantity_reserved self;
     quantity_available := quantity_available self;
     last_count_date := last_count_date self; updated_at := u |}.

(** [__str__]: [item = self.product or self.material]; the quantity is
    printed as its integer part. *)
Definition str (self : t) : string :=
  match product self, material self with
  | Some p, _ => Product.str p
  | None, Some m => Material.str m
  | None, None => "None"
  end ++ " - " ++ warehouse self ++ ": "
      ++ pretty (Decimal.floor (quantity_on_hand self)).

(** [
    @property
    def is_low_stock(self):
        if self.product and self.product.min_stock:
            return self.quantity_available < self.product.min_stock
        return False
    ]
    A model instance is always true, so [self.product] tests for [None];
    [self.product.min_stock] is a Decimal, true when it is not zero. *)
Definition is_low_stock (self : t) : bool :=
  match product self with
  | Some p =>
      if Decimal.truthy (Product.min_stock p)
      then Decimal.ltb (quantity_available self) (Product.min_stock p)
      else false
  | None => false
  end.
End Inventory.

(** ** The running application

    *** django.dispatch

    [Signal.connect(receiver, sender)] registers a receiver for the writes of
    one model class, and [Signal.send] calls the registered receivers in the
    order of their connection.  The registry refers to a receiver by a weak
    reference ([weak=True] is the default, and core/signals.py passes nothing
    else): a receiver is called for as long as something besides the registry
    holds it, and is gone from the registry once nothing does. *)

Inductive Signal : Type := post_save | post_delete.

(** The receivers of core/signals.py that listen to model writes:
    [log_employee_save] and [log_profile_save] are functions of the module,
    [log_model_save] and [log_model_delete] are the two functions local to
    [create_generic_log_signal]. *)
Inductive Handler : Type :=
  | log_employee_save
  | log_profile_save
  | log_model_save (model_name : string)
  | log_model_delete (model_name : string).

Record Receiver : Type := {
  signal : Signal;
  sender : string;
  handler : Handler;
}.

#[global] Instance Signal_eq_dec : EqDecision Signal.
Proof. solve_decision. Defined.

(** *** State

    The tables of the relational store, keyed by primary key, together with
    the process state the code reads: the clock behind [timezone.now()], the
    request slot of [_thread_locals] and the signal registry.  The clock
    stands still during one request. *)
Record State : Type := {
  clock : datetime;
  thread_request : option Request.t;
  receivers : list Receiver;
  users : gmap Z User.t;
  employees : gmap Z Employee.t;
  products : gmap Z Product.t;
  purchase_order_lines : gmap Z PurchaseOrderLine.t;
  sales_order_lines : gmap Z SalesOrderLine.t;
  inventory : gmap Z Inventory.t;
  work_orders : gmap Z WorkOrder.t;
  production_logs : gmap Z ProductionLog.t;
  log_data : gmap Z LogData.t;
}.

Definition with_thread_request (v : option Request.t) (s : State) : State :=
  {| clock := clock s; thread_request := v; receivers := receivers s; users := users
     s; employees := employees s; products := products s; purchase_order_lines :=
     purchase_order_lines s; sales_order_lines := sales_order_lines s; inventory :=
     inventory s; work_orders := work_orders s; production_logs := production_logs
     s; log_data := log_data s |}.

Definition with_receivers (v : list Receiver) (s : State) : State :=
  {| clock := clock s; thread_request := thread_request s; receivers := v; users :=
     users s; employees := employees s; products := products s; purchase_order_lines
     := purchase_order_lines s; sales_order_lines := sales_order_lines s; inventory
     := inventory s; work_orders := work_orders s; production_logs :=
     production_logs s; log_data := log_data s |}.

Definition with_users (v : gmap Z User.t) (s : State) : State :=
  {| clock := clock s; thread_request := thread_request s; receivers := receivers s;
     users := v; employees := employees s; products := products s;
     purchase_order_lines := purchase_order_lines s; sales_order_lines :=
     sales_order_lines s; inventory := inventory s; work_orders := work_orders s;
     production_logs := production_logs s; log_data := log_data s |}.

Definition with_employees (v : gmap Z Employee.t) (s : State) : State :=
  {| clock := clock s; thread_request := thread_request s; receivers := receivers s;
     users := users s; employees := v; products := products s; purchase_order_lines
     := purchase_order_lines s; sales_order_lines := sales_order_lines s; inventory
     := inventory s; work_orders := work_orders s; production_logs :=
     production_logs s; log_data := log_data s |}.

Definition with_products (v : gmap Z Product.t) (s : State) : State :=
  {| clock := clock s; thread_request := thread_request s; receivers := receivers s;
     users := users s; employees := employees s; products := v; purchase_order_lines
     := purchase_order_lines s; sales_order_lines := sales_order_lines s; inventory
     := inventory s; work_orders := work_orders s; production_logs :=
     production_logs s; log_data := log_data s |}.

Definition with_purchase_order_lines (v : gmap Z PurchaseOrderLine.t) (s : State) : State :=
  {| clock := clock s; thread_request := thread_request s; receivers := receivers s;
     users := users s; employees := employees s; products := products s;
     purchase_order_lines := v; sales_order_lines := sales_order_lines s; inventory
     := inventory s; work_orders := work_orders s; production_logs :=
     production_logs s; log_data := log_data s |}.

Definition with_sales_order_lines (v : gmap Z SalesOrderLine.t) (s : State) : State :=
  {| clock := clock s; thread_request := thread_request s; receivers := receivers s;
     users := users s; employees := employees s; products := products s;
     purchase_order_lines := purchase_order_lines s; sales_order_lines := v;
     inventory := inventory s; work_orders := work_orders s; production_logs :=
     production_logs s; log_data := log_data s |}.

Definition with_inventory (v : gmap Z Inventory.t) (s : State) : State :=
  {| clock := clock s; thread_request := thread_request s; receivers := receivers s;
     users := users s; employees := employees s; products := products s;
     purchase_order_lines := purchase_order_lines s; sales_order_lines :=
     sales_order_lines s; inventory := v; work_orders := work_orders s;
     production_logs := production_logs s; log_data := log_data s |}.

Definition with_work_orders (v : gmap Z WorkOrder.t) (s : State) : State :=
  {| clock := clock s; thread_request := thread_request s; receivers := receivers s;
     users := users s; employees := employees s; products := products s;
     purchase_order_lines := purchase_order_lines s; sales_order_lines :=
     sales_order_lines s; inventory := inventory s; work_orders := v;
     production_logs := production_logs s; log_data := log_data s |}.

Definition with_production_logs (v : gmap Z ProductionLog.t) (s : State) : State :=
  {| clock := clock s; thread_request := thread_request s; receivers := receivers s;
     users := users s; employees := employees s; products := products s;
     purchase_order_lines := purchase_order_lines s; sales_order_lines :=
     sales_order_lines s; inventory := inventory s; work_orders := work_orders s;
     production_logs := v; log_data := log_data s |}.

Definition with_log_data (v : gmap Z LogData.t) (s : State) : State :=
  {| clock := clock s; thread_request := thread_request s; receivers := receivers s;
     users := users s; employees := employees s; products := products s;
     purchase_order_lines := purchase_order_lines s; sales_order_lines :=
     sales_order_lines s; inventory := inventory s; work_orders := work_orders s;
     production_logs := production_logs s; log_data := v |}.

Definition timezone_now (s : State) : datetime := clock s.

(** The next value of a table's auto-increment key. *)
Definition fresh_pk {A : Type} (table : gmap Z A) : Z := fresh (dom table).

(** *** core/signals.py: the audit writer *)

Definition get_current_request (s : State) : option Request.t := thread_request s.

Definition set_current_request (request : option Request.t) (s : State) : State :=
  with_thread_request request s.

(** [LogData.objects.create(...)]: [timestamp] is [auto_now_add], the key is
    the next one.  No receiver is connected for the sender [LogData], so the
    insertion sends its [post_save] to nobody. *)
Definition LogData_objects_create (row : LogData.t) (s : State) : State :=
  let k := fresh_pk (log_data s) in
  let row := LogData.with_id k (LogData.with_timestamp (timezone_now s) row) in
  with_log_data (<[k := row]> (log_data s)) s.

(** [
    def create_log(action_type, description, user=None, employee=None,
                   model_name=None, object_id=None, nfc_uid=None):
        request = get_current_request()
        ip_address = None
        device_info = None
        if request:
            ip_address = request.META.get('REMOTE_ADDR')
            device_info = request.META.get('HTTP_USER_AGENT', '')[:200]
            if not user and request.user.is_authenticated:
                user = request.user
            if not employee and hasattr(request.user, 'profile') and request.user.profile.employee:
                employee = request.user.profile.employee
        LogData.objects.create(...)
    ] *)
Definition create_log (action_type description : string)
    (user employee : option Z) (model_name : option string)
    (object_id : option Z) (nfc_uid : option string) (s : State) : State :=
  let ip_address := get_current_request s ≫= Request.REMOTE_ADDR in
  let device_info :=
    (λ request, substring 0 200 (default "" (Request.HTTP_USER_AGENT request)))
      <$> get_current_request s in
  let user :=
    match get_current_request s, user with
    | Some request, None =>
        if User.is_authenticated (Request.user request)
        then Some (User.id (Request.user request))
        else None
    | _, _ => user
    end in
  let employee :=
    match get_current_request s, employee with
    | Some request, None => User.profile (Request.user request) ≫= UserProfile.employee
    | _, _ => employee
    end in
  LogData_objects_create
    {| LogData.id := None; LogData.user := user; LogData.employee := employee;
       LogData.action_type := action_type; LogData.model_name := model_name;
       LogData.object_id := object_id; LogData.description := description;
       LogData.ip_address := ip_address; LogData.device_info := device_info;
       LogData.nfc_uid := nfc_uid; LogData.timestamp := 0 |} s.

(** What each receiver writes once it holds the text of its instance.
    [text] is [str(instance)]; for an Employee the source prints
    [instance.employee_id] and [instance.full_name], which spell the same
    text as [Employee.str].  [owner] is [instance.user], which only
    [log_profile_save] reads and every UserProfile has: [
    @receiver(post_save, sender=UserProfile)
    def log_profile_save(sender, instance, created, ...):
        if not created:
            create_log(action_type='update',
                       description=f'User profile updated for {instance.user.username}',
                       model_name='UserProfile', object_id=instance.id,
                       user=instance.user)
    ] *)
Definition log_entry (h : Handler) (instance_id : Z) (text : string)
    (owner : option User.t) (created : bool) (s : State) : State :=
  match h with
  | log_employee_save =>
      create_log (if created then "create" else "update")
        ("Employee " ++ text ++ " " ++ (if created then "created" else "updated"))
        None None (Some "Employee") (Some instance_id) None s
  | log_profile_save =>
      if created then s
      else
        create_log "update"
          ("User profile updated for " ++ default "" (User.username <$> owner))
          (User.id <$> owner) None (Some "UserProfile") (Some instance_id) None s
  | log_model_save model_name =>
      create_log (if created then "create" else "update")
        (model_name ++ " " ++ text ++ " " ++ (if created then "created" else "updated"))
        None None (Some model_name) (Some instance_id) None s
  | log_model_delete model_name =>
      create_log "delete" (model_name ++ " " ++ text ++ " deleted")
        None None (Some model_name) (Some instance_id) None s
  end.

(** The call of one receiver.  The receiver builds its description itself:
    [label] is the evaluation of [str(instance)] that the f-string performs,
    and it raises where [__str__] follows a reference whose row is gone.
    [log_profile_save] does not print the instance. *)
Definition run_handler (h : Handler) (instance_id : Z) (label : Result string)
    (owner : option User.t) (created : bool) (s : State) : Result State :=
  match h with
  | log_profile_save => Ok (log_entry h instance_id "" owner created s)
  | _ => text ← label; Ok (log_entry h instance_id text owner created s)
  end.

(** [Signal.send]: call, in the order of connection, the receivers of this
    signal and sender; what a receiver raises leaves [send]. *)
Definition listens (sig : Signal) (model_class : string) (r : Receiver) : bool :=
  bool_decide (signal r = sig) && bool_decide (sender r = model_class).

Definition send (sig : Signal) (model_class : string) (instance_id : Z)
    (label : Result string) (owner : option User.t) (created : bool) (s : State)
    : Result State :=
  foldl (λ acc r, s ← acc; run_handler (handler r) instance_id label owner created s)
    (Ok s)
    (filter (λ r, listens sig model_class r = true) (receivers s)).

(** [Signal.send] for an instance whose text is at hand, as it is for the
    instance a caller has just built or read with what it refers to: no
    receiver can raise, and [send] is [deliver] (lemma [send_Ok]). *)
Definition deliver (sig : Signal) (model_class : string) (instance_id : Z)
    (text : string) (owner : option User.t) (created : bool) (s : State) : State :=
  foldl (λ s r, log_entry (handler r) instance_id text owner created s) s
    (filter (λ r, listens sig model_class r = true) (receivers s)).

(** *** django.db.models.Model

    What the code uses of the base class: the class name, the primary key,
    [__str__], the table behind [objects], the columns the framework fills on
    save ([auto_now_add] on insertion, [auto_now] on every save), and the
    values the columns take on a write.

    [get_db_prep_save]: a [DecimalField] column keeps [decimal_places]
    digits, and the value of the instance is rounded half to even on its way
    to the column, while the instance keeps the value it has.  (A value with
    more digits than [max_digits] makes the write raise; values are taken
    within the [max_digits] of their columns.)  The rounding is written out
    for Inventory and for the two order lines, whose [save] computes a
    decimal column from two others.  The instances of the other classes are
    taken with decimal values of at most two places, as the console's forms
    deliver them and as the rows read back from the tables hold them; the
    rounding leaves such a value as it is (lemma [quantize_cents]), and
    their rows are written as the instance holds them. *)
Class Model (A : Type) : Type := {
  class_name : string;
  pk : A → option Z;
  with_pk : Z → A → A;
  to_str : A → string;
  objects : State → gmap Z A;
  with_objects : gmap Z A → State → State;
  pre_save : datetime → bool → A → A;
  get_db_prep_save : A → A;
}.

(** The values the decimal columns take, each
    [DecimalField(..., decimal_places=2)]. *)
Definition PurchaseOrderLine_db_values (self : PurchaseOrderLine.t)
    : PurchaseOrderLine.t :=
  {| PurchaseOrderLine.id := PurchaseOrderLine.id self;
     PurchaseOrderLine.purchase_order := PurchaseOrderLine.purchase_order self;
     PurchaseOrderLine.product := PurchaseOrderLine.product self;
     PurchaseOrderLine.quantity := Decimal.quantize 2 (PurchaseOrderLine.quantity self);
     PurchaseOrderLine.unit_price :=
       Decimal.quantize 2 (PurchaseOrderLine.unit_price self);
     PurchaseOrderLine.total_price :=
       Decimal.quantize 2 <$> PurchaseOrderLine.total_price self;
     PurchaseOrderLine.received_quantity :=
       Decimal.quantize 2 (PurchaseOrderLine.received_quantity self) |}.

Definition SalesOrderLine_db_values (self : SalesOrderLine.t) : SalesOrderLine.t :=
  {| SalesOrderLine.id := SalesOrderLine.id self;
     SalesOrderLine.sales_order := SalesOrderLine.sales_order self;
     SalesOrderLine.product := SalesOrderLine.product self;
     SalesOrderLine.quantity := Decimal.quantize 2 (SalesOrderLine.quantity self);
     SalesOrderLine.unit_price := Decimal.quantize 2 (SalesOrderLine.unit_price self);
     SalesOrderLine.total_price :=
       Decimal.quantize 2 <$> SalesOrderLine.total_price self;
     SalesOrderLine.shipped_quantity :=
       Decimal.quantize 2 (SalesOrderLine.shipped_quantity self) |}.

Definition Inventory_db_values (self : Inventory.t) : Inventory.t :=
  {| Inventory.id := Inventory.id self; Inventory.product := Inventory.product self;
     Inventory.material := Inventory.material self;
     Inventory.warehouse := Inventory.warehouse self;
     Inventory.location := Inventory.location self;
     Inventory.quantity_on_hand := Decimal.quantize 2 (Inventory.quantity_on_hand self);
     Inventory.quantity_reserved :=
       Decimal.quantize 2 (Inventory.quantity_reserved self);
     Inventory.quantity_available :=
       Decimal.quantize 2 (Inventory.quantity_available self);
     Inventory.last_count_date := Inventory.last_count_date self;
     Inventory.updated_at := Inventory.updated_at self |}.

#[global] Instance Employee_Model : Model Employee.t := {|
  class_name := "Employee";
  pk := Employee.id;
  with_pk := Employee.with_id;
  to_str := Employee.str;
  objects := employees;
  with_objects := with_employees;
  pre_save := λ now created self,
    Employee.with_timestamps (if created then now else Employee.created_at self) now self;
  get_db_prep_save := λ self, self;
|}.

#[global] Instance Product_Model : Model Product.t := {|
  class_name := "Product";
  pk := Product.id;
  with_pk := Product.with_id;
  to_str := Product.str;
  objects := products;
  with_objects := with_products;
  pre_save := λ now created self,
    Product.with_timestamps (if created then now else Product.created_at self) now self;
  get_db_prep_save := λ self, self;
|}.

#[global] Instance PurchaseOrderLine_Model : Model PurchaseOrderLine.t := {|
  class_name := "PurchaseOrderLine";
  pk := PurchaseOrderLine.id;
  with_pk := PurchaseOrderLine.with_id;
  to_str := λ self, pretty (PurchaseOrderLine.purchase_order self) ++ " - "
                      ++ pretty (PurchaseOrderLine.product self);
  objects := purchase_order_lines;
  with_objects := with_purchase_order_lines;
  pre_save := λ _ _ self, self;
  get_db_prep_save := PurchaseOrderLine_db_values;
|}.

#[global] Instance SalesOrderLine_Model : Model SalesOrderLine.t := {|
  class_name := "SalesOrderLine";
  pk := SalesOrderLine.id;
  with_pk := SalesOrderLine.with_id;
  to_str := λ self, pretty (SalesOrderLine.sales_order self) ++ " - "
                      ++ pretty (SalesOrderLine.product self);
  objects := sales_order_lines;
  with_objects := with_sales_order_lines;
  pre_save := λ _ _ self, self;
  get_db_prep_save := SalesOrderLine_db_values;
|}.

#[global] Instance Inventory_Model : Model Inventory.t := {|
  class_name := "Inventory";
  pk := Inventory.id;
  with_pk := Inventory.with_id;
  to_str := Inventory.str;
  objects := inventory;
  with_objects := with_inventory;
  pre_save := λ now _ self, Inventory.with_updated_at now self;
  get_db_prep_save := Inventory_db_values;
|}.

#[global] Instance WorkOrder_Model : Model WorkOrder.t := {|
  class_name := "WorkOrder";
  pk := WorkOrder.id;
  with_pk := WorkOrder.with_id;
  to_str := WorkOrder.str;
  objects := work_orders;
  with_objects := with_work_orders;
  pre_save := λ now created self,
    WorkOrder.with_timestamps (if created then now else WorkOrder.created_at self) now self;
  get_db_prep_save := λ self, self;
|}.

#[global] Instance LogData_Model : Model LogData.t := {|
  class_name := "LogData";
  pk := LogData.id;
  with_pk := LogData.with_id;
  to_str := λ self, pretty (LogData.timestamp self) ++ " - "
                      ++ LogData.action_type self ++ ": " ++ LogData.description self;
  objects := log_data;
  with_objects := with_log_data;
  pre_save := λ now created self,
    if created then LogData.with_timestamp now self else self;
  get_db_prep_save := λ self, self;
|}.

#[global] Instance ProductionLog_Model : Model ProductionLog.t := {|
  class_name := "ProductionLog";
  pk := ProductionLog.id;
  with_pk := ProductionLog.with_id;
  to_str := ProductionLog.str;
  objects := production_logs;
  with_objects := with_production_logs;
  pre_save := λ _ _ self, self;
  get_db_prep_save := λ self, self;
|}.

Section Orm.
Context {A : Type} `{Model A}.

(** [Model.save()]: an instance without a key, or whose key has no row, is
    inserted ([created] is true); otherwise its row is replaced.  The
    instance comes back with its key and the framework-filled columns; the
    row takes the values of [get_db_prep_save]; [post_save] is sent, with the
    instance, once the row is written.  The instance is the caller's, with
    what it refers to at hand: its text is a value. *)
Definition Model_save (self : A) (s : State) : A * State :=
  let created :=
    match pk self with
    | Some k => bool_decide (objects s !! k = None)
    | None => true
    end in
  let k := default (fresh_pk (objects s)) (pk self) in
  let self := pre_save (timezone_now s) created (with_pk k self) in
  (self,
   deliver post_save class_name k (to_str self) None created
     (with_objects (<[k := get_db_prep_save self]> (objects s)) s)).

(** [Model.objects.create] with keyword arguments: build the instance, save it. *)
Definition objects_create (self : A) (s : State) : A * State :=
  Model_save self s.

(** [Model.objects.get(pk=k)]: the instance built from the row of key
    [k]. *)
Definition objects_get (k : Z) (s : State) : Result A :=
  match objects s !! k with
  | Some self => Ok (with_pk k self)
  | None => Raise (DoesNotExist class_name)
  end.

(** [Model.objects.all()]: one instance per row. *)
Definition objects_all (s : State) : list A :=
  (λ row, with_pk row.1 row.2) <$> map_to_list (objects s).

(** The row of the instance that [delete()] is called on leaving its table,
    and [post_delete] for it; the instance is the caller's, so its text is a
    value.  What the deletion does to the rows that reference it is written
    with each class below, from its [on_delete] declarations. *)
Definition Model_delete_row (self : A) (s : State) : Result State :=
  match pk self with
  | Some k =>
      send post_delete class_name k (Ok (to_str self)) None false
        (with_objects (delete k (objects s)) s)
  | None => Ok s
  end.
End Orm.

(** *** core/signals.py: registration

    [connect] is the effect of the [@receiver] decorator, which connects with
    the default weak reference.  [held] says whether something besides the
    registry holds the receiver once the code that defined it has run; a
    receiver that nothing holds is collected then and is never called. *)
Definition connect (held : bool) (r : Receiver) (s : State) : State :=
  if held then with_receivers (receivers s ++ [r])%list s else s.

(** Importing core/signals.py defines [log_employee_save] and
    [log_profile_save] at the top level of the module, which holds them for
    as long as the process runs.  (The receivers of the two session signals
    are defined there as well; they are [log_user_login] and
    [log_user_logout] below.) *)
Definition import_core_signals (s : State) : State :=
  let s := connect true {| signal := post_save; sender := "Employee";
                           handler := log_employee_save |} s in
  connect true {| signal := post_save; sender := "UserProfile";
                  handler := log_profile_save |} s.

(** [
    def create_generic_log_signal(model_class, model_name):
        @receiver(post_save, sender=model_class)
        def log_model_save(sender, instance, created, ...): ...
        @receiver(post_delete, sender=model_class)
        def log_model_delete(sender, instance, ...): ...
    ]
    The two functions are local to the call, which returns nothing: when it
    returns, the local names are gone, and the registry's weak references do
    not keep the functions.  One thing can: with [settings.DEBUG] on,
    [Signal.connect] checks that the receiver accepts keyword arguments, and
    the check goes through a cache of [django.utils.inspect] that keeps the
    function it has inspected.  So the two receivers are held exactly when
    [DEBUG] is on. *)
Definition create_generic_log_signal (DEBUG : bool) (model_class model_name : string)
    (s : State) : State :=
  let s := connect DEBUG {| signal := post_save; sender := model_class;
                            handler := log_model_save model_name |} s in
  connect DEBUG {| signal := post_delete; sender := model_class;
                   handler := log_model_delete model_name |} s.

Definition models_to_track : list (string * string) :=
  [ ("Product", "Product"); ("PurchaseOrder", "PurchaseOrder");
    ("SalesOrder", "SalesOrder"); ("Invoice", "Invoice");
    ("WorkOrder", "WorkOrder"); ("ProductionLog", "ProductionLog");
    ("QualityCheck", "QualityCheck"); ("Material", "Material");
    ("BOM", "BOM"); ("Inventory", "Inventory");
    ("StockMovement", "StockMovement"); ("PurchaseRequest", "PurchaseRequest") ].

Definition register_model_signals (DEBUG : bool) (s : State) : State :=
  foldl (λ s '(model_class, model_name),
           create_generic_log_signal DEBUG model_class model_name s)
    s models_to_track.

(** core/apps.py, [CoreConfig.ready], in a process whose settings have
    [DEBUG] as given. *)
Definition ready (DEBUG : bool) (s : State) : State :=
  register_model_signals DEBUG (import_core_signals s).

(** ** Writes of the model classes *)

(** [not s] for a nullable text column: [None] and the empty string. *)
Definition blank (v : option string) : bool :=
  match v with
  | None => true
  | Some v => bool_decide (v = "")
  end.

(** erp/models.py, [Product.save]: [
      if not self.sku:
          self.sku = f"SKU-{self.product_number}"
      super().save(...)
    ] *)
Definition Product_save (self : Product.t) (s : State) : Product.t * State :=
  let self :=
    if blank (Product.sku self)
    then Product.with_sku (Some ("SKU-" ++ Product.product_number self)) self
    else self in
  Model_save self s.

(** erp/models.py, [PurchaseOrderLine.save] and [SalesOrderLine.save]: [
      self.total_price = self.quantity * self.unit_price
      super().save(...)
    ] *)
Definition PurchaseOrderLine_save (self : PurchaseOrderLine.t) (s : State)
    : PurchaseOrderLine.t * State :=
  let self :=
    PurchaseOrderLine.with_total_price
      (Some (PurchaseOrderLine.quantity self * PurchaseOrderLine.unit_price self)%Qc)
      self in
  Model_save self s.

Definition SalesOrderLine_save (self : SalesOrderLine.t) (s : State)
    : SalesOrderLine.t * State :=
  let self :=
    SalesOrderLine.with_total_price
      (Some (SalesOrderLine.quantity self * SalesOrderLine.unit_price self)%Qc)
      self in
  Model_save self s.

(** mrp/models.py, [Inventory.save]: [
      self.quantity_available = self.quantity_on_hand - self.quantity_reserved
      super().save(...)
    ] *)
Definition Inventory_save (self : Inventory.t) (s : State) : Inventory.t * State :=
  let self :=
    Inventory.with_quantity_available
      (Inventory.quantity_on_hand self - Inventory.quantity_reserved self)%Qc
      self in
  Model_save self s.

(** ** Deletions, from the [on_delete] declarations *)

(** [Model.delete()] raises on an instance that was never saved.  A
    PurchaseOrderLine is referenced by nothing. *)
Definition PurchaseOrderLine_delete (self : PurchaseOrderLine.t) (s : State)
    : Result State :=
  match PurchaseOrderLine.id self with
  | None => Raise ValueError
  | Some _ => Model_delete_row self s
  end.

Definition Inventory_with_product (v : option Product.t) (self : Inventory.t)
    : Inventory.t :=
  {| Inventory.id := Inventory.id self; Inventory.product := v;
     Inventory.material := Inventory.material self;
     Inventory.warehouse := Inventory.warehouse self;
     Inventory.location := Inventory.location self;
     Inventory.quantity_on_hand := Inventory.quantity_on_hand self;
     Inventory.quantity_reserved := Inventory.quantity_reserved self;
     Inventory.quantity_available := Inventory.quantity_available self;
     Inventory.last_count_date := Inventory.last_count_date self;
     Inventory.updated_at := Inventory.updated_at self |}.

(** The column [product_id] of an inventory row. *)
Definition Inventory_product_id (inv : Inventory.t) : option Z :=
  Inventory.product inv ≫= Product.id.

(** [str(inv)] for an Inventory instance that was loaded from its row
    without what it refers to, as the deletion collector loads the rows it
    takes along: [item = self.product or self.material] fetches the product
    of [product_id], and raises [Product.DoesNotExist] when that row is
    gone. *)
Definition Inventory_str_loaded (s : State) (inv : Inventory.t) : Result string :=
  match Inventory_product_id inv with
  | Some product_id =>
      match products s !! product_id with
      | Some product =>
          Ok (Inventory.str (Inventory_with_product
                               (Some (Product.with_id product_id product)) inv))
      | None => Raise (DoesNotExist "Product")
      end
  | None => Ok (Inventory.str inv)
  end.

(** Of the rows that reference a Product, the store holds order lines, work
    orders and inventory rows.  A Product is protected by the order lines and
    work orders that name it ([on_delete=PROTECT]); its inventory rows go
    with it ([on_delete=CASCADE]).

    The collector deletes class by class, each class's rows in one statement
    followed by [post_delete] for each of its instances.  [Inventory.product]
    is nullable, so the collector records no order between the two classes
    and keeps the one in which it met them: the Product first, then the
    inventory rows it collected for it.  A receiver of Inventory's
    [post_delete] therefore prints an instance whose product is gone.  All of
    it runs in one transaction, which an exception rolls back. *)
Definition Product_protected (k : Z) (s : State) : bool :=
  bool_decide (Exists (λ l, PurchaseOrderLine.product l = k) (objects_all s))
  || bool_decide (Exists (λ l, SalesOrderLine.product l = k) (objects_all s))
  || bool_decide (Exists (λ wo, Product.id (WorkOrder.product wo) = Some k)
                    (objects_all s)).

Definition Product_inventory (k : Z) (s : State) : list Inventory.t :=
  filter (λ inv, Inventory_product_id inv = Some k) (objects_all s).

Definition Product_delete (self : Product.t) (s : State) : Result State :=
  match Product.id self with
  | None => Raise ValueError
  | Some k =>
      if Product_protected k s then Raise (ProtectedError "Product")
      else
        let rows := Product_inventory k s in
        s ← Model_delete_row self s;
        let s :=
          with_inventory
            (filter (λ row, Inventory_product_id row.2 ≠ Some k) (inventory s)) s in
        foldl (λ acc inv,
                 s ← acc;
                 send post_delete "Inventory" (default 0 (Inventory.id inv))
                   (Inventory_str_loaded s inv) None false s)
          (Ok s) rows
  end.

(** The tables once a Product and the inventory rows that name it are
    gone. *)
Definition without_product (k : Z) (s : State) : State :=
  with_inventory (filter (λ row, Inventory_product_id row.2 ≠ Some k) (inventory s))
    (with_products (delete k (products s)) s).

(** Every reference to an Employee is [on_delete=SET_NULL]: the rows that
    name the employee stay, with the reference cleared. *)
Definition clear_ref (k : Z) (ref : option Z) : option Z :=
  if bool_decide (ref = Some k) then None else ref.

Definition Employee_delete (self : Employee.t) (s : State) : Result State :=
  match Employee.id self with
  | None => Raise ValueError
  | Some k =>
      let s :=
        with_log_data
          ((λ row, LogData.with_employee (clear_ref k (LogData.employee row)) row)
             <$> log_data s) s in
      let s :=
        with_work_orders
          ((λ wo, WorkOrder.with_created_by (clear_ref k (WorkOrder.created_by wo)) wo)
             <$> work_orders s) s in
      let s :=
        with_production_logs
          ((λ pl, ProductionLog.with_operator
                    (clear_ref k (ProductionLog.operator pl)) pl)
             <$> production_logs s) s in
      let s :=
        with_users
          ((λ u, User.with_profile
                   ((λ p, UserProfile.with_employee
                            (clear_ref k (UserProfile.employee p)) p)
                      <$> User.profile u) u)
             <$> users s) s in
      Model_delete_row self s
  end.

(** [LogData.user] is [on_delete=SET_NULL] as well; the profile of the
    account goes with the account. *)
Definition User_delete (self : User.t) (s : State) : Result State :=
  let k := User.id self in
  let s :=
    with_log_data
      ((λ row, LogData.with_user (clear_ref k (LogData.user row)) row)
         <$> log_data s) s in
  Ok (with_users (delete k (users s)) s).

(** A LogData row is referenced by nothing, and nothing listens to its
    [post_delete]. *)
Definition LogData_delete (self : LogData.t) (s : State) : Result State :=
  match LogData.id self with
  | None => Raise ValueError
  | Some k => Ok (with_log_data (delete k (log_data s)) s)
  end.

(** [LogData.objects.all()], in the order of [Meta.ordering]. *)
Definition LogData_objects_all (s : State) : list LogData.t :=
  merge_sort LogData.newer_or_equal (objects_all s).

(** ** The console (django.contrib.admin)

    *** Permissions

    [ModelAdmin.has_add_permission], [has_change_permission] and
    [has_delete_permission] ask, unless a subclass overrides them, whether the
    account holds the permission [<app>.<action>_<model>]. *)
Module ModelAdmin.
Definition has_add_permission (app model : string) (request : Request.t) : bool :=
  User.has_perm (Request.user request) (app ++ ".add_" ++ model).

Definition has_change_permission (app model : string) (request : Request.t) : bool :=
  User.has_perm (Request.user request) (app ++ ".change_" ++ model).

Definition has_delete_permission (app model : string) (request : Request.t) : bool :=
  User.has_perm (Request.user request) (app ++ ".delete_" ++ model).
End ModelAdmin.

(** core/admin.py, [LogDataAdmin]: [
      def has_add_permission(self, request):
          return False
      def has_change_permission(self, request, obj=None):
          return False
    ]
    [has_delete_permission] is not overridden. *)
Module LogDataAdmin.
Definition has_add_permission (request : Request.t) : bool := false.

Definition has_change_permission (request : Request.t) : bool := false.

Definition has_delete_permission : Request.t → bool :=
  ModelAdmin.has_delete_permission "core" "logdata".

(** The add, change and delete views of the admin site, each behind its
    permission. *)
Definition add_view (request : Request.t) (row : LogData.t) (s : State)
    : Result State :=
  if has_add_permission request
  then Ok (LogData_objects_create row s)
  else Raise PermissionDenied.

Definition change_view (request : Request.t) (object_id : Z) (row : LogData.t)
    (s : State) : Result State :=
  if has_change_permission request
  then _ ← objects_get (A := LogData.t) object_id s;
       Ok (with_log_data (<[object_id := LogData.with_id object_id row]>
                            (log_data s)) s)
  else Raise PermissionDenied.

Definition delete_view (request : Request.t) (object_id : Z) (s : State)
    : Result State :=
  if has_delete_permission request
  then self ← objects_get (A := LogData.t) object_id s; LogData_delete self s
  else Raise PermissionDenied.
End LogDataAdmin.

(** [EmployeeAdmin] and the [UserAdmin] keep the permissions of [ModelAdmin]. *)
Module EmployeeAdmin.
Definition delete_view (request : Request.t) (object_id : Z) (s : State)
    : Result State :=
  if ModelAdmin.has_delete_permission "core" "employee" request
  then self ← objects_get (A := Employee.t) object_id s; Employee_delete self s
  else Raise PermissionDenied.
End EmployeeAdmin.

Module UserAdmin.
Definition delete_view (request : Request.t) (object_id : Z) (s : State)
    : Result State :=
  if ModelAdmin.has_delete_permission "auth" "user" request
  then
    match users s !! object_id with
    | Some self => User_delete self s
    | None => Raise (DoesNotExist "User")
    end
  else Raise PermissionDenied.
End UserAdmin.

Module ProductAdmin.
Definition add_view (request : Request.t) (obj : Product.t) (s : State)
    : Result State :=
  if ModelAdmin.has_add_permission "erp" "product" request
  then Ok (Product_save obj s).2
  else Raise PermissionDenied.

Definition change_view (request : Request.t) (object_id : Z) (obj : Product.t)
    (s : State) : Result State :=
  if ModelAdmin.has_change_permission "erp" "product" request
  then _ ← objects_get (A := Product.t) object_id s;
       Ok (Product_save (Product.with_id object_id obj) s).2
  else Raise PermissionDenied.

Definition delete_view (request : Request.t) (object_id : Z) (s : State)
    : Result State :=
  if ModelAdmin.has_delete_permission "erp" "product" request
  then self ← objects_get (A := Product.t) object_id s; Product_delete self s
  else Raise PermissionDenied.
End ProductAdmin.

(** *** mes/admin.py, [WorkOrderAdmin] *)

(** What a transition view answers: a redirect to the change page of the work
    order, and one message of the given level. *)
Record Response : Type := {
  redirect_to : string * Z;
  message : string * string;
}.

Module WorkOrderAdmin.
(** [
    def action_buttons(self, obj):
        buttons = []
        if obj.status == 'ready':
            buttons.append(<a href="/admin/mes/workorder/{obj.id}/start/" ...>Start</a>)
        if obj.status == 'in_progress':
            buttons.append(<a href=".../{obj.id}/pause/" ...>Pause</a>)
            buttons.append(<a href=".../{obj.id}/stop/" ...>Stop</a>)
        if obj.status == 'paused':
            buttons.append(<a href=".../{obj.id}/resume/" ...>Resume</a>)
        return format_html(' '.join(buttons))
    ]
    Each button is kept as its target and its label. *)
Definition href (obj : WorkOrder.t) (action : string) : string :=
  "/admin/mes/workorder/" ++ from_option pretty "None" (WorkOrder.id obj)
    ++ "/" ++ action ++ "/".

Definition action_buttons (obj : WorkOrder.t) : list (string * string) :=
  let buttons : list (string * string) := [] in
  let buttons :=
    if bool_decide (WorkOrder.status obj = "ready")
    then (buttons ++ [(href obj "start", "Start")])%list
    else buttons in
  let buttons :=
    if bool_decide (WorkOrder.status obj = "in_progress")
    then (buttons ++ [(href obj "pause", "Pause"); (href obj "stop", "Stop")])%list
    else buttons in
  let buttons :=
    if bool_decide (WorkOrder.status obj = "paused")
    then (buttons ++ [(href obj "resume", "Resume")])%list
    else buttons in
  buttons.

(** [request.user.profile.employee if hasattr(request.user, 'profile') else None] *)
Definition operator_of (request : Request.t) : option Z :=
  match User.profile (Request.user request) with
  | Some profile => UserProfile.employee profile
  | None => None
  end.

(** [ProductionLog.objects.create(work_order=work_order, operator=...,
    action_type=..., timestamp=timezone.now())]; the other columns take
    their defaults. *)
Definition log_transition (request : Request.t) (work_order : WorkOrder.t)
    (action_type : string) (s : State) : State :=
  (objects_create
     {| ProductionLog.id := None;
        ProductionLog.work_order := work_order;
        ProductionLog.operator := operator_of request;
        ProductionLog.shift := None;
        ProductionLog.action_type := action_type;
        ProductionLog.timestamp := timezone_now s;
        ProductionLog.quantity := 0%Qc;
        ProductionLog.rejects := 0%Qc;
        ProductionLog.downtime_minutes := 0%Qc;
        ProductionLog.downtime_reason := None;
        ProductionLog.nfc_uid := None;
        ProductionLog.notes := None |} s).2.

Definition respond (level text : string) (work_order : WorkOrder.t)
    (object_id : Z) : Response :=
  {| redirect_to := ("admin:mes_workorder_change", object_id);
     message := (level, "Work Order " ++ WorkOrder.wo_number work_order ++ text) |}.

(** [
    def start_work_order(self, request, object_id):
        work_order = WorkOrder.objects.get(pk=object_id)
        work_order.status = 'in_progress'
        work_order.actual_start = timezone.now()
        work_order.save()
        ProductionLog.objects.create(work_order=work_order, operator=...,
                                     action_type='start', timestamp=timezone.now())
        messages.success(request, _(f'Work Order {work_order.wo_number} started.'))
        return redirect('admin:mes_workorder_change', object_id)
    ] *)
Definition start_work_order (request : Request.t) (object_id : Z) (s : State)
    : Result (Response * State) :=
  work_order ← objects_get object_id s;
  let work_order := WorkOrder.with_status "in_progress" work_order in
  let work_order := WorkOrder.with_actual_start (Some (timezone_now s)) work_order in
  let '(work_order, s) := Model_save work_order s in
  let s := log_transition request work_order "start" s in
  Ok (respond "success" " started." work_order object_id, s).

(** [stop_work_order]: status ['completed'], [actual_end = timezone.now()],
    log ['stop']. *)
Definition stop_work_order (request : Request.t) (object_id : Z) (s : State)
    : Result (Response * State) :=
  work_order ← objects_get object_id s;
  let work_order := WorkOrder.with_status "completed" work_order in
  let work_order := WorkOrder.with_actual_end (Some (timezone_now s)) work_order in
  let '(work_order, s) := Model_save work_order s in
  let s := log_transition request work_order "stop" s in
  Ok (respond "success" " completed." work_order object_id, s).

(** [
    def pause_work_order(self, request, object_id):
        work_order = WorkOrder.objects.get(pk=object_id)
        work_order.status = 'paused'
        work_order.save()
        ProductionLog.objects.create(work_order=work_order, operator=...,
                                     action_type='pause', timestamp=timezone.now())
        messages.warning(request, _(f'Work Order {work_order.wo_number} paused.'))
        return redirect('admin:mes_workorder_change', object_id)
    ] *)
Definition pause_work_order (request : Request.t) (object_id : Z) (s : State)
    : Result (Response * State) :=
  work_order ← objects_get object_id s;
  let work_order := WorkOrder.with_status "paused" work_order in
  let '(work_order, s) := Model_save work_order s in
  let s := log_transition request work_order "pause" s in
  Ok (respond "warning" " paused." work_order object_id, s).

(** [resume_work_order]: status ['in_progress'], log ['resume']. *)
Definition resume_work_order (request : Request.t) (object_id : Z) (s : State)
    : Result (Response * State) :=
  work_order ← objects_get object_id s;
  let work_order := WorkOrder.with_status "in_progress" work_order in
  let '(work_order, s) := Model_save work_order s in
  let s := log_transition request work_order "resume" s in
  Ok (respond "success" " resumed." work_order object_id, s).
End WorkOrderAdmin.

(** *** Requests to the console

    The operations of the console that the model covers, and their dispatch.
    [RequestMiddleware] holds the request in the thread-local slot while the
    view runs; [admin_site.admin_view] lets only staff accounts through and
    sends the others to the login page. *)
Inductive Console : Type :=
  | logdata_add (row : LogData.t)
  | logdata_change (object_id : Z) (row : LogData.t)
  | logdata_delete (object_id : Z)
  | employee_delete (object_id : Z)
  | user_delete (object_id : Z)
  | product_add (obj : Product.t)
  | product_change (object_id : Z) (obj : Product.t)
  | product_delete (object_id : Z)
  | workorder_start (object_id : Z)
  | workorder_stop (object_id : Z)
  | workorder_pause (object_id : Z)
  | workorder_resume (object_id : Z).

Definition view (op : Console) (request : Request.t) (s : State) : Result State :=
  match op with
  | logdata_add row => LogDataAdmin.add_view request row s
  | logdata_change k row => LogDataAdmin.change_view request k row s
  | logdata_delete k => LogDataAdmin.delete_view request k s
  | employee_delete k => EmployeeAdmin.delete_view request k s
  | user_delete k => UserAdmin.delete_view request k s
  | product_add obj => ProductAdmin.add_view request obj s
  | product_change k obj => ProductAdmin.change_view request k obj s
  | product_delete k => ProductAdmin.delete_view request k s
  | workorder_start k => snd <$> WorkOrderAdmin.start_work_order request k s
  | workorder_stop k => snd <$> WorkOrderAdmin.stop_work_order request k s
  | workorder_pause k => snd <$> WorkOrderAdmin.pause_work_order request k s
  | workorder_resume k => snd <$> WorkOrderAdmin.resume_work_order request k s
  end.

Definition admin_view (v : Request.t → State → Result State)
    (request : Request.t) (s : State) : Result State :=
  if User.is_authenticated (Request.user request) && User.is_staff (Request.user request)
  then v request s
  else Ok s.

(** The test of [admin_view]: the accounts whose requests reach the view. *)
Definition let_through (request : Request.t) : bool :=
  User.is_authenticated (Request.user request) && User.is_staff (Request.user request).

(** [
    def __call__(self, request):
        set_current_request(request)
        response = self.get_response(request)
        set_current_request(None)
        return response
    ] *)
Definition RequestMiddleware (get_response : Request.t → State → Result State)
    (request : Request.t) (s : State) : Result State :=
  let s := set_current_request (Some request) s in
  s ← get_response request s;
  Ok (set_current_request None s).

Definition console (op : Console) (request : Request.t) (s : State) : Result State :=
  RequestMiddleware (admin_view (view op)) request s.

(** ** dashboard/views.py: the [oee] entry of [get_kpis] *)

Section Dashboard.
(** [today.replace(day=1)] for [today = timezone.now().date()], as the
    instant the filter compares with: the calendar is the standard
    library's. *)
Variable month_start_of : datetime → datetime.

(** [
    wo_this_month = WorkOrder.objects.filter(planned_start__gte=month_start)
    completed_wo = wo_this_month.filter(status='completed')
    ] *)
Definition planned_start__gte (month_start : datetime) (wo : WorkOrder.t) : bool :=
  match WorkOrder.planned_start wo with
  | Some t => bool_decide (month_start ≤ t)%Z
  | None => false
  end.

Definition completed_wo (s : State) : list WorkOrder.t :=
  let month_start := month_start_of (timezone_now s) in
  let wo_this_month :=
    filter (λ wo, planned_start__gte month_start wo = true) (objects_all s) in
  filter (λ wo, WorkOrder.status wo = "completed") wo_this_month.

(** [
    oee = 0
    if completed_wo.exists():
        efficiency_avg = 0
        count = 0
        for wo in completed_wo:
            if wo.efficiency:
                efficiency_avg += wo.efficiency
                count += 1
        oee = (efficiency_avg / count) if count > 0 else 0
    ...
    'oee': round(oee, 1),
    ]
    [if wo.efficiency:] takes the truth value of [None] or of a number. *)
Definition oee_step (acc : Decimal.t * Z) (wo : WorkOrder.t) : Decimal.t * Z :=
  match WorkOrder.efficiency wo with
  | Some e => if Decimal.truthy e then ((acc.1 + e)%Qc, (acc.2 + 1)%Z) else acc
  | None => acc
  end.

Definition get_kpis_oee (s : State) : Decimal.t :=
  let oee :=
    match completed_wo s with
    | [] => 0%Qc
    | _ =>
        let '(efficiency_avg, count) := foldl oee_step (0%Qc, 0%Z) (completed_wo s) in
        if (0 <? count)%Z then (efficiency_avg / Decimal.of_Z count)%Qc else 0%Qc
    end in
  Decimal.round oee 1.

(** The KPI as the specification words it: the mean of [efficiency] over
    the completed work orders of the month that have one, to one decimal;
    zero when there is none. *)
Definition defined_efficiencies (s : State) : list Decimal.t :=
  omap WorkOrder.efficiency (completed_wo s).

Definition spec_oee (s : State) : Decimal.t :=
  let es := defined_efficiencies s in
  match es with
  | [] => 0%Qc
  | _ => Decimal.round (foldr Qcplus 0%Qc es / Decimal.of_Z (Z.of_nat (length es)))%Qc 1
  end.
End Dashboard.


(** ** mrp/models.py as the specification words it

    The cost of a bill of materials: the sum over its lines of quantity times
    the material's unit cost, for a line that references a Material, or
    quantity times the component's cost, for a line that references a
    component Product.  (The data model gives a line exactly one of the two;
    a line is read as a Material line when it names a Material.) *)
Definition spec_line_cost (line : BOMLine.t) : Decimal.t :=
  match BOMLine.material line, BOMLine.component line with
  | Some m, _ => (BOMLine.quantity line * Material.unit_cost m)%Qc
  | None, Some c => (BOMLine.quantity line * Product.cost c)%Qc
  | None, None => 0%Qc
  end.

Definition spec_total_cost (self : BOM.t) : Decimal.t :=
  foldr (λ line acc, spec_line_cost line + acc)%Qc 0%Qc (BOM.lines self).

(** ** Words of the specification about tables and work orders *)

(** [s'] is [s] with another audit log: every other table, the registry, the
    clock and the request slot are the same. *)
Definition only_log (s s' : State) : Prop := s' = with_log_data (log_data s') s.

(** [table'] is [table] with exactly one more row. *)
Definition appended {A : Type} (table table' : gmap Z A) (row : A) : Prop :=
  ∃ k, table !! k = None ∧ table' = <[k := row]> table.

(** The quantities and the schedule of a work order are the same in [wo']. *)
Definition same_quantities_and_schedule (wo wo' : WorkOrder.t) : Prop :=
  WorkOrder.planned_quantity wo' = WorkOrder.planned_quantity wo
  ∧ WorkOrder.produced_quantity wo' = WorkOrder.produced_quantity wo
  ∧ WorkOrder.rejected_quantity wo' = WorkOrder.rejected_quantity wo
  ∧ WorkOrder.actual_start wo' = WorkOrder.actual_start wo
  ∧ WorkOrder.actual_end wo' = WorkOrder.actual_end wo
  ∧ WorkOrder.planned_start wo' = WorkOrder.planned_start wo
  ∧ WorkOrder.planned_end wo' = WorkOrder.planned_end wo.

(** [row'] is [row] after the deletion of the account [deleted_user] or of the
    employee [deleted_employee]: a reference to what was deleted is cleared,
    every other reference and every other column is as it was. *)
Definition refs_cleared (deleted_user deleted_employee : option Z)
    (row row' : LogData.t) : Prop :=
  row' = LogData.with_user
           (if bool_decide (is_Some deleted_user ∧ LogData.user row = deleted_user)
            then None else LogData.user row)
           (LogData.with_employee
              (if bool_decide (is_Some deleted_employee
                               ∧ LogData.employee row = deleted_employee)
               then None else LogData.employee row)
              row).

(** ** More of the code

    *** mes/models.py: the derived indicators *)

(** [
    @property
    def completion_rate(self):
        if self.planned_quantity > 0:
            return (self.produced_quantity / self.planned_quantity) * 100
        return 0
    ] *)
Definition WorkOrder_completion_rate (self : WorkOrder.t) : Decimal.t :=
  if Decimal.ltb 0%Qc (WorkOrder.planned_quantity self)
  then (WorkOrder.produced_quantity self / WorkOrder.planned_quantity self
        * Decimal.of_Z 100)%Qc
  else 0%Qc.

(** [
    @property
    def is_delayed(self):
        if self.status in ['in_progress', 'pending'] and self.planned_end:
            return timezone.now() > self.planned_end
        return False
    ] *)
Definition WorkOrder_is_delayed (s : State) (self : WorkOrder.t) : bool :=
  if bool_decide (WorkOrder.status self ∈ ["in_progress"; "pending"])
  then
    match WorkOrder.planned_end self with
    | Some planned_end => bool_decide (planned_end < timezone_now s)%Z
    | None => false
    end
  else false.

Module QualityCheck.
Record t : Type := {
  id : option Z;
  check_number : string;
  work_order : Z;
  inspector : option Z;
  check_date : datetime;
  sample_size : Z;
  passed : Z;
  failed : Z;
  result : string;
}.

(** [
    @property
    def pass_rate(self):
        if self.sample_size > 0:
            return (self.passed / self.sample_size) * 100
        return 0
    ]
    The quotient of two integers is Python's true division. *)
Definition pass_rate (self : t) : Decimal.t :=
  if bool_decide (0 < sample_size self)%Z
  then (Decimal.of_Z (passed self) / Decimal.of_Z (sample_size self)
        * Decimal.of_Z 100)%Qc
  else 0%Qc.
End QualityCheck.

Module Downtime.
Record t : Type := {
  id : option Z;
  production_line : Z;
  machine : option Z;
  work_order : option Z;
  start_time : datetime;
  end_time : option datetime;
  reason : string;
  description : string;
}.

(** [
    @property
    def duration_minutes(self):
        if self.end_time:
            return (self.end_time - self.start_time).total_seconds() / 60
        return (timezone.now() - self.start_time).total_seconds() / 60
    ] *)
Definition duration_minutes (s : State) (self : t) : Decimal.t :=
  match end_time self with
  | Some end_time => (total_seconds (end_time - start_time self) / Decimal.of_Z 60)%Qc
  | None => (total_seconds (timezone_now s - start_time self) / Decimal.of_Z 60)%Qc
  end.
End Downtime.

(** *** mes/admin.py: the list columns

    A column renders markup through [format_html]; it is kept as the values
    it puts into the markup. *)

(** Python's [min(a, b)] on numbers. *)
Definition py_min (a b : Decimal.t) : Decimal.t := if Decimal.ltb b a then b else a.

(** [choices] and [get_FOO_display]: the label of a stored value, or the
    value itself where the choices do not list it. *)
Definition get_display (choices : list (string * string)) (value : string) : string :=
  default value ((list_to_map choices : gmap string string) !! value).

Definition WorkOrder_STATUS_CHOICES : list (string * string) :=
  [ ("pending", "Pending"); ("ready", "Ready to Start"); ("in_progress", "In Progress");
    ("paused", "Paused"); ("completed", "Completed"); ("cancelled", "Cancelled") ].

Module WorkOrderColumns.
Definition colors : gmap string string :=
  list_to_map
    [ ("pending", "gray"); ("ready", "blue"); ("in_progress", "green");
      ("paused", "orange"); ("completed", "darkgreen"); ("cancelled", "red") ].

(** The status glyphs of the source, by name. *)
Definition icons : gmap string string :=
  list_to_map
    [ ("pending", "circle"); ("ready", "half circle"); ("in_progress", "gear");
      ("paused", "pause"); ("completed", "check"); ("cancelled", "cross") ].

Record StatusIndicator : Type := {
  bg_style : string;
  color : string;
  icon : string;
  label : string;
}.

(** [
    def status_indicator(self, obj):
        color = colors.get(obj.status, 'gray')
        icon = icons.get(obj.status, <circle>)
        bg_style = ''
        if obj.is_delayed and obj.status in ['pending', 'in_progress']:
            bg_style = 'background-color: #ffcccc; '
        return format_html(..., bg_style, color, icon, obj.get_status_display())
    ] *)
Definition status_indicator (s : State) (obj : WorkOrder.t) : StatusIndicator :=
  {| bg_style :=
       if WorkOrder_is_delayed s obj
          && bool_decide (WorkOrder.status obj ∈ ["pending"; "in_progress"])
       then "background-color: #ffcccc; "
       else "";
     color := default "gray" (colors !! WorkOrder.status obj);
     icon := default "circle" (icons !! WorkOrder.status obj);
     label := get_display WorkOrder_STATUS_CHOICES (WorkOrder.status obj) |}.

(** [
    def progress_bar(self, obj):
        percentage = obj.completion_rate
        color = 'green' if percentage >= 100 else 'orange' if percentage >= 75 else 'blue'
        return format_html(..., min(percentage, 100), color, percentage)
    ]
    The width of the bar, its colour, the figure printed. *)
Definition progress_bar (obj : WorkOrder.t) : Decimal.t * string * Decimal.t :=
  let percentage := WorkOrder_completion_rate obj in
  let color :=
    if bool_decide (Decimal.of_Z 100 ≤ percentage)%Qc then "green"
    else if bool_decide (Decimal.of_Z 75 ≤ percentage)%Qc then "orange"
    else "blue" in
  (py_min percentage (Decimal.of_Z 100), color, percentage).

(** [
    def priority_badge(self, obj):
        color = 'red' if obj.priority <= 3 else 'orange' if obj.priority <= 6 else 'gray'
    ] *)
Definition priority_badge (obj : WorkOrder.t) : string * Z :=
  let color :=
    if bool_decide (WorkOrder.priority obj ≤ 3)%Z then "red"
    else if bool_decide (WorkOrder.priority obj ≤ 6)%Z then "orange"
    else "gray" in
  (color, WorkOrder.priority obj).

(** [
    def delay_indicator(self, obj):
        if obj.is_delayed:
            return format_html(<red>DELAYED)
        return format_html(<green>On Time)
    ] *)
Definition delay_indicator (s : State) (obj : WorkOrder.t) : string * string :=
  if WorkOrder_is_delayed s obj then ("red", "DELAYED") else ("green", "On Time").
End WorkOrderColumns.

(** [QualityCheckAdmin.pass_rate_display]: [
      rate = obj.pass_rate
      color = 'green' if rate >= 95 else 'orange' if rate >= 85 else 'red'
    ] *)
Definition pass_rate_display (obj : QualityCheck.t) : string * Decimal.t :=
  let rate := QualityCheck.pass_rate obj in
  let color :=
    if bool_decide (Decimal.of_Z 95 ≤ rate)%Qc then "green"
    else if bool_decide (Decimal.of_Z 85 ≤ rate)%Qc then "orange"
    else "red" in
  (color, rate).

(** [DowntimeAdmin.duration_display]: [
      duration = obj.duration_minutes
      if duration >= 60:
          hours = duration / 60
          return format_html('... {} hrs ...', hours)
      return format_html('... {} min ...', duration)
    ] *)
Definition duration_display (s : State) (obj : Downtime.t) : Decimal.t * string :=
  let duration := Downtime.duration_minutes s obj in
  if bool_decide (Decimal.of_Z 60 ≤ duration)%Qc
  then ((duration / Decimal.of_Z 60)%Qc, "hrs")
  else (duration, "min").

(** [s'] is [s] but for work orders, production logs and the audit log. *)
Definition same_outside_production (s s' : State) : Prop :=
  clock s' = clock s
  ∧ thread_request s' = thread_request s
  ∧ receivers s' = receivers s
  ∧ users s' = users s
  ∧ employees s' = employees s
  ∧ products s' = products s
  ∧ purchase_order_lines s' = purchase_order_lines s
  ∧ sales_order_lines s' = sales_order_lines s
  ∧ inventory s' = inventory s.


(** Time passes: the same store, [d] microseconds later. *)
Definition later (d : timedelta) (s : State) : State :=
  {| clock := clock s + d; thread_request := thread_request s;
     receivers := receivers s; users := users s; employees := employees s;
     products := products s; purchase_order_lines := purchase_order_lines s;
     sales_order_lines := sales_order_lines s; inventory := inventory s;
     work_orders := work_orders s; production_logs := production_logs s;
     log_data := log_data s |}.

(** The microseconds a downtime has lasted: up to its end, or up to now while
    it is open. *)
Definition elapsed (s : State) (obj : Downtime.t) : timedelta :=
  default (timezone_now s) (Downtime.end_time obj) - Downtime.start_time obj.

(** *** core/signals.py: the session receivers *)

(** [
    @receiver(user_logged_in)
    def log_user_login(sender, request, user, ...):
        nfc_uid = None
        if hasattr(user, 'profile'):
            nfc_uid = user.profile.nfc_uid
        create_log(action_type='login',
                   description=f'User {user.username} logged in',
                   user=user, nfc_uid=nfc_uid)
    ] *)
Definition log_user_login (request : Request.t) (user : User.t) (s : State) : State :=
  let nfc_uid :=
    match User.profile user with
    | Some profile => UserProfile.nfc_uid profile
    | None => None
    end in
  create_log "login" ("User " ++ User.username user ++ " logged in")
    (Some (User.id user)) None None None nfc_uid s.

(** [
    @receiver(user_logged_out)
    def log_user_logout(sender, request, user, ...):
        if user:
            create_log(action_type='logout',
                       description=f'User {user.username} logged out',
                       user=user)
    ]
    The signal carries [user=None] for a session that was not logged in. *)
Definition log_user_logout (request : Request.t) (user : option User.t) (s : State)
    : State :=
  match user with
  | Some user =>
      create_log "logout" ("User " ++ User.username user ++ " logged out")
        (Some (User.id user)) None None None None s
  | None => s
  end.

(** *** core/admin.py: the description column of the audit log

    A Python string is a sequence of code points, which [len] counts and a
    slice cuts.  A string is held here as its UTF-8 encoding, in which a code
    point is one leading byte followed by the continuation bytes [10xxxxxx]
    that belong to it: [py_len] counts the leading bytes, and [py_take n]
    keeps the bytes of the first [n] code points. *)
Definition is_continuation (c : ascii) : bool :=
  match c with
  | Ascii _ _ _ _ _ _ b6 b7 => b7 && negb b6
  end.

Fixpoint py_len (s : string) : nat :=
  match s with
  | EmptyString => 0
  | String c rest => if is_continuation c then py_len rest else S (py_len rest)
  end.

Fixpoint py_take (n : nat) (s : string) : string :=
  match s with
  | EmptyString => EmptyString
  | String c rest =>
      if is_continuation c then String c (py_take n rest)
      else
        match n with
        | O => EmptyString
        | S m => String c (py_take m rest)
        end
  end.

(** [
    def short_description(self, obj):
        if len(obj.description) > 50:
            return obj.description[:50] + '...'
        return obj.description
    ] *)
Definition short_description (obj : LogData.t) : string :=
  if bool_decide (50 < py_len (LogData.description obj))%nat
  then py_take 50 (LogData.description obj) ++ "..."
  else LogData.description obj.

(** *** erp/admin.py: the product list *)

(** [
    def margin_display(self, obj):
        margin = obj.margin
        color = 'green' if margin > 20 else 'orange' if margin > 10 else 'red'
        return format_html(..., color, margin)
    ] *)
Definition margin_display (obj : Product.t) : string * Decimal.t :=
  let margin := Product.margin obj in
  let color :=
    if Decimal.ltb (Decimal.of_Z 20) margin then "green"
    else if Decimal.ltb (Decimal.of_Z 10) margin then "orange"
    else "red" in
  (color, margin).

(** [QuerySet.update(column=value)]: one UPDATE statement over the rows of
    the query.  No instance is built and [save] is not called, so no
    [auto_now] column is refreshed and no signal is sent.  The result is the
    number of rows the query matches. *)
Definition QuerySet_update {A : Type} (matches : Z → A → bool) (assign : A → A)
    (table : gmap Z A) : Z * gmap Z A :=
  (Z.of_nat (size (filter (λ row, matches row.1 row.2 = true) table)),
   map_imap (λ k row, Some (if matches k row then assign row else row)) table).

Definition Product_with_active (v : bool) (self : Product.t) : Product.t :=
  {| Product.id := Product.id self; Product.product_number := Product.product_number self;
     Product.name := Product.name self; Product.sku := Product.sku self;
     Product.barcode := Product.barcode self;
     Product.product_type := Product.product_type self;
     Product.price := Product.price self; Product.cost := Product.cost self;
     Product.unit := Product.unit self; Product.min_stock := Product.min_stock self;
     Product.max_stock := Product.max_stock self; Product.active := v;
     Product.created_at := Product.created_at self;
     Product.updated_at := Product.updated_at self |}.

(** [
    def activate_products(self, request, queryset):
        updated = queryset.update(active=True)
        self.message_user(request, _(f'{updated} products activated.'))
    ]
    The queryset of an action holds the rows ticked in the list, given here
    by their keys; the action answers with its message. *)
Definition activate_products (request : Request.t) (queryset : list Z) (s : State)
    : string * State :=
  let '(updated, table) :=
    QuerySet_update (λ k _, bool_decide (k ∈ queryset)) (Product_with_active true)
      (products s) in
  (pretty updated ++ " products activated.", with_products table s).

Definition deactivate_products (request : Request.t) (queryset : list Z) (s : State)
    : string * State :=
  let '(updated, table) :=
    QuerySet_update (λ k _, bool_decide (k ∈ queryset)) (Product_with_active false)
      (products s) in
  (pretty updated ++ " products deactivated.", with_products table s).

(** *** erp/models.py and erp/admin.py: purchase orders and invoices *)

Module PurchaseOrder.
Record t : Type := {
  id : option Z;
  po_number : string;
  supplier : Z;
  status : string;
  total_amount : Decimal.t;
  created_by : option Z;
  created_at : datetime;
  updated_at : datetime;
}.

Definition with_status (v : string) (self : t) : t :=
  {| id := id self; po_number := po_number self; supplier := supplier self;
     status := v; total_amount := total_amount self; created_by := created_by self;
     created_at := created_at self; updated_at := updated_at self |}.
End PurchaseOrder.

(** [
    def mark_as_sent(self, request, queryset):
        updated = queryset.filter(status='draft').update(status='sent')
        self.message_user(request, _(f'{updated} orders marked as sent.'))
    def mark_as_confirmed(self, request, queryset):
        updated = queryset.filter(status='sent').update(status='confirmed')
        self.message_user(request, _(f'{updated} orders confirmed.'))
    ]
    on the table of purchase orders. *)
Definition mark_as_sent (request : Request.t) (queryset : list Z)
    (purchase_orders : gmap Z PurchaseOrder.t) : string * gmap Z PurchaseOrder.t :=
  let '(updated, table) :=
    QuerySet_update
      (λ k row, bool_decide (k ∈ queryset)
                && bool_decide (PurchaseOrder.status row = "draft"))
      (PurchaseOrder.with_status "sent") purchase_orders in
  (pretty updated ++ " orders marked as sent.", table).

Definition mark_as_confirmed (request : Request.t) (queryset : list Z)
    (purchase_orders : gmap Z PurchaseOrder.t) : string * gmap Z PurchaseOrder.t :=
  let '(updated, table) :=
    QuerySet_update
      (λ k row, bool_decide (k ∈ queryset)
                && bool_decide (PurchaseOrder.status row = "sent"))
      (PurchaseOrder.with_status "confirmed") purchase_orders in
  (pretty updated ++ " orders confirmed.", table).

Module Invoice.
Record t : Type := {
  id : option Z;
  invoice_number : string;
  invoice_type : string;
  status : string;
  subtotal : Decimal.t;
  tax : Decimal.t;
  total : Decimal.t;
  paid_amount : Decimal.t;
}.

(** [
    @property
    def balance(self):
        return self.total - self.paid_amount
    ] *)
Definition balance (self : t) : Decimal.t := (total self - paid_amount self)%Qc.
End Invoice.

(** [
    def balance_display(self, obj):
        balance = obj.balance
        if balance > 0:
            return format_html(<red>, balance)
        return format_html(<green>Paid)
    ] *)
Definition balance_display (obj : Invoice.t) : string * string + string * Decimal.t :=
  let balance := Invoice.balance obj in
  if Decimal.ltb 0%Qc balance then inr ("red", balance) else inl ("green", "Paid").

(** A product whose number is edited in its form. *)
Definition Product_with_product_number (v : string) (self : Product.t) : Product.t :=
  {| Product.id := Product.id self; Product.product_number := v;
     Product.name := Product.name self; Product.sku := Product.sku self;
     Product.barcode := Product.barcode self;
     Product.product_type := Product.product_type self;
     Product.price := Product.price self; Product.cost := Product.cost self;
     Product.unit := Product.unit self; Product.min_stock := Product.min_stock self;
     Product.max_stock := Product.max_stock self; Product.active := Product.active self;
     Product.created_at := Product.created_at self;
     Product.updated_at := Product.updated_at self |}.

(** *** mrp/admin.py: the inventory list *)

(** [
    def stock_status(self, obj):
        if obj.is_low_stock:
            return format_html(<red badge>LOW)
        elif obj.quantity_available <= 0:
            return format_html(<dark red badge>OUT)
        return format_html(<green>OK)
    ] *)
Definition stock_status (obj : Inventory.t) : string :=
  if Inventory.is_low_stock obj then "LOW"
  else if bool_decide (Inventory.quantity_available obj ≤ 0)%Qc then "OUT"
  else "OK".

(** *** dashboard/views.py: the other entries of [get_kpis], the alerts and
    the activity feed *)

(** [
    low_stock_count = Inventory.objects.filter(
        Q(product__isnull=False, quantity_available__lt=F('product__min_stock')) |
        Q(material__isnull=False, quantity_available__lt=0)
    ).count()
    ] *)
Definition low_stock_Q (inv : Inventory.t) : bool :=
  match Inventory.product inv with
  | Some product => Decimal.ltb (Inventory.quantity_available inv) (Product.min_stock product)
  | None => false
  end
  || match Inventory.material inv with
     | Some _ => Decimal.ltb (Inventory.quantity_available inv) 0%Qc
     | None => false
     end.

Definition low_stock_count (s : State) : Z :=
  Z.of_nat (length (filter (λ inv, low_stock_Q inv = true) (objects_all s))).

(** [
    'active_work_orders': WorkOrder.objects.filter(status='in_progress').count(),
    'pending_work_orders': WorkOrder.objects.filter(status__in=['pending', 'ready']).count(),
    ] *)
Definition active_work_orders (s : State) : Z :=
  Z.of_nat (length (filter (λ wo, WorkOrder.status wo = "in_progress")
                      (objects_all (A := WorkOrder.t) s))).

Definition pending_work_orders (s : State) : Z :=
  Z.of_nat (length (filter (λ wo, WorkOrder.status wo ∈ ["pending"; "ready"])
                      (objects_all (A := WorkOrder.t) s))).

(** One entry of [get_inventory_alerts]. *)
Record Alert : Type := {
  alert_type : string;
  item : string;
  current : Decimal.t;
  minimum : option Decimal.t;
  severity : string;
}.

(** [
    def get_inventory_alerts():
        alerts = []
        low_stock = Inventory.objects.filter(
            product__isnull=False,
            quantity_available__lt=F('product__min_stock')
        ).select_related('product')[:10]
        for inv in low_stock:
            alerts.append({'type': 'low_stock', 'item': inv.product.name,
                           'current': float(inv.quantity_available),
                           'minimum': float(inv.product.min_stock),
                           'severity': 'high' if inv.quantity_available <= 0 else 'medium'})
        low_materials = Inventory.objects.filter(
            material__isnull=False, quantity_available__lt=10
        ).select_related('material')[:10]
        for inv in low_materials:
            alerts.append({'type': 'low_material', 'item': inv.material.name,
                           'current': float(inv.quantity_available),
                           'severity': 'high' if inv.quantity_available <= 0 else 'medium'})
        return alerts
    ]
    Neither query is ordered, so the store decides which ten rows a slice
    keeps; the rows are taken in the order of [objects_all]. *)
Definition alert_severity (inv : Inventory.t) : string :=
  if bool_decide (Inventory.quantity_available inv ≤ 0)%Qc then "high" else "medium".

Definition low_stock_alert (inv : Inventory.t) : option Alert :=
  match Inventory.product inv with
  | Some product =>
      if Decimal.ltb (Inventory.quantity_available inv) (Product.min_stock product)
      then Some {| alert_type := "low_stock"; item := Product.name product;
                   current := Inventory.quantity_available inv;
                   minimum := Some (Product.min_stock product);
                   severity := alert_severity inv |}
      else None
  | None => None
  end.

Definition low_material_alert (inv : Inventory.t) : option Alert :=
  match Inventory.material inv with
  | Some material =>
      if Decimal.ltb (Inventory.quantity_available inv) (Decimal.of_Z 10)
      then Some {| alert_type := "low_material"; item := Material.name material;
                   current := Inventory.quantity_available inv;
                   minimum := None;
                   severity := alert_severity inv |}
      else None
  | None => None
  end.

Definition get_inventory_alerts (s : State) : list Alert :=
  (take 10 (omap low_stock_alert (objects_all s))
   ++ take 10 (omap low_material_alert (objects_all s)))%list.

Definition LogData_ACTION_TYPES : list (string * string) :=
  [ ("create", "Create"); ("update", "Update"); ("delete", "Delete");
    ("login", "Login"); ("logout", "Logout"); ("start", "Start Operation");
    ("stop", "Stop Operation"); ("pause", "Pause"); ("complete", "Complete");
    ("nfc_scan", "NFC Scan"); ("other", "Other") ].

Record Activity : Type := {
  activity_timestamp : datetime;
  activity_user : string;
  activity_action : string;
  activity_description : string;
}.

(** [
    def get_recent_activities():
        recent_logs = LogData.objects.select_related('user', 'employee')
                                     .order_by('-timestamp')[:20]
        activities = []
        for log in recent_logs:
            activities.append({
                'timestamp': log.timestamp,
                'user': log.user.username if log.user else 'System',
                'action': log.get_action_type_display(),
                'description': log.description})
        return activities
    ]
    [select_related] joins the account of each row; a row without one comes
    with [log.user] set to [None]. *)
Definition activity_of (s : State) (log : LogData.t) : Activity :=
  {| activity_timestamp := LogData.timestamp log;
     activity_user :=
       match LogData.user log ≫= (λ k, users s !! k) with
       | Some user => User.username user
       | None => "System"
       end;
     activity_action := get_display LogData_ACTION_TYPES (LogData.action_type log);
     activity_description := LogData.description log |}.

Definition get_recent_activities (s : State) : list Activity :=
  activity_of s <$> take 20 (LogData_objects_all s).
(** ** Sample data *)

Definition sample_product (price cost min_stock : Z) : Product.t :=
  {| Product.id := Some 1; Product.product_number := "PRD001";
     Product.name := "Smart Widget A"; Product.sku := None; Product.barcode := None;
     Product.product_type := "finished";
     Product.price := Decimal.of_Z price; Product.cost := Decimal.of_Z cost;
     Product.unit := "pcs";
     Product.min_stock := Decimal.of_Z min_stock; Product.max_stock := Decimal.of_Z 0;
     Product.active := true; Product.created_at := 0; Product.updated_at := 0 |}.


Definition blank_state : State :=
  {| clock := 1700000000000000; thread_request := None; receivers := [];
     users := ∅; employees := ∅; products := ∅; purchase_order_lines := ∅;
     sales_order_lines := ∅; inventory := ∅; work_orders := ∅;
     production_logs := ∅; log_data := ∅ |}.

(** The application once [CoreConfig.ready] has run with [DEBUG] on, as
    under the development server: every receiver of core/signals.py is
    live. *)
Definition started : State := ready true blank_state.

Definition startup_receivers : list Receiver := receivers started.

(** The application once [CoreConfig.ready] has run with [DEBUG] off, as in
    production: the receivers of the module are live, the receivers local to
    [create_generic_log_signal] are gone. *)
Definition started_production : State := ready false blank_state.

Definition production_receivers : list Receiver := receivers started_production.

Definition sample_po_line (quantity unit_price : Decimal.t) (total : option Decimal.t)
    : PurchaseOrderLine.t :=
  {| PurchaseOrderLine.id := None; PurchaseOrderLine.purchase_order := 1;
     PurchaseOrderLine.product := 1; PurchaseOrderLine.quantity := quantity;
     PurchaseOrderLine.unit_price := unit_price;
     PurchaseOrderLine.total_price := total;
     PurchaseOrderLine.received_quantity := 0%Qc |}.

Definition sample_so_line (quantity unit_price : Decimal.t) (total : option Decimal.t)
    : SalesOrderLine.t :=
  {| SalesOrderLine.id := None; SalesOrderLine.sales_order := 1;
     SalesOrderLine.product := 1; SalesOrderLine.quantity := quantity;
     SalesOrderLine.unit_price := unit_price;
     SalesOrderLine.total_price := total;
     SalesOrderLine.shipped_quantity := 0%Qc |}.

Definition sample_material (unit_cost : Z) : Material.t :=
  {| Material.id := Some 1; Material.material_code := "MAT001";
     Material.name := "Steel Sheet"; Material.material_type := "raw";
     Material.unit := "kg"; Material.unit_cost := Decimal.of_Z unit_cost;
     Material.lead_time_days := 7; Material.min_order_quantity := 1%Qc;
     Material.active := true |}.

Definition sample_inventory (product : option Product.t) (material : option Material.t)
    (on_hand reserved available : Z) : Inventory.t :=
  {| Inventory.id := None; Inventory.product := product; Inventory.material := material;
     Inventory.warehouse := "Main"; Inventory.location := None;
     Inventory.quantity_on_hand := Decimal.of_Z on_hand;
     Inventory.quantity_reserved := Decimal.of_Z reserved;
     Inventory.quantity_available := Decimal.of_Z available;
     Inventory.last_count_date := None; Inventory.updated_at := 0 |}.

(** A product with no minimum stock configured, five units short. *)
Definition overdrawn_inventory : Inventory.t :=
  sample_inventory (Some (sample_product 150 80 0)) None 0 5 (-5).

Definition sample_bom_line (line_number : Z) (material : option Material.t)
    (component : option Product.t) (quantity scrap_factor : Z) : BOMLine.t :=
  {| BOMLine.id := Some line_number; BOMLine.bom := 1;
     BOMLine.line_number := line_number;
     BOMLine.material := material; BOMLine.component := component;
     BOMLine.quantity := Decimal.of_Z quantity; BOMLine.unit := "pcs";
     BOMLine.scrap_factor := Decimal.of_Z scrap_factor |}.

(** One line of 2 of a material at 50, one line of 4 of a component at 25. *)
Definition sample_bom (scrap1 scrap2 : Z) : BOM.t :=
  {| BOM.id := Some 1; BOM.bom_number := "BOM001";
     BOM.product := sample_product 150 80 0; BOM.version := "1.0";
     BOM.active := true;
     BOM.lines :=
       [ sample_bom_line 1 (Some (sample_material 50)) None 2 scrap1;
         sample_bom_line 2 None (Some (sample_product 40 25 0)) 4 scrap2 ] |}.

Definition sample_work_order (k : Z) (status : string)
    (planned_start planned_end actual_start actual_end : option Z) : WorkOrder.t :=
  {| WorkOrder.id := Some k; WorkOrder.wo_number := "WO-" ++ pretty k;
     WorkOrder.sales_order := None; WorkOrder.product := sample_product 150 80 0;
     WorkOrder.production_line := None;
     WorkOrder.planned_quantity := Decimal.of_Z 200;
     WorkOrder.produced_quantity := Decimal.of_Z 180;
     WorkOrder.rejected_quantity := Decimal.of_Z 5;
     WorkOrder.planned_start := planned_start; WorkOrder.planned_end := planned_end;
     WorkOrder.actual_start := actual_start; WorkOrder.actual_end := actual_end;
     WorkOrder.status := status; WorkOrder.priority := 5; WorkOrder.notes := None;
     WorkOrder.created_by := None;
     WorkOrder.created_at := 1600000000000000; WorkOrder.updated_at := 1600000000000000 |}.

Definition staff_user : User.t :=
  {| User.id := 1; User.username := "admin"; User.is_authenticated := true;
     User.is_staff := true; User.is_superuser := true; User.user_permissions := [];
     User.profile :=
       Some {| UserProfile.id := 1; UserProfile.employee := Some 3;
               UserProfile.nfc_uid := None; UserProfile.language := "en";
               UserProfile.theme := "light" |} |}.

Definition staff_request : Request.t :=
  {| Request.user := staff_user; Request.REMOTE_ADDR := Some "127.0.0.1";
     Request.HTTP_USER_AGENT := Some "Mozilla/5.0" |}.

(** A shop floor with one pending work order (7), one in progress (8) and one
    paused (9). *)
Definition shop_floor : State :=
  with_work_orders
    (<[7 := sample_work_order 7 "pending" (Some 1690000000000000) None None None]>
       (<[8 := sample_work_order 8 "in_progress" (Some 1690000000000000) None
                 (Some 1695000000000000) None]>
          (<[9 := sample_work_order 9 "paused" (Some 1690000000000000) None
                    (Some 1695000000000000) None]> ∅)))
    started.

(** Two work orders completed in the month, each run for one hour: the first
    was planned with no duration (planned end equal to planned start), the
    second was planned for one hour. *)
Definition hour : Z := 3600000000.

Definition kpi_month_start (now : Z) : Z := 1698796800000000.

Definition kpi_floor : State :=
  with_work_orders
    (<[1 := sample_work_order 1 "completed"
              (Some 1699000000000000) (Some 1699000000000000)
              (Some 1699000000000000) (Some (1699000000000000 + hour))]>
       (<[2 := sample_work_order 2 "completed"
                 (Some 1699100000000000) (Some (1699100000000000 + hour))
                 (Some 1699100000000000) (Some (1699100000000000 + hour))]> ∅))
    started.

Definition sample_employee : Employee.t :=
  {| Employee.id := Some 3; Employee.employee_id := "EMP003";
     Employee.first_name := "Aiko"; Employee.last_name := "Sato";
     Employee.email := "aiko@example.com"; Employee.role := "operator";
     Employee.nfc_uid := None; Employee.active := true;
     Employee.created_at := 1600000000000000; Employee.updated_at := 1600000000000000 |}.

Definition sample_log (employee : option Z) (action_type : string) (timestamp : Z)
    : LogData.t :=
  {| LogData.id := None; LogData.user := Some 1; LogData.employee := employee;
     LogData.action_type := action_type; LogData.model_name := Some "WorkOrder";
     LogData.object_id := Some 7; LogData.description := "WorkOrder WO-7 updated";
     LogData.ip_address := Some "127.0.0.1"; LogData.device_info := Some "Mozilla/5.0";
     LogData.nfc_uid := None; LogData.timestamp := timestamp |}.

(** An application with one employee and two audit rows written for her. *)
Definition audited : State :=
  with_log_data
    (<[1 := LogData.with_id 1 (sample_log (Some 3) "update" 1699000000000000)]>
       (<[2 := LogData.with_id 2 (sample_log (Some 3) "start" 1699500000000000)]> ∅))
    (with_employees (<[3 := sample_employee]> ∅)
       (with_users (<[1 := staff_user]> ∅) started)).

(** A product not saved yet, and a catalogue that holds product 1 with a
    purchase order line (11). *)
Definition draft_product : Product.t :=
  {| Product.id := None; Product.product_number := "PRD002";
     Product.name := "Smart Widget B"; Product.sku := None; Product.barcode := None;
     Product.product_type := "finished";
     Product.price := Decimal.of_Z 120; Product.cost := Decimal.of_Z 70;
     Product.unit := "pcs";
     Product.min_stock := Decimal.of_Z 10; Product.max_stock := Decimal.of_Z 100;
     Product.active := true; Product.created_at := 0; Product.updated_at := 0 |}.

Definition line_11 : PurchaseOrderLine.t :=
  PurchaseOrderLine.with_id 11
    (sample_po_line (Decimal.of_Z 10) (Decimal.cents 2500) (Some (Decimal.of_Z 250))).

Definition catalogue : State :=
  with_purchase_order_lines (<[11 := line_11]> ∅)
    (with_products (<[1 := sample_product 150 80 0]> ∅) started).


(** An inventory row of a material, with quantities given in thousandths. *)
Definition sample_inventory_thousandths (on_hand reserved available : Z)
    : Inventory.t :=
  {| Inventory.id := None; Inventory.product := None;
     Inventory.material := Some (sample_material 50);
     Inventory.warehouse := "Main"; Inventory.location := None;
     Inventory.quantity_on_hand := (Qc_of_Z on_hand / Qc_of_Z 1000)%Qc;
     Inventory.quantity_reserved := (Qc_of_Z reserved / Qc_of_Z 1000)%Qc;
     Inventory.quantity_available := (Qc_of_Z available / Qc_of_Z 1000)%Qc;
     Inventory.last_count_date := None; Inventory.updated_at := 0 |}.

(** Product 2, which no order line and no work order names, with two
    inventory rows (21 and 22), next to product 1 and its order line; once
    under [DEBUG], once in production. *)
Definition product_2 : Product.t := Product.with_id 2 draft_product.

Definition inventory_of_product_2 (k on_hand : Z) : Inventory.t :=
  Inventory.with_id k (sample_inventory (Some product_2) None on_hand 0 on_hand).

Definition stocked (s : State) : State :=
  with_inventory
    (<[21 := inventory_of_product_2 21 40]> (<[22 := inventory_of_product_2 22 15]> ∅))
    (with_purchase_order_lines (<[11 := line_11]> ∅)
       (with_products (<[1 := sample_product 150 80 0]> (<[2 := product_2]> ∅)) s)).

Definition warehouse : State := stocked started.

Definition warehouse_production : State := stocked started_production.

(** The catalogue and the shop floor in production. *)
Definition catalogue_production : State :=
  with_purchase_order_lines (<[11 := line_11]> ∅)
    (with_products (<[1 := sample_product 150 80 0]> ∅) started_production).

Definition shop_floor_production : State :=
  with_receivers production_receivers shop_floor.

Definition sample_quality_check (sample_size passed failed : Z) : QualityCheck.t :=
  {| QualityCheck.id := Some 1; QualityCheck.check_number := "QC-001";
     QualityCheck.work_order := 8; QualityCheck.inspector := Some 3;
     QualityCheck.check_date := 1699000000000000;
     QualityCheck.sample_size := sample_size; QualityCheck.passed := passed;
     QualityCheck.failed := failed; QualityCheck.result := "pass" |}.

Definition sample_downtime (start_time : Z) (end_time : option Z) : Downtime.t :=
  {| Downtime.id := Some 1; Downtime.production_line := 1; Downtime.machine := None;
     Downtime.work_order := None; Downtime.start_time := start_time;
     Downtime.end_time := end_time; Downtime.reason := "breakdown";
     Downtime.description := "Conveyor belt jammed" |}.

Definition sample_purchase_order (k : Z) (status : string) : PurchaseOrder.t :=
  {| PurchaseOrder.id := Some k; PurchaseOrder.po_number := "PO-" ++ pretty k;
     PurchaseOrder.supplier := 1; PurchaseOrder.status := status;
     PurchaseOrder.total_amount := Decimal.of_Z 1000; PurchaseOrder.created_by := None;
     PurchaseOrder.created_at := 1600000000000000;
     PurchaseOrder.updated_at := 1600000000000000 |}.

Definition sample_invoice (total paid_amount : Z) (status : string) : Invoice.t :=
  {| Invoice.id := Some 1; Invoice.invoice_number := "INV-001";
     Invoice.invoice_type := "sales"; Invoice.status := status;
     Invoice.subtotal := Decimal.of_Z total; Invoice.tax := 0%Qc;
     Invoice.total := Decimal.of_Z total;
     Invoice.paid_amount := Decimal.of_Z paid_amount |}.
(** * Properties

    ** The audit writer touches the audit log only *)

Lemma only_log_refl s : only_log s s.
Proof. unfold only_log. by destruct s. Qed.

Lemma only_log_trans s1 s2 s3 : only_log s1 s2 → only_log s2 s3 → only_log s1 s3.
Proof. unfold only_log. intros H12 H23. rewrite H23 at 1. rewrite H12. reflexivity. Qed.

Lemma only_log_with_log_data m s : only_log s (with_log_data m s).
Proof. reflexivity. Qed.

Lemma create_log_only_log a d u e m o n s :
  only_log s (create_log a d u e m o n s).
Proof. reflexivity. Qed.

Lemma log_entry_only_log h k text owner created s :
  only_log s (log_entry h k text owner created s).
Proof.
  destruct h; cbn [log_entry]; try apply create_log_only_log.
  destruct created; [apply only_log_refl | apply create_log_only_log].
Qed.

Lemma foldl_only_log {B : Type} (f : State → B → State) (l : list B) :
  (∀ s b, only_log s (f s b)) → ∀ s, only_log s (foldl f s l).
Proof.
  intros Hf. induction l as [|b l IH]; intros s; simpl.
  - apply only_log_refl.
  - eapply only_log_trans; [apply Hf | apply IH].
Qed.

Lemma deliver_only_log sig cls k text owner created s :
  only_log s (deliver sig cls k text owner created s).
Proof.
  unfold deliver. apply foldl_only_log. intros. apply log_entry_only_log.
Qed.

(** A receiver that is handed the text of the instance cannot raise. *)
Lemma run_handler_Ok h k text owner created s :
  run_handler h k (Ok text) owner created s = Ok (log_entry h k text owner created s).
Proof. by destruct h, created. Qed.

Lemma foldl_run_handler_Ok k text owner created (l : list Receiver) s :
  foldl (λ acc r, s ← acc; run_handler (handler r) k (Ok text) owner created s) (Ok s) l
  = Ok (foldl (λ s r, log_entry (handler r) k text owner created s) s l).
Proof.
  revert s. induction l as [|r l IH]; intros s; [reflexivity|].
  cbn [foldl mbind Result_bind]. rewrite run_handler_Ok. apply IH.
Qed.

Lemma send_Ok sig cls k text owner created s :
  send sig cls k (Ok text) owner created s = Ok (deliver sig cls k text owner created s).
Proof. unfold send, deliver. apply foldl_run_handler_Ok. Qed.

(** Once a receiver has raised, the receivers after it are not called. *)
Lemma foldl_run_handler_Raise k label owner created (l : list Receiver) e :
  foldl (λ acc r, s ← acc; run_handler (handler r) k label owner created s) (Raise e) l
  = Raise e.
Proof. induction l as [|r l IH]; [reflexivity|]. cbn [foldl mbind Result_bind]. apply IH. Qed.

(** A signal nobody listens to does nothing, whatever the instance. *)
Lemma send_nobody sig cls k label owner created s :
  filter (λ r, listens sig cls r = true) (receivers s) = [] →
  send sig cls k label owner created s = Ok s.
Proof. unfold send. by intros ->. Qed.

Lemma run_handler_only_log h k label owner created s s' :
  run_handler h k label owner created s = Ok s' → only_log s s'.
Proof.
  destruct label as [text|e].
  - rewrite run_handler_Ok. intros [= <-].
    exact (log_entry_only_log h k text owner created s).
  - destruct h; cbn [run_handler mbind Result_bind]; try done.
    intros [= <-]. exact (log_entry_only_log log_profile_save k "" owner created s).
Qed.

Lemma foldl_run_handler_only_log k label owner created (l : list Receiver) s0 s s' :
  only_log s0 s →
  foldl (λ acc r, s ← acc; run_handler (handler r) k label owner created s) (Ok s) l
  = Ok s' →
  only_log s0 s'.
Proof.
  revert s. induction l as [|r l IH]; intros s Hs; cbn [foldl mbind Result_bind].
  - by intros [= <-].
  - destruct (run_handler (handler r) k label owner created s) as [s1|e] eqn:Hrun.
    + apply IH. eapply only_log_trans; [exact Hs|].
      by apply run_handler_only_log in Hrun.
    + by rewrite foldl_run_handler_Raise.
Qed.

Lemma send_only_log sig cls k label owner created s s' :
  send sig cls k label owner created s = Ok s' → only_log s s'.
Proof. apply foldl_run_handler_only_log, only_log_refl. Qed.

(** What [only_log] keeps, table by table. *)
Ltac frame_of H := rewrite H; reflexivity.

Lemma only_log_clock s s' : only_log s s' → clock s' = clock s.
Proof. intros H. frame_of H. Qed.
Lemma only_log_receivers s s' : only_log s s' → receivers s' = receivers s.
Proof. intros H. frame_of H. Qed.
Lemma only_log_thread_request s s' : only_log s s' → thread_request s' = thread_request s.
Proof. intros H. frame_of H. Qed.
Lemma only_log_products s s' : only_log s s' → products s' = products s.
Proof. intros H. frame_of H. Qed.
Lemma only_log_purchase_order_lines s s' :
  only_log s s' → purchase_order_lines s' = purchase_order_lines s.
Proof. intros H. frame_of H. Qed.
Lemma only_log_sales_order_lines s s' :
  only_log s s' → sales_order_lines s' = sales_order_lines s.
Proof. intros H. frame_of H. Qed.
Lemma only_log_inventory s s' : only_log s s' → inventory s' = inventory s.
Proof. intros H. frame_of H. Qed.
Lemma only_log_work_orders s s' : only_log s s' → work_orders s' = work_orders s.
Proof. intros H. frame_of H. Qed.
Lemma only_log_production_logs s s' :
  only_log s s' → production_logs s' = production_logs s.
Proof. intros H. frame_of H. Qed.

Lemma fresh_pk_None {A : Type} (table : gmap Z A) : table !! fresh_pk table = None.
Proof. apply not_elem_of_dom, is_fresh. Qed.

(** ** Product.margin *)

(** C9. For every Product, margin is (price - cost) / price * 100 when the
    price is positive, and 0 when the price is zero or negative, whatever the
    cost. *)
Theorem margin_formula (self : Product.t) :
  ((0 < Product.price self)%Qc →
     Product.margin self
     = ((Product.price self - Product.cost self) / Product.price self
        * Decimal.of_Z 100)%Qc)
  ∧ ((Product.price self ≤ 0)%Qc → Product.margin self = 0%Qc).
Proof.
  unfold Product.margin, Decimal.ltb. split; intros Hp.
  - by rewrite bool_decide_eq_true_2.
  - rewrite bool_decide_eq_false_2; [done|]. by apply Qcle_not_lt.
Qed.

(** The margin of the specification's example, price 150 and cost 80, and of
    a product given away. *)
Lemma margin_formula_witness :
  Product.margin (sample_product 150 80 0) = (Decimal.of_Z 140 / Decimal.of_Z 3)%Qc
  ∧ Product.margin (sample_product 0 80 0) = 0%Qc.
Proof.
  split.
  - rewrite (proj1 (margin_formula (sample_product 150 80 0))).
    + apply Qc_is_canon. reflexivity.
    + reflexivity.
  - apply (proj2 (margin_formula (sample_product 0 80 0))). discriminate.
Defined.

Example margin_150_80_to_two_decimals :
  Decimal.round (Product.margin (sample_product 150 80 0)) 2 = Decimal.cents 4667.
Proof. apply Qc_is_canon. reflexivity. Qed.

(** ** Column values

    A value given in hundredths is the value its column takes. *)

Lemma Qc_of_Z_this (n : Z) : this (Qc_of_Z n) = inject_Z n.
Proof.
  unfold Qc_of_Z, Q2Qc, inject_Z. cbn [this]. unfold Qred.
  pose proof (Z.ggcd_gcd n 1) as Hg.
  pose proof (Z.ggcd_correct_divisors n 1) as Hd.
  destruct (Z.ggcd n 1) as [g [aa bb]]. cbn [fst] in Hg. destruct Hd as [Ha Hb].
  rewrite Z.gcd_1_r in Hg. subst g. rewrite Z.mul_1_l in Ha, Hb. by subst aa bb.
Qed.

Lemma round_half_even_of_Z (n : Z) : Decimal.round_half_even (Qc_of_Z n) = n.
Proof.
  unfold Decimal.round_half_even. rewrite Qc_of_Z_this. cbn [inject_Z Qnum Qden].
  rewrite Z.mod_1_r, Z.div_1_r. reflexivity.
Qed.

Lemma quantize_cents (n : Z) : Decimal.quantize 2 (Decimal.cents n) = Decimal.cents n.
Proof.
  unfold Decimal.quantize, Decimal.round, Decimal.cents.
  change (10 ^ Z.of_nat 2)%Z with 100%Z.
  replace (Qc_of_Z n / Qc_of_Z 100 * Qc_of_Z 100)%Qc with (Qc_of_Z n).
  - by rewrite round_half_even_of_Z.
  - field. intros H. apply (f_equal (λ q, Qnum (this q))) in H. discriminate H.
Qed.

Lemma cents_minus (a b : Z) :
  Decimal.cents (a - b) = (Decimal.cents a - Decimal.cents b)%Qc.
Proof.
  unfold Decimal.cents.
  replace (Qc_of_Z (a - b)) with (Qc_of_Z a - Qc_of_Z b)%Qc.
  - field. intros H. apply (f_equal (λ q, Qnum (this q))) in H. discriminate H.
  - apply Qc_is_canon. unfold Qcminus, Qcplus, Qcopp. rewrite !Qc_of_Z_this.
    cbn [this Q2Qc]. rewrite !Qred_correct. unfold inject_Z, Qeq, Qplus, Qopp. cbn. lia.
Qed.

(** ** Order lines *)



(** Quantity 10 at unit price 25.00 gives 250.00 over a stale total of 7;
    once the quantity is 12, the total of 250 that was right for 10 gives
    way to 300. *)
Example line_total_10_by_25 :
  PurchaseOrderLine.total_price
    (PurchaseOrderLine_save
       (sample_po_line (Decimal.of_Z 10) (Decimal.cents 2500) (Some (Decimal.of_Z 7)))
       started).1
  = Some (Decimal.of_Z 250)
  ∧ SalesOrderLine.total_price
      (SalesOrderLine_save
         (sample_so_line (Decimal.of_Z 12) (Decimal.cents 2500) (Some (Decimal.of_Z 250)))
         started).1
    = Some (Decimal.of_Z 300).
Proof. split; simpl; f_equal; apply Qc_is_canon; reflexivity. Qed.

(** ** Inventory *)



Example inventory_available_100_30 :
  Inventory.quantity_available
    (Inventory_save (sample_inventory None (Some (sample_material 50)) 100 30 999)
       started).1
  = Decimal.of_Z 70.
Proof. apply Qc_is_canon. reflexivity. Qed.

(** C2, as the specification states it, fails on a Product row whose product
    has min_stock 0 and whose available quantity is negative: the quantity is
    below the minimum, and is_low_stock is false. *)
Lemma is_low_stock_counterexample :
  ¬ (Inventory.is_low_stock overdrawn_inventory = true
     ↔ ∃ p, Inventory.product overdrawn_inventory = Some p
            ∧ (Inventory.quantity_available overdrawn_inventory < Product.min_stock p)%Qc).
Proof.
  intros [_ H].
  assert (Hlow : Inventory.is_low_stock overdrawn_inventory = true).
  { apply H. eexists. split; [reflexivity|]. reflexivity. }
  vm_compute in Hlow. discriminate.
Qed.

(** C2, amended. is_low_stock is true exactly when the row references a
    Product whose min_stock is not zero and quantity_available is below that
    min_stock; a row that references no Product, a Material row among them,
    is never low, whatever its quantities. *)
Theorem is_low_stock_iff (self : Inventory.t) :
  (Inventory.is_low_stock self = true
   ↔ ∃ p, Inventory.product self = Some p
          ∧ Product.min_stock p ≠ 0%Qc
          ∧ (Inventory.quantity_available self < Product.min_stock p)%Qc)
  ∧ (Inventory.product self = None → Inventory.is_low_stock self = false).
Proof.
  unfold Inventory.is_low_stock, Decimal.truthy, Decimal.ltb. split.
  - destruct (Inventory.product self) as [p|].
    + split.
      * intros H. exists p. split; [done|].
        destruct (decide (Product.min_stock p = 0%Qc)) as [Hz|Hz].
        { rewrite bool_decide_eq_true_2 in H by done. discriminate. }
        rewrite bool_decide_eq_false_2 in H by done. simpl in H.
        by apply bool_decide_eq_true in H.
      * intros (p' & [= <-] & Hz & Hlt).
        rewrite (bool_decide_eq_false_2 _ Hz). simpl.
        by apply bool_decide_eq_true.
    + split; [discriminate | intros (p' & [=] & _)].
  - by intros ->.
Qed.

Lemma is_low_stock_iff_witness :
  Inventory.is_low_stock (sample_inventory (Some (sample_product 150 80 20)) None 15 5 10)
  = true
  ∧ Inventory.is_low_stock (sample_inventory None (Some (sample_material 50)) 0 5 (-5))
    = false.
Proof.
  split.
  - apply (proj1 (is_low_stock_iff _)). eexists. split; [reflexivity|].
    split; [discriminate | reflexivity].
  - apply (proj2 (is_low_stock_iff _)). reflexivity.
Defined.

(** ** Bill of materials *)

Lemma total_cost_loop (lines : list BOMLine.t) (total : Decimal.t) :
  foldl BOM.total_cost_step total lines
  = (total + foldr (λ line acc, spec_line_cost line + acc) 0 lines)%Qc.
Proof.
  revert total. induction lines as [|line lines IH]; intros total; simpl.
  - ring.
  - rewrite IH. unfold BOM.total_cost_step, spec_line_cost.
    destruct (BOMLine.material line), (BOMLine.component line); ring.
Qed.

Lemma total_cost_step_scrap (total v : Decimal.t) (line : BOMLine.t) :
  BOM.total_cost_step total (BOMLine.with_scrap_factor v line)
  = BOM.total_cost_step total line.
Proof. reflexivity. Qed.

(** C7. The total cost of a BOM is the sum, over its lines, of the raw
    quantity times the unit cost of the line's Material or, for a line with a
    component Product, times the component's cost; it does not depend on any
    line's scrap_factor. *)
Theorem total_cost_sums_raw_quantities (self : BOM.t) :
  BOM.total_cost self = spec_total_cost self
  ∧ ∀ scrap : BOMLine.t → Decimal.t,
      BOM.total_cost
        (BOM.with_lines
           ((λ line, BOMLine.with_scrap_factor (scrap line) line) <$> BOM.lines self)
           self)
      = BOM.total_cost self.
Proof.
  unfold BOM.total_cost, spec_total_cost. split.
  - rewrite total_cost_loop.
    replace (Decimal.of_Z 0) with 0%Qc by (apply Qc_is_canon; reflexivity). ring.
  - intros scrap. simpl. generalize (Decimal.of_Z 0).
    induction (BOM.lines self) as [|line lines IH]; intros total; simpl; [done|].
    rewrite total_cost_step_scrap. apply IH.
Qed.

(** The specification's example: 2 * 50 + 4 * 25 = 200, with any scrap
    factors. *)
Example total_cost_200 :
  BOM.total_cost (sample_bom 0 0) = Decimal.of_Z 200
  ∧ BOM.total_cost (sample_bom 5 12) = Decimal.of_Z 200.
Proof. split; apply Qc_is_canon; reflexivity. Qed.

(** ** Work-order transitions *)

Lemma save_existing_work_order (wo : WorkOrder.t) (k : Z) (s : State) :
  WorkOrder.id wo = Some k →
  is_Some (work_orders s !! k) →
  let wo' := WorkOrder.with_timestamps (WorkOrder.created_at wo) (timezone_now s) wo in
  (Model_save wo s).1 = WorkOrder.with_id k wo'
  ∧ only_log (with_work_orders (<[k := WorkOrder.with_id k wo']> (work_orders s)) s)
      (Model_save wo s).2.
Proof.
  intros Hid [old Hold] wo'. subst wo'. unfold Model_save; simpl.
  rewrite Hid; simpl. rewrite Hold; simpl. split; [reflexivity|].
  apply deliver_only_log.
Qed.

Lemma log_transition_effect (request : Request.t) (wo : WorkOrder.t) (action : string)
    (s : State) :
  ∃ pl,
    ProductionLog.action_type pl = action
    ∧ ProductionLog.work_order pl = wo
    ∧ ProductionLog.operator pl = WorkOrderAdmin.operator_of request
    ∧ ProductionLog.timestamp pl = timezone_now s
    ∧ only_log
        (with_production_logs (<[fresh_pk (production_logs s) := pl]> (production_logs s)) s)
        (WorkOrderAdmin.log_transition request wo action s).
Proof.
  unfold WorkOrderAdmin.log_transition, objects_create, Model_save; simpl.
  eexists. repeat split; [..|apply deliver_only_log]; reflexivity.
Qed.

(** The shape shared by the four transitions: the work order [prepared] by
    the view is saved over its row, and one production log is created. *)
Lemma transition_effect (request : Request.t) (k : Z) (s : State)
    (prepared : WorkOrder.t) (action : string) :
  WorkOrder.id prepared = Some k →
  is_Some (work_orders s !! k) →
  let wo' :=
    WorkOrder.with_id k
      (WorkOrder.with_timestamps (WorkOrder.created_at prepared) (timezone_now s) prepared) in
  let s' :=
    WorkOrderAdmin.log_transition request (Model_save prepared s).1 action
      (Model_save prepared s).2 in
  work_orders s' = <[k := wo']> (work_orders s)
  ∧ ∃ pl, appended (production_logs s) (production_logs s') pl
          ∧ ProductionLog.action_type pl = action
          ∧ ProductionLog.work_order pl = wo'
          ∧ ProductionLog.operator pl = WorkOrderAdmin.operator_of request
          ∧ ProductionLog.timestamp pl = timezone_now s.
Proof.
  intros Hid Hrow wo' s'. subst wo' s'.
  destruct (save_existing_work_order prepared k s Hid Hrow) as [Hwo Hs1].
  destruct (log_transition_effect request (Model_save prepared s).1 action
              (Model_save prepared s).2) as (pl & Hact & Hpl & Hop & Hts & Hs2).
  pose proof (only_log_production_logs _ _ Hs1) as Hlogs1.
  pose proof (only_log_clock _ _ Hs1) as Hclock1.
  cbn [production_logs clock with_work_orders] in Hlogs1, Hclock1.
  rewrite (only_log_work_orders _ _ Hs2). cbn [work_orders with_production_logs].
  rewrite (only_log_work_orders _ _ Hs1). cbn [work_orders with_work_orders].
  split; [reflexivity|].
  exists pl. rewrite (only_log_production_logs _ _ Hs2).
  cbn [production_logs with_production_logs]. rewrite Hlogs1.
  unfold timezone_now in *. rewrite Hclock1 in Hts.
  rewrite Hwo in Hpl. repeat split; try done.
  exists (fresh_pk (production_logs s)). split; [apply fresh_pk_None | reflexivity].
Qed.

Ltac run_transition request object_id action Hwo :=
  unfold WorkOrderAdmin.start_work_order, WorkOrderAdmin.stop_work_order,
    WorkOrderAdmin.pause_work_order, WorkOrderAdmin.resume_work_order, objects_get;
  cbn [objects WorkOrder_Model with_pk class_name];
  rewrite Hwo; cbn [mbind Result_bind];
  match goal with
  | |- context [Model_save ?prepared ?s] =>
      let E := fresh "E" in
      pose proof (transition_effect request object_id s prepared action
                    eq_refl (ex_intro _ _ Hwo)) as E;
      cbv zeta in E;
      destruct (Model_save prepared s) as [wo1 s1];
      cbn [fst snd] in E;
      destruct E as (Hwos & pl & Hlogs & Hact & Hpl & _)
  end.

(** What Start does to a work order that exists, whatever its status. *)
Lemma start_work_order_effect (request : Request.t) (object_id : Z) (s : State)
    (wo : WorkOrder.t) :
  work_orders s !! object_id = Some wo →
  ∃ response s' wo' pl,
    WorkOrderAdmin.start_work_order request object_id s = Ok (response, s')
    ∧ work_orders s' = <[object_id := wo']> (work_orders s)
    ∧ wo' = WorkOrder.with_timestamps (WorkOrder.created_at wo) (timezone_now s)
              (WorkOrder.with_actual_start (Some (timezone_now s))
                 (WorkOrder.with_status "in_progress" (WorkOrder.with_id object_id wo)))
    ∧ appended (production_logs s) (production_logs s') pl
    ∧ ProductionLog.action_type pl = "start"
    ∧ ProductionLog.work_order pl = wo'.
Proof.
  intros Hwo. run_transition request object_id "start" Hwo.
  eexists _, _, _, pl. repeat split; eassumption.
Qed.

Lemma start_button_iff_ready (obj : WorkOrder.t) :
  (WorkOrderAdmin.href obj "start", "Start") ∈ WorkOrderAdmin.action_buttons obj
  ↔ WorkOrder.status obj = "ready".
Proof.
  unfold WorkOrderAdmin.action_buttons.
  destruct (decide (WorkOrder.status obj = "ready")) as [Hr|Hr].
  - rewrite Hr. cbn. split; [done|]. intros _. apply list_elem_of_here.
  - rewrite (bool_decide_eq_false_2 _ Hr).
    split; [|done]. intros Hin. exfalso.
    repeat case_bool_decide; cbn in Hin;
      repeat (apply elem_of_cons in Hin as [Heq|Hin]; [by inversion Heq|]);
      by apply elem_of_nil in Hin.
Qed.

(** C1, as the specification states it, fails on a pending work order: Start
    is not rejected, the status becomes in_progress, actual_start is set and a
    production log is written. *)
Lemma start_not_ready_counterexample :
  (WorkOrder.status <$> work_orders shop_floor !! 7) = Some "pending"
  ∧ ∃ response s',
      WorkOrderAdmin.start_work_order staff_request 7 shop_floor = Ok (response, s')
      ∧ (WorkOrder.status <$> work_orders s' !! 7) = Some "in_progress"
      ∧ (WorkOrder.actual_start <$> work_orders s' !! 7) = Some (Some (clock shop_floor))
      ∧ size (production_logs s') = S (size (production_logs shop_floor)).
Proof.
  split; [reflexivity|].
  destruct (start_work_order_effect staff_request 7 shop_floor _ eq_refl)
    as (response & s' & wo' & pl & Hrun & Hwos & -> & (k & Hk & Hlogs) & _).
  exists response, s'. split; [exact Hrun|].
  rewrite Hwos, Hlogs, lookup_insert_eq. repeat split.
  by apply map_size_insert_None.
Qed.

(** C1, amended. The console offers the Start button exactly for the work
    orders whose status is ready.  The Start transition itself does not look
    at the status: for every work order that exists it answers with a
    redirect, sets status to in_progress and actual_start to the current
    time, leaves the other work orders as they are, and adds exactly one
    production log, with action start. *)
Theorem start_sets_in_progress_and_logs (request : Request.t) (object_id : Z)
    (s : State) (wo : WorkOrder.t) :
  work_orders s !! object_id = Some wo →
  ((WorkOrderAdmin.href wo "start", "Start") ∈ WorkOrderAdmin.action_buttons wo
   ↔ WorkOrder.status wo = "ready")
  ∧ ∃ response s' wo' pl,
      WorkOrderAdmin.start_work_order request object_id s = Ok (response, s')
      ∧ work_orders s' = <[object_id := wo']> (work_orders s)
      ∧ wo' = WorkOrder.with_timestamps (WorkOrder.created_at wo) (timezone_now s)
                (WorkOrder.with_actual_start (Some (timezone_now s))
                   (WorkOrder.with_status "in_progress" (WorkOrder.with_id object_id wo)))
      ∧ WorkOrder.status wo' = "in_progress"
      ∧ WorkOrder.actual_start wo' = Some (timezone_now s)
      ∧ appended (production_logs s) (production_logs s') pl
      ∧ ProductionLog.action_type pl = "start"
      ∧ ProductionLog.work_order pl = wo'.
Proof.
  intros Hwo. split; [apply start_button_iff_ready|].
  destruct (start_work_order_effect request object_id s wo Hwo)
    as (response & s' & wo' & pl & Hrun & Hwos & Hwo' & Hlogs & Hact & Hpl).
  exists response, s', wo', pl. rewrite Hwo' at 3 4. repeat split; assumption.
Qed.

Lemma start_sets_in_progress_and_logs_witness :
  ∃ response s' wo' pl,
    WorkOrderAdmin.start_work_order staff_request 9 shop_floor = Ok (response, s')
    ∧ work_orders s' = <[9 := wo']> (work_orders shop_floor)
    ∧ WorkOrder.status wo' = "in_progress"
    ∧ appended (production_logs shop_floor) (production_logs s') pl
    ∧ ProductionLog.action_type pl = "start".
Proof.
  destruct (start_sets_in_progress_and_logs staff_request 9 shop_floor _ eq_refl)
    as (_ & response & s' & wo' & pl & Hrun & Hwos & _ & Hst & _ & Hlogs & Hact & _).
  exists response, s', wo', pl. repeat split; assumption.
Defined.

Lemma pause_work_order_effect (request : Request.t) (object_id : Z) (s : State)
    (wo : WorkOrder.t) :
  work_orders s !! object_id = Some wo →
  ∃ response s',
    WorkOrderAdmin.pause_work_order request object_id s = Ok (response, s')
    ∧ work_orders s'
      = <[object_id :=
            WorkOrder.with_timestamps (WorkOrder.created_at wo) (timezone_now s)
              (WorkOrder.with_status "paused" (WorkOrder.with_id object_id wo))]>
          (work_orders s).
Proof.
  intros Hwo. run_transition request object_id "pause" Hwo.
  eexists _, _. split; [reflexivity | exact Hwos].
Qed.

(** C10, as the specification states it, fails on every Pause: besides the
    status, the save refreshes updated_at.  Work order 8, last updated at
    1600000000000000, is paused at 1700000000000000: its row is not the old
    row with the status replaced. *)
Lemma pause_refreshes_updated_at_counterexample :
  ∃ wo response s' wo',
    work_orders shop_floor !! 8 = Some wo
    ∧ WorkOrderAdmin.pause_work_order staff_request 8 shop_floor = Ok (response, s')
    ∧ work_orders s' !! 8 = Some wo'
    ∧ WorkOrder.updated_at wo = 1600000000000000
    ∧ WorkOrder.updated_at wo' = 1700000000000000
    ∧ wo' ≠ WorkOrder.with_status "paused" wo.
Proof.
  destruct (pause_work_order_effect staff_request 8 shop_floor _ eq_refl)
    as (response & s' & Hrun & Hwos).
  eexists _, response, s', _. split; [reflexivity|]. split; [exact Hrun|].
  rewrite Hwos, lookup_insert_eq. do 3 (split; [reflexivity|]).
  intros H. apply (f_equal WorkOrder.updated_at) in H. discriminate H.
Qed.

(** C10, amended. For every work order that exists, Pause and Resume write
    the status (paused, in_progress) and the updated_at stamp, which every
    save sets to the current time, and nothing else of the work order:
    planned, produced and rejected quantity, actual start and end, planned
    start and end are unchanged, the other work orders are untouched, and
    exactly one production log is added, with action pause or resume. *)
Theorem pause_resume_change_status_only (request : Request.t) (object_id : Z)
    (s : State) (wo : WorkOrder.t) :
  work_orders s !! object_id = Some wo →
  (∃ response s' wo' pl,
     WorkOrderAdmin.pause_work_order request object_id s = Ok (response, s')
     ∧ work_orders s' = <[object_id := wo']> (work_orders s)
     ∧ wo' = WorkOrder.with_timestamps (WorkOrder.created_at wo) (timezone_now s)
               (WorkOrder.with_status "paused" (WorkOrder.with_id object_id wo))
     ∧ same_quantities_and_schedule wo wo'
     ∧ appended (production_logs s) (production_logs s') pl
     ∧ ProductionLog.action_type pl = "pause"
     ∧ ProductionLog.work_order pl = wo')
  ∧ (∃ response s' wo' pl,
       WorkOrderAdmin.resume_work_order request object_id s = Ok (response, s')
       ∧ work_orders s' = <[object_id := wo']> (work_orders s)
       ∧ wo' = WorkOrder.with_timestamps (WorkOrder.created_at wo) (timezone_now s)
                 (WorkOrder.with_status "in_progress" (WorkOrder.with_id object_id wo))
       ∧ same_quantities_and_schedule wo wo'
       ∧ appended (production_logs s) (production_logs s') pl
       ∧ ProductionLog.action_type pl = "resume"
       ∧ ProductionLog.work_order pl = wo').
Proof.
  intros Hwo. split.
  - run_transition request object_id "pause" Hwo.
    eexists _, _, _, pl. repeat split; eassumption.
  - run_transition request object_id "resume" Hwo.
    eexists _, _, _, pl. repeat split; eassumption.
Qed.

Lemma pause_resume_change_status_only_witness :
  (∃ response s' wo',
     WorkOrderAdmin.pause_work_order staff_request 8 shop_floor = Ok (response, s')
     ∧ work_orders s' !! 8 = Some wo'
     ∧ WorkOrder.status wo' = "paused"
     ∧ WorkOrder.actual_start wo' = Some 1695000000000000
     ∧ size (production_logs s') = 1%nat)
  ∧ (∃ response s' wo',
       WorkOrderAdmin.resume_work_order staff_request 9 shop_floor = Ok (response, s')
       ∧ work_orders s' !! 9 = Some wo'
       ∧ WorkOrder.status wo' = "in_progress"
       ∧ WorkOrder.actual_start wo' = Some 1695000000000000
       ∧ size (production_logs s') = 1%nat).
Proof.
  split.
  - destruct (proj1 (pause_resume_change_status_only staff_request 8 shop_floor _ eq_refl))
      as (response & s' & wo' & pl & Hrun & Hwos & -> & _ & (k & Hk & Hlogs) & _).
    exists response, s'. eexists. split; [exact Hrun|].
    rewrite Hwos, Hlogs, lookup_insert_eq. repeat split.
    rewrite (map_size_insert_None _ _ _ Hk). reflexivity.
  - destruct (proj2 (pause_resume_change_status_only staff_request 9 shop_floor _ eq_refl))
      as (response & s' & wo' & pl & Hrun & Hwos & -> & _ & (k & Hk & Hlogs) & _).
    exists response, s'. eexists. split; [exact Hrun|].
    rewrite Hwos, Hlogs, lookup_insert_eq. repeat split.
    rewrite (map_size_insert_None _ _ _ Hk). reflexivity.
Defined.

(** ** The OEE indicator *)

Lemma round_zero : Decimal.round 0%Qc 1 = 0%Qc.
Proof. apply Qc_is_canon. reflexivity. Qed.

Lemma oee_loop (l : list WorkOrder.t) (acc : Qc * Z) :
  Forall (λ e, e ≠ 0%Qc) (omap WorkOrder.efficiency l) →
  foldl oee_step acc l
  = ((acc.1 + foldr Qcplus 0%Qc (omap WorkOrder.efficiency l))%Qc,
     (acc.2 + Z.of_nat (length (omap WorkOrder.efficiency l)))%Z).
Proof.
  revert acc. induction l as [|wo l IH]; intros [a c] Hnz; cbn [foldl].
  - cbn. f_equal; [ring | lia].
  - unfold oee_step at 2. cbn [omap list_omap] in *.
    destruct (WorkOrder.efficiency wo) as [e|]; cbn [fst snd] in *.
    + apply Forall_cons in Hnz as [He Hnz]. unfold Decimal.truthy.
      rewrite (bool_decide_eq_false_2 _ He). cbn [negb].
      rewrite IH by done. cbn [fst snd foldr length]. f_equal; [ring | lia].
    + by rewrite IH.
Qed.

(** Where no completed work order of the month has efficiency zero, the KPI
    is the mean the specification describes. *)
Lemma oee_is_mean_without_zero_efficiency (month_start_of : Z → Z) (s : State) :
  Forall (λ e, e ≠ 0%Qc) (defined_efficiencies month_start_of s) →
  get_kpis_oee month_start_of s = spec_oee month_start_of s.
Proof.
  unfold get_kpis_oee, spec_oee, defined_efficiencies. intros Hnz.
  destruct (completed_wo month_start_of s) as [|wo l] eqn:E; [apply round_zero|].
  rewrite oee_loop by done. cbn [fst snd].
  destruct (omap WorkOrder.efficiency (wo :: l)) as [|e es]; [apply round_zero|].
  replace (0 <? 0 + Z.of_nat (length (e :: es)))%Z with true
    by (symmetry; apply Z.ltb_lt; cbn [length]; lia).
  rewrite Z.add_0_l. f_equal. f_equal. ring.
Qed.

(** C3 on a month with two completed work orders of efficiency 100 and 0:
    both have a defined efficiency, the specification's mean is 50, and the
    dashboard reports 100, the loop having skipped the zero. *)
Theorem oee_skips_zero_efficiency :
  WorkOrder.efficiency <$> completed_wo kpi_month_start kpi_floor
  = [Some (Decimal.of_Z 100); Some (Decimal.of_Z 0)]
  ∧ spec_oee kpi_month_start kpi_floor = Decimal.of_Z 50
  ∧ get_kpis_oee kpi_month_start kpi_floor = Decimal.of_Z 100.
Proof.
  split; [|split].
  - assert (H : ∀ a b c d : Qc, a = c → b = d → [Some a; Some b] = [Some c; Some d])
      by (intros; congruence).
    vm_compute. apply H; apply Qc_is_canon; reflexivity.
  - apply Qc_is_canon. vm_compute. reflexivity.
  - apply Qc_is_canon. vm_compute. reflexivity.
Qed.

(** ** The audit log *)

Lemma create_log_log_data a d u e m o n s :
  ∃ row,
    log_data (create_log a d u e m o n s) = <[fresh_pk (log_data s) := row]> (log_data s)
    ∧ LogData.action_type row = a
    ∧ LogData.model_name row = m
    ∧ LogData.object_id row = o
    ∧ LogData.timestamp row = timezone_now s.
Proof. eexists. repeat split. Qed.

Lemma create_log_kept a d u e m o n s :
  log_data s ⊆ log_data (create_log a d u e m o n s).
Proof.
  destruct (create_log_log_data a d u e m o n s) as (row & -> & _).
  apply insert_subseteq, fresh_pk_None.
Qed.

Lemma log_entry_kept h k text owner created s :
  log_data s ⊆ log_data (log_entry h k text owner created s).
Proof.
  destruct h; cbn [log_entry]; try apply create_log_kept.
  destruct created; [done | apply create_log_kept].
Qed.

Lemma deliver_kept sig cls k text owner created s :
  log_data s ⊆ log_data (deliver sig cls k text owner created s).
Proof.
  unfold deliver.
  generalize (filter (λ r, listens sig cls r = true) (receivers s)).
  intros l. revert s. induction l as [|r l IH]; intros s; cbn [foldl]; [done|].
  etrans; [apply log_entry_kept | apply IH].
Qed.

Lemma run_handler_kept h k label owner created s s' :
  run_handler h k label owner created s = Ok s' → log_data s ⊆ log_data s'.
Proof.
  destruct label as [text|e].
  - rewrite run_handler_Ok. intros [= <-]. apply log_entry_kept.
  - destruct h; cbn [run_handler mbind Result_bind]; try done.
    intros [= <-]. exact (log_entry_kept log_profile_save k "" owner created s).
Qed.

Lemma send_kept sig cls k label owner created s s' :
  send sig cls k label owner created s = Ok s' → log_data s ⊆ log_data s'.
Proof.
  unfold send.
  generalize (filter (λ r, listens sig cls r = true) (receivers s)).
  intros l. revert s. induction l as [|r l IH]; intros s; cbn [foldl mbind Result_bind].
  - by intros [= <-].
  - destruct (run_handler (handler r) k label owner created s) as [s1|e] eqn:Hrun.
    + intros Hrest. etrans; [by eapply run_handler_kept | by apply IH].
    + by rewrite foldl_run_handler_Raise.
Qed.

(** A save or a row deletion in any table but the audit log keeps the log's
    rows. *)
Ltac kept_by_deliver :=
  etrans; [|apply deliver_kept]; reflexivity.

Lemma Product_save_kept obj s : log_data s ⊆ log_data (Product_save obj s).2.
Proof. unfold Product_save, Model_save. cbn [snd]. kept_by_deliver. Qed.

Lemma WorkOrder_save_kept (obj : WorkOrder.t) s :
  log_data s ⊆ log_data (Model_save obj s).2.
Proof. unfold Model_save. cbn [snd]. kept_by_deliver. Qed.

Lemma log_transition_kept request wo action s :
  log_data s ⊆ log_data (WorkOrderAdmin.log_transition request wo action s).
Proof.
  unfold WorkOrderAdmin.log_transition, objects_create, Model_save. cbn [snd].
  kept_by_deliver.
Qed.

Lemma Product_delete_row_kept (obj : Product.t) s s' :
  Model_delete_row obj s = Ok s' → log_data s ⊆ log_data s'.
Proof.
  unfold Model_delete_row. destruct (pk obj); [|by intros [= <-]].
  intros Hsend. by apply send_kept in Hsend.
Qed.

Lemma Employee_delete_row_kept (obj : Employee.t) s s' :
  Model_delete_row obj s = Ok s' → log_data s ⊆ log_data s'.
Proof.
  unfold Model_delete_row. destruct (pk obj); [|by intros [= <-]].
  intros Hsend. by apply send_kept in Hsend.
Qed.

(** The [post_delete] signals of the inventory rows that a Product takes
    along: as a fold that stops at the first exception. *)
Lemma cascade_Raise (rows : list Inventory.t) e :
  foldl (λ acc inv,
           s ← acc;
           send post_delete "Inventory" (default 0 (Inventory.id inv))
             (Inventory_str_loaded s inv) None false s)
    (Raise e) rows
  = Raise e.
Proof. induction rows as [|inv rows IH]; [reflexivity|]. cbn [foldl mbind Result_bind]. apply IH. Qed.

Lemma cascade_first_raises (inv : Inventory.t) (rows : list Inventory.t) (s : State) e :
  send post_delete "Inventory" (default 0 (Inventory.id inv))
    (Inventory_str_loaded s inv) None false s
  = Raise e →
  foldl (λ acc inv,
           s ← acc;
           send post_delete "Inventory" (default 0 (Inventory.id inv))
             (Inventory_str_loaded s inv) None false s)
    (Ok s) (inv :: rows)
  = Raise e.
Proof. intros H. cbn [foldl mbind Result_bind]. rewrite H. apply cascade_Raise. Qed.

Lemma cascade_only_log (rows : list Inventory.t) (s s' : State) :
  foldl (λ acc inv,
           s ← acc;
           send post_delete "Inventory" (default 0 (Inventory.id inv))
             (Inventory_str_loaded s inv) None false s)
    (Ok s) rows
  = Ok s' →
  only_log s s' ∧ log_data s ⊆ log_data s'.
Proof.
  revert s. induction rows as [|inv rows IH]; intros s; cbn [foldl mbind Result_bind].
  - intros [= <-]. split; [apply only_log_refl | done].
  - destruct (send post_delete "Inventory" _ _ None false s) as [s1|e] eqn:Hsend.
    + intros Hrest. destruct (IH _ Hrest) as [Honly Hkept]. split.
      * eapply only_log_trans; [by eapply send_only_log | exact Honly].
      * etrans; [by eapply send_kept | exact Hkept].
    + by rewrite cascade_Raise.
Qed.

Lemma Product_delete_kept obj s s' :
  Product_delete obj s = Ok s' → log_data s ⊆ log_data s'.
Proof.
  unfold Product_delete. destruct (Product.id obj) as [k|]; [|discriminate].
  destruct (Product_protected k s); [discriminate|].
  destruct (Model_delete_row obj s) as [s1|e] eqn:Hrow; [|discriminate].
  cbn [mbind Result_bind]. intros Hrest.
  apply cascade_only_log in Hrest as [_ Hkept].
  etrans; [by eapply Product_delete_row_kept | exact Hkept].
Qed.

#[local] Instance newer_or_equal_trans : Transitive LogData.newer_or_equal.
Proof. unfold LogData.newer_or_equal. intros a b c ??. lia. Qed.

#[local] Instance newer_or_equal_total : Total LogData.newer_or_equal.
Proof. unfold LogData.newer_or_equal. intros a b. lia. Qed.

Lemma LogData_objects_all_newest_first (s : State) :
  StronglySorted LogData.newer_or_equal (LogData_objects_all s)
  ∧ LogData_objects_all s ≡ₚ objects_all s.
Proof.
  unfold LogData_objects_all. split.
  - apply (StronglySorted_merge_sort _).
  - apply merge_sort_Permutation.
Qed.

Lemma console_inv (op : Console) (request : Request.t) (s s' : State) :
  console op request s = Ok s' →
  if let_through request
  then ∃ s1, view op request (set_current_request (Some request) s) = Ok s1
             ∧ log_data s' = log_data s1
  else log_data s' = log_data s.
Proof.
  unfold console, RequestMiddleware, admin_view, let_through.
  destruct (_ && _); cbn [mbind Result_bind].
  - destruct (view op request _) as [s1|e] eqn:Hview; [|discriminate].
    intros [= <-]. by exists s1.
  - by intros [= <-].
Qed.


(** Deleting an audit row is open to an account that holds the delete
    permission: [LogDataAdmin] leaves [has_delete_permission] as it inherits
    it. *)
Example logdata_delete_is_permitted :
  ∃ s', console (logdata_delete 1) staff_request audited = Ok s'
        ∧ log_data s' !! 1 = None
        ∧ size (log_data s') = 1%nat.
Proof.
  eexists. split; [vm_compute; reflexivity|]. split; vm_compute; reflexivity.
Qed.

Lemma refs_cleared_employee (k : Z) (row : LogData.t) :
  refs_cleared None (Some k) row
    (LogData.with_employee (clear_ref k (LogData.employee row)) row).
Proof.
  unfold refs_cleared, clear_ref. destruct row as [? u e ? ? ? ? ? ? ? ?]. cbn.
  destruct (decide (e = Some k)) as [He|He].
  - rewrite (bool_decide_eq_true_2 (e = Some k) He).
    by rewrite (bool_decide_eq_true_2 (is_Some (Some k) ∧ _)).
  - rewrite (bool_decide_eq_false_2 (e = Some k) He).
    by rewrite (bool_decide_eq_false_2 (is_Some (Some k) ∧ _)) by (intros [_ ?]; done).
Qed.

Lemma refs_cleared_user (k : Z) (row : LogData.t) :
  refs_cleared (Some k) None row (LogData.with_user (clear_ref k (LogData.user row)) row).
Proof.
  unfold refs_cleared, clear_ref. destruct row as [? u e ? ? ? ? ? ? ? ?]. cbn.
  destruct (decide (u = Some k)) as [Hu|Hu].
  - rewrite (bool_decide_eq_true_2 (u = Some k) Hu).
    by rewrite (bool_decide_eq_true_2 (is_Some (Some k) ∧ _)).
  - rewrite (bool_decide_eq_false_2 (u = Some k) Hu).
    by rewrite (bool_decide_eq_false_2 (is_Some (Some k) ∧ _)) by (intros [_ ?]; done).
Qed.

Ltac transition_kept :=
  unfold WorkOrderAdmin.start_work_order, WorkOrderAdmin.stop_work_order,
    WorkOrderAdmin.pause_work_order, WorkOrderAdmin.resume_work_order, objects_get;
  match goal with |- context [objects ?s !! ?k] => destruct (objects s !! k) end;
  cbn [mbind Result_bind]; [|discriminate];
  match goal with
  | |- context [Model_save ?prepared ?s] =>
      pose proof (WorkOrder_save_kept prepared s);
      destruct (Model_save prepared s) as [wo1 s1]
  end;
  intros [= _ <-]; cbn [snd] in *;
  etrans; [eassumption | apply log_transition_kept].

Lemma transitions_kept request k s response s' :
  (WorkOrderAdmin.start_work_order request k s = Ok (response, s') → log_data s ⊆ log_data s')
  ∧ (WorkOrderAdmin.stop_work_order request k s = Ok (response, s') → log_data s ⊆ log_data s')
  ∧ (WorkOrderAdmin.pause_work_order request k s = Ok (response, s') → log_data s ⊆ log_data s')
  ∧ (WorkOrderAdmin.resume_work_order request k s = Ok (response, s') → log_data s ⊆ log_data s').
Proof. repeat split; transition_kept. Qed.

Lemma Employee_delete_log (self : Employee.t) (s s' : State) :
  Employee_delete self s = Ok s' →
  ∀ k row, log_data s !! k = Some row →
    ∃ row', log_data s' !! k = Some row'
            ∧ refs_cleared None (Employee.id self) row row'.
Proof.
  unfold Employee_delete. destruct (Employee.id self) as [j|]; [|discriminate].
  intros Hrow k row Hk. eexists. split; [|apply (refs_cleared_employee j)].
  eapply lookup_weaken; [|eapply Employee_delete_row_kept, Hrow].
  cbn [log_data with_users with_production_logs with_work_orders with_log_data].
  by rewrite lookup_fmap, Hk.
Qed.

Lemma User_delete_log (self : User.t) (s s' : State) :
  User_delete self s = Ok s' →
  ∀ k row, log_data s !! k = Some row →
    ∃ row', log_data s' !! k = Some row'
            ∧ refs_cleared (Some (User.id self)) None row row'.
Proof.
  unfold User_delete. intros [= <-] k row Hrow.
  eexists. split; [|apply (refs_cleared_user (User.id self))].
  cbn [log_data with_users with_log_data]. by rewrite lookup_fmap, Hrow.
Qed.



(** ** The generic audit receivers *)

Lemma deliver_nobody sig cls k text owner created s :
  filter (λ r, listens sig cls r = true) (receivers s) = [] →
  deliver sig cls k text owner created s = s.
Proof. unfold deliver. by intros ->. Qed.

(** With [DEBUG] on, every receiver of core/signals.py is live. *)
Lemma startup_listeners :
  filter (λ r, listens post_save "Product" r = true) startup_receivers
  = [ {| signal := post_save; sender := "Product"; handler := log_model_save "Product" |} ]
  ∧ filter (λ r, listens post_delete "Product" r = true) startup_receivers
    = [ {| signal := post_delete; sender := "Product";
           handler := log_model_delete "Product" |} ]
  ∧ filter (λ r, listens post_delete "Inventory" r = true) startup_receivers
    = [ {| signal := post_delete; sender := "Inventory";
           handler := log_model_delete "Inventory" |} ]
  ∧ filter (λ r, listens post_delete "PurchaseOrderLine" r = true) startup_receivers = [].
Proof. repeat split. Qed.

Lemma deliver_startup sig cls k text owner created s :
  receivers s = startup_receivers →
  deliver sig cls k text owner created s
  = foldl (λ s r, log_entry (handler r) k text owner created s) s
      (filter (λ r, listens sig cls r = true) startup_receivers).
Proof. intros Hr. unfold deliver. by rewrite Hr. Qed.

(** With [DEBUG] off, the receivers of the module are the only ones left. *)
Lemma production_receivers_eq :
  production_receivers
  = [ {| signal := post_save; sender := "Employee"; handler := log_employee_save |};
      {| signal := post_save; sender := "UserProfile"; handler := log_profile_save |} ].
Proof. reflexivity. Qed.

Lemma production_listeners sig cls :
  cls ≠ "Employee" → cls ≠ "UserProfile" →
  filter (λ r, listens sig cls r = true) production_receivers = [].
Proof.
  intros He Hp. rewrite production_receivers_eq.
  rewrite !filter_cons_False; [reflexivity| |];
    unfold listens; cbn [signal sender]; intros [_ H]%andb_true_iff;
    apply bool_decide_eq_true_1 in H; congruence.
Qed.

Lemma nobody_in_production sig cls (s : State) :
  receivers s = production_receivers →
  cls ≠ "Employee" → cls ≠ "UserProfile" →
  filter (λ r, listens sig cls r = true) (receivers s) = [].
Proof. intros ->. apply production_listeners. Qed.

Lemma Product_save_row (obj : Product.t) (s : State) :
  ∃ k, Product.id (Product_save obj s).1 = Some k
       ∧ products (Product_save obj s).2 !! k = Some (Product_save obj s).1.
Proof.
  unfold Product_save, Model_save. cbn [fst snd].
  eexists. split; [reflexivity|].
  rewrite (only_log_products _ _ (deliver_only_log _ _ _ _ _ _ _)).
  apply lookup_insert_eq.
Qed.

Lemma Product_save_logged (obj : Product.t) (s : State) :
  receivers s = startup_receivers →
  let created :=
    match Product.id obj with
    | Some k => bool_decide (products s !! k = None)
    | None => true
    end in
  ∃ entry,
    Product.id (Product_save obj s).1
    = Some (default (fresh_pk (products s)) (Product.id obj))
    ∧ appended (log_data s) (log_data (Product_save obj s).2) entry
    ∧ LogData.action_type entry = (if created then "create" else "update")
    ∧ LogData.model_name entry = Some "Product"
    ∧ LogData.object_id entry = Some (default (fresh_pk (products s)) (Product.id obj)).
Proof.
  intros Hr created. unfold Product_save, Model_save.
  cbn [fst snd class_name Product_Model].
  rewrite deliver_startup by exact Hr.
  rewrite (proj1 startup_listeners). cbn [foldl handler log_entry].
  assert (Hid : ∀ o', Product.id (if blank (Product.sku obj)
                                  then Product.with_sku o' obj else obj) = Product.id obj)
    by (intros; by destruct (blank _)).
  cbn [pk objects with_pk Product_Model]. rewrite !Hid. fold created.
  match goal with
  | |- context [create_log ?a ?d ?u ?e ?m ?o ?n ?s1] =>
      destruct (create_log_log_data a d u e m o n s1) as (entry & Hlog & Hact & Hm & Ho & _)
  end.
  exists entry. rewrite Hlog. repeat split; try assumption.
  exists (fresh_pk (log_data s)). split; [apply fresh_pk_None | reflexivity].
Qed.

Lemma Product_save_unlogged (obj : Product.t) (s : State) :
  receivers s = production_receivers →
  log_data (Product_save obj s).2 = log_data s.
Proof.
  intros Hr. unfold Product_save, Model_save. cbn [snd class_name Product_Model].
  rewrite deliver_nobody; [reflexivity|].
  by apply nobody_in_production.
Qed.

Lemma cascade_nobody (rows : list Inventory.t) (s : State) :
  filter (λ r, listens post_delete "Inventory" r = true) (receivers s) = [] →
  foldl (λ acc inv,
           s ← acc;
           send post_delete "Inventory" (default 0 (Inventory.id inv))
             (Inventory_str_loaded s inv) None false s)
    (Ok s) rows
  = Ok s.
Proof.
  intros Hnobody. induction rows as [|inv rows IH]; [reflexivity|].
  cbn [foldl mbind Result_bind]. by rewrite send_nobody.
Qed.

Lemma Product_delete_protected (obj : Product.t) (k : Z) (s : State) :
  Product.id obj = Some k →
  Product_protected k s = true →
  Product_delete obj s = Raise (ProtectedError "Product").
Proof. intros Hid Hp. unfold Product_delete. by rewrite Hid, Hp. Qed.

Lemma Product_delete_production (obj : Product.t) (k : Z) (s : State) :
  receivers s = production_receivers →
  Product.id obj = Some k →
  Product_protected k s = false →
  Product_delete obj s = Ok (without_product k s).
Proof.
  intros Hr Hid Hp. unfold Product_delete, Model_delete_row.
  cbn [pk Product_Model class_name objects with_objects]. rewrite Hid, Hp.
  rewrite send_nobody by (by apply nobody_in_production).
  cbn [mbind Result_bind]. apply cascade_nobody.
  by apply nobody_in_production.
Qed.

Lemma Product_delete_row_logged (obj : Product.t) (k : Z) (s : State) :
  receivers s = startup_receivers →
  Product.id obj = Some k →
  ∃ entry,
    Model_delete_row obj s
    = Ok (with_log_data (<[fresh_pk (log_data s) := entry]> (log_data s))
            (with_products (delete k (products s)) s))
    ∧ LogData.action_type entry = "delete"
    ∧ LogData.model_name entry = Some "Product"
    ∧ LogData.object_id entry = Some k.
Proof.
  intros Hr Hid. unfold Model_delete_row.
  cbn [pk Product_Model class_name objects with_objects]. rewrite Hid.
  rewrite send_Ok, deliver_startup by exact Hr.
  rewrite (proj1 (proj2 startup_listeners)). cbn [foldl handler log_entry].
  eexists. split; [reflexivity|]. repeat split.
Qed.

Lemma Product_delete_startup_raises (obj : Product.t) (k : Z) (s : State) :
  receivers s = startup_receivers →
  Product.id obj = Some k →
  Product_protected k s = false →
  Product_inventory k s ≠ [] →
  Product_delete obj s = Raise (DoesNotExist "Product").
Proof.
  intros Hr Hid Hp Hrows. unfold Product_delete. rewrite Hid, Hp.
  destruct (Product_delete_row_logged obj k s Hr Hid) as (entry & -> & _).
  cbn [mbind Result_bind].
  destruct (Product_inventory k s) as [|inv rows] eqn:Hinv; [done|].
  assert (Hpid : Inventory_product_id inv = Some k).
  { assert (inv ∈ Product_inventory k s) as Hin by (rewrite Hinv; apply list_elem_of_here).
    unfold Product_inventory in Hin. by apply list_elem_of_filter in Hin as [? _]. }
  apply cascade_first_raises.
  unfold Inventory_str_loaded. rewrite Hpid.
  cbn [products with_inventory with_log_data with_products].
  rewrite lookup_delete_eq.
  unfold send. cbn [receivers with_inventory with_log_data with_products].
  rewrite Hr, (proj1 (proj2 (proj2 startup_listeners))). reflexivity.
Qed.

Lemma Product_delete_startup_logged (obj : Product.t) (k : Z) (s : State) :
  receivers s = startup_receivers →
  Product.id obj = Some k →
  Product_protected k s = false →
  Product_inventory k s = [] →
  ∃ entry,
    Product_delete obj s
    = Ok (with_log_data (<[fresh_pk (log_data s) := entry]> (log_data s))
            (without_product k s))
    ∧ LogData.action_type entry = "delete"
    ∧ LogData.model_name entry = Some "Product"
    ∧ LogData.object_id entry = Some k.
Proof.
  intros Hr Hid Hp Hrows. unfold Product_delete. rewrite Hid, Hp, Hrows.
  destruct (Product_delete_row_logged obj k s Hr Hid) as (entry & -> & Hentry).
  exists entry. split; [reflexivity | exact Hentry].
Qed.

Lemma PurchaseOrderLine_delete_silent (line : PurchaseOrderLine.t) (k : Z) (s : State) :
  receivers s = startup_receivers ∨ receivers s = production_receivers →
  PurchaseOrderLine.id line = Some k →
  PurchaseOrderLine_delete line s
  = Ok (with_purchase_order_lines (delete k (purchase_order_lines s)) s).
Proof.
  intros Hr Hid. unfold PurchaseOrderLine_delete, Model_delete_row.
  cbn [pk PurchaseOrderLine_Model class_name objects with_objects]. rewrite Hid.
  apply send_nobody. destruct Hr as [Hr|Hr].
  - change (receivers (with_purchase_order_lines _ s)) with (receivers s).
    rewrite Hr. apply startup_listeners.
  - by apply nobody_in_production.
Qed.

(** C6. What the code does depends on the [DEBUG] setting the application
    starts with.  With [DEBUG] off, the receivers that would write the rows
    are gone: a Product is created or updated (its row is written) and an
    unreferenced Product is deleted (its row is gone) with the audit log left
    as it was.  With [DEBUG] on, creating a Product writes exactly one new
    audit row, with action create and model name Product, and updating one
    writes exactly one, with action update; deleting an unreferenced Product
    that has an inventory row raises Product.DoesNotExist, and deleting one
    that has none removes its row and writes exactly one new audit row, with
    action delete and model name Product.  With either setting, deleting a
    PurchaseOrderLine removes its row and writes no audit row. *)
Theorem product_audit_rows_depend_on_debug (s : State) :
  (receivers s = production_receivers →
     (∀ obj : Product.t,
        ∃ k, Product.id (Product_save obj s).1 = Some k
             ∧ products (Product_save obj s).2 !! k = Some (Product_save obj s).1
             ∧ log_data (Product_save obj s).2 = log_data s)
     ∧ (∀ (obj : Product.t) (k : Z),
          Product.id obj = Some k →
          Product_protected k s = false →
          ∃ s', Product_delete obj s = Ok s'
                ∧ products s' = delete k (products s)
                ∧ log_data s' = log_data s))
  ∧ (receivers s = startup_receivers →
     (∀ obj : Product.t,
        Product.id obj = None →
        ∃ k entry,
          Product.id (Product_save obj s).1 = Some k
          ∧ products (Product_save obj s).2 !! k = Some (Product_save obj s).1
          ∧ appended (log_data s) (log_data (Product_save obj s).2) entry
          ∧ LogData.action_type entry = "create"
          ∧ LogData.model_name entry = Some "Product"
          ∧ LogData.object_id entry = Some k)
     ∧ (∀ (obj : Product.t) (k : Z),
          Product.id obj = Some k →
          is_Some (products s !! k) →
          ∃ entry,
            products (Product_save obj s).2 !! k = Some (Product_save obj s).1
            ∧ appended (log_data s) (log_data (Product_save obj s).2) entry
            ∧ LogData.action_type entry = "update"
            ∧ LogData.model_name entry = Some "Product"
            ∧ LogData.object_id entry = Some k)
     ∧ (∀ (obj : Product.t) (k : Z),
          Product.id obj = Some k →
          Product_protected k s = false →
          Product_inventory k s ≠ [] →
          Product_delete obj s = Raise (DoesNotExist "Product"))
     ∧ (∀ (obj : Product.t) (k : Z),
          Product.id obj = Some k →
          Product_protected k s = false →
          Product_inventory k s = [] →
          ∃ s' entry,
            Product_delete obj s = Ok s'
            ∧ products s' = delete k (products s)
            ∧ appended (log_data s) (log_data s') entry
            ∧ LogData.action_type entry = "delete"
            ∧ LogData.model_name entry = Some "Product"
            ∧ LogData.object_id entry = Some k))
  ∧ (receivers s = startup_receivers ∨ receivers s = production_receivers →
     ∀ (line : PurchaseOrderLine.t) (k : Z),
       PurchaseOrderLine.id line = Some k →
       ∃ s', PurchaseOrderLine_delete line s = Ok s'
             ∧ purchase_order_lines s' = delete k (purchase_order_lines s)
             ∧ log_data s' = log_data s).
Proof.
  split; [|split].
  - intros Hr. split.
    + intros obj. destruct (Product_save_row obj s) as (k & Hk & Hrow).
      exists k. split; [exact Hk|]. split; [exact Hrow|].
      by apply Product_save_unlogged.
    + intros obj k Hid Hp. exists (without_product k s).
      split; [by apply Product_delete_production|]. by split.
  - intros Hr. repeat apply conj.
    + intros obj Hid. destruct (Product_save_row obj s) as (k & Hk & Hrow).
      destruct (Product_save_logged obj s Hr) as (entry & Hk' & Happ & Hact & Hm & Ho).
      rewrite Hid in *. rewrite Hk in Hk'. rewrite <- Hk' in Ho. eauto 10.
    + intros obj k Hid [old Hold].
      destruct (Product_save_row obj s) as (k' & Hk & Hrow).
      destruct (Product_save_logged obj s Hr) as (entry & Hk' & Happ & Hact & Hm & Ho).
      rewrite Hid in *. cbn [from_option id] in *. rewrite Hold in Hact.
      rewrite Hk in Hk'. injection Hk' as ->. eauto 10.
    + intros obj k. by apply Product_delete_startup_raises.
    + intros obj k Hid Hp Hrows.
      destruct (Product_delete_startup_logged obj k s Hr Hid Hp Hrows)
        as (entry & Hdel & Hact & Hm & Ho).
      eexists _, entry. split; [exact Hdel|]. split; [reflexivity|].
      repeat split; try assumption.
      exists (fresh_pk (log_data s)). split; [apply fresh_pk_None | reflexivity].
  - intros Hr line k Hid. eexists. split; [by apply PurchaseOrderLine_delete_silent|].
    by split.
Qed.

(** In production, on the sample warehouse: product PRD002 is created and
    product 2 is deleted, with its two inventory rows, and the audit log
    stays empty.  Under [DEBUG]: the creation of PRD002 writes its create
    row, the update of product 1 its update row, and the deletion of product
    2 raises.  The deletion of line 11 removes the line and writes nothing. *)
Lemma product_audit_rows_depend_on_debug_witness :
  (∃ k, Product.id (Product_save draft_product warehouse_production).1 = Some k
        ∧ products (Product_save draft_product warehouse_production).2 !! k
          = Some (Product_save draft_product warehouse_production).1
        ∧ log_data (Product_save draft_product warehouse_production).2 = ∅)
  ∧ (∃ s', products warehouse_production !! 2 = Some product_2
           ∧ Product_delete product_2 warehouse_production = Ok s'
           ∧ products s' !! 2 = None
           ∧ log_data s' = ∅)
  ∧ (∃ entry,
       appended (log_data warehouse) (log_data (Product_save draft_product warehouse).2)
         entry
       ∧ LogData.action_type entry = "create"
       ∧ LogData.model_name entry = Some "Product")
  ∧ (∃ entry,
       appended (log_data warehouse)
         (log_data (Product_save (sample_product 160 80 0) warehouse).2) entry
       ∧ LogData.action_type entry = "update"
       ∧ LogData.model_name entry = Some "Product")
  ∧ Product_delete product_2 warehouse = Raise (DoesNotExist "Product")
  ∧ (∃ s',
       purchase_order_lines catalogue !! 11 = Some line_11
       ∧ PurchaseOrderLine_delete line_11 catalogue = Ok s'
       ∧ purchase_order_lines s' !! 11 = None
       ∧ log_data s' = log_data catalogue).
Proof.
  destruct (product_audit_rows_depend_on_debug warehouse_production)
    as ((Hsave & Hdelete) & _ & _); [reflexivity|].
  destruct (product_audit_rows_depend_on_debug warehouse)
    as (_ & (Hcreate & Hupdate & Hraise & _) & _); [reflexivity|].
  destruct (product_audit_rows_depend_on_debug catalogue) as (_ & _ & Hline).
  repeat apply conj.
  - exact (Hsave draft_product).
  - destruct (Hdelete product_2 2 eq_refl eq_refl) as (s' & Hdel & Hproducts & Hlog).
    exists s'. split; [reflexivity|]. split; [exact Hdel|].
    rewrite Hproducts, Hlog. split; [apply lookup_delete_eq | reflexivity].
  - destruct (Hcreate draft_product eq_refl) as (k & entry & _ & _ & Happ & Hact & Hm & _).
    exists entry. done.
  - destruct (Hupdate (sample_product 160 80 0) 1 eq_refl (ex_intro _ _ eq_refl))
      as (entry & _ & Happ & Hact & Hm & _).
    exists entry. done.
  - apply (Hraise product_2 2 eq_refl eq_refl). discriminate.
  - destruct (Hline (or_introl eq_refl) line_11 11 eq_refl) as (s' & Hdel & Hlines & Hlog).
    exists s'. split; [reflexivity|]. split; [exact Hdel|].
    rewrite Hlines. split; [apply lookup_delete_eq | exact Hlog].
Defined.

(** * More properties

    ** The four transitions *)

Ltac run_transition_full request object_id action Hwo :=
  unfold WorkOrderAdmin.start_work_order, WorkOrderAdmin.stop_work_order,
    WorkOrderAdmin.pause_work_order, WorkOrderAdmin.resume_work_order, objects_get;
  cbn [objects WorkOrder_Model with_pk class_name];
  rewrite Hwo; cbn [mbind Result_bind];
  match goal with
  | |- context [Model_save ?prepared ?s] =>
      let E := fresh "E" in
      pose proof (transition_effect request object_id s prepared action
                    eq_refl (ex_intro _ _ Hwo)) as E;
      cbv zeta in E;
      destruct (Model_save prepared s) as [wo1 s1];
      cbn [fst snd] in E;
      destruct E as (Hwos & pl & Hlogs & Hact & Hpl & Hop & Hts)
  end.

(** What each transition does to a work order that exists: the row it
    stores, and the production log it adds. *)
Lemma transitions_effect (request : Request.t) (object_id : Z) (s : State)
    (wo : WorkOrder.t) :
  work_orders s !! object_id = Some wo →
  let now := timezone_now s in
  let got := WorkOrder.with_id object_id wo in
  let stamped := WorkOrder.with_timestamps (WorkOrder.created_at wo) now in
  let effect (run : Request.t → Z → State → Result (Response * State))
        (wo' : WorkOrder.t) (action : string) :=
    ∃ response s' pl,
      run request object_id s = Ok (response, s')
      ∧ work_orders s' = <[object_id := wo']> (work_orders s)
      ∧ appended (production_logs s) (production_logs s') pl
      ∧ ProductionLog.action_type pl = action
      ∧ ProductionLog.work_order pl = wo'
      ∧ ProductionLog.operator pl = WorkOrderAdmin.operator_of request
      ∧ ProductionLog.timestamp pl = now in
  effect WorkOrderAdmin.start_work_order
    (stamped (WorkOrder.with_actual_start (Some now)
                (WorkOrder.with_status "in_progress" got))) "start"
  ∧ effect WorkOrderAdmin.stop_work_order
      (stamped (WorkOrder.with_actual_end (Some now)
                  (WorkOrder.with_status "completed" got))) "stop"
  ∧ effect WorkOrderAdmin.pause_work_order
      (stamped (WorkOrder.with_status "paused" got)) "pause"
  ∧ effect WorkOrderAdmin.resume_work_order
      (stamped (WorkOrder.with_status "in_progress" got)) "resume".
Proof.
  intros Hwo now got stamped effect. subst now got stamped effect. cbv beta.
  repeat apply conj.
  - run_transition_full request object_id "start" Hwo.
    eexists _, _, pl. repeat split; eassumption.
  - run_transition_full request object_id "stop" Hwo.
    eexists _, _, pl. repeat split; eassumption.
  - run_transition_full request object_id "pause" Hwo.
    eexists _, _, pl. repeat split; eassumption.
  - run_transition_full request object_id "resume" Hwo.
    eexists _, _, pl. repeat split; eassumption.
Qed.

(** X1. For every work order that exists, whatever its status, Stop sets the
    status to completed and actual_end to the current time, leaves
    actual_start, the quantities and the planned dates as they are, leaves
    the other work orders untouched, and adds exactly one production log,
    with action stop, for the employee of the account's profile. *)
Theorem stop_completes_and_logs (request : Request.t) (object_id : Z) (s : State)
    (wo : WorkOrder.t) :
  work_orders s !! object_id = Some wo →
  ∃ response s' wo' pl,
    WorkOrderAdmin.stop_work_order request object_id s = Ok (response, s')
    ∧ work_orders s' = <[object_id := wo']> (work_orders s)
    ∧ WorkOrder.status wo' = "completed"
    ∧ WorkOrder.actual_end wo' = Some (timezone_now s)
    ∧ same_quantities_and_schedule
        (WorkOrder.with_actual_end (Some (timezone_now s)) wo) wo'
    ∧ appended (production_logs s) (production_logs s') pl
    ∧ ProductionLog.action_type pl = "stop"
    ∧ ProductionLog.work_order pl = wo'
    ∧ ProductionLog.operator pl = WorkOrderAdmin.operator_of request.
Proof.
  intros Hwo.
  destruct (transitions_effect request object_id s wo Hwo)
    as (_ & (response & s' & pl & Hrun & Hwos & Hlogs & Hact & Hpl & Hop & _) & _).
  eexists response, s', _, pl.
  split; [exact Hrun|]. split; [exact Hwos|]. repeat split; assumption.
Qed.

Lemma stop_completes_and_logs_witness :
  ∃ response s' wo' pl,
    WorkOrderAdmin.stop_work_order staff_request 8 shop_floor = Ok (response, s')
    ∧ work_orders s' !! 8 = Some wo'
    ∧ WorkOrder.status wo' = "completed"
    ∧ WorkOrder.actual_end wo' = Some (clock shop_floor)
    ∧ WorkOrder.actual_start wo' = Some 1695000000000000
    ∧ ProductionLog.operator pl = Some 3.
Proof.
  destruct (stop_completes_and_logs staff_request 8 shop_floor _ eq_refl)
    as (response & s' & wo' & pl & Hrun & Hwos & Hst & Hend & Hsame & _ & _ & _ & Hop).
  exists response, s', wo', pl. rewrite Hwos, lookup_insert_eq.
  destruct Hsame as (_ & _ & _ & Hstart & _). repeat split; assumption.
Defined.

(** X2. Each of the four transitions, asked for a work order that does not
    exist, raises DoesNotExist for WorkOrder: nothing is saved and no
    production log is written. *)
Theorem transitions_need_the_work_order (request : Request.t) (object_id : Z)
    (s : State) :
  work_orders s !! object_id = None →
  WorkOrderAdmin.start_work_order request object_id s = Raise (DoesNotExist "WorkOrder")
  ∧ WorkOrderAdmin.stop_work_order request object_id s = Raise (DoesNotExist "WorkOrder")
  ∧ WorkOrderAdmin.pause_work_order request object_id s = Raise (DoesNotExist "WorkOrder")
  ∧ WorkOrderAdmin.resume_work_order request object_id s
    = Raise (DoesNotExist "WorkOrder").
Proof.
  intros Hwo.
  unfold WorkOrderAdmin.start_work_order, WorkOrderAdmin.stop_work_order,
    WorkOrderAdmin.pause_work_order, WorkOrderAdmin.resume_work_order, objects_get.
  cbn [objects WorkOrder_Model class_name]. rewrite Hwo. repeat split.
Qed.

Lemma transitions_need_the_work_order_witness :
  WorkOrderAdmin.start_work_order staff_request 404 shop_floor
  = Raise (DoesNotExist "WorkOrder")
  ∧ console (workorder_stop 404) staff_request shop_floor
    = Raise (DoesNotExist "WorkOrder").
Proof.
  split.
  - apply (transitions_need_the_work_order staff_request 404 shop_floor eq_refl).
  - unfold console, RequestMiddleware, admin_view. cbn [view].
    cbn [staff_request staff_user Request.user User.is_authenticated User.is_staff andb].
    rewrite (proj1 (proj2 (transitions_need_the_work_order staff_request 404
                             (set_current_request (Some staff_request) shop_floor)
                             eq_refl))).
    reflexivity.
Defined.

Lemma only_log_same_outside_production (s s' : State) :
  only_log s s' → same_outside_production s s'.
Proof. intros H. unfold same_outside_production. rewrite H. repeat split. Qed.

Lemma same_outside_production_trans (s1 s2 s3 : State) :
  same_outside_production s1 s2 → same_outside_production s2 s3 →
  same_outside_production s1 s3.
Proof.
  unfold same_outside_production.
  intros (?&?&?&?&?&?&?&?&?) (?&?&?&?&?&?&?&?&?). repeat split; congruence.
Qed.

Lemma send_after_work_orders sig cls k text owner created m s :
  same_outside_production s
    (deliver sig cls k text owner created (with_work_orders m s)).
Proof.
  apply (same_outside_production_trans _ (with_work_orders m s));
    [repeat split | apply only_log_same_outside_production, deliver_only_log].
Qed.

Lemma send_after_production_logs sig cls k text owner created m s :
  same_outside_production s
    (deliver sig cls k text owner created (with_production_logs m s)).
Proof.
  apply (same_outside_production_trans _ (with_production_logs m s));
    [repeat split | apply only_log_same_outside_production, deliver_only_log].
Qed.

Lemma transition_frame (request : Request.t) (prepared : WorkOrder.t)
    (action : string) (s : State) :
  same_outside_production s
    (WorkOrderAdmin.log_transition request (Model_save prepared s).1 action
       (Model_save prepared s).2).
Proof.
  apply (same_outside_production_trans _ (Model_save prepared s).2).
  - apply send_after_work_orders.
  - apply send_after_production_logs.
Qed.

Ltac transition_frame_tac :=
  unfold WorkOrderAdmin.start_work_order, WorkOrderAdmin.stop_work_order,
    WorkOrderAdmin.pause_work_order, WorkOrderAdmin.resume_work_order, objects_get;
  match goal with |- context [objects ?s !! ?k] => destruct (objects s !! k) end;
  cbn [mbind Result_bind]; [|discriminate];
  match goal with
  | |- context [Model_save ?prepared ?s] =>
      match goal with
      | |- context [WorkOrderAdmin.log_transition ?request _ ?action _] =>
          pose proof (transition_frame request prepared action s)
      end;
      destruct (Model_save prepared s) as [wo1 s1]
  end;
  intros [= _ <-]; assumption.

(** X3. A transition writes work orders, production logs and audit rows and
    nothing else: the clock, the request slot, the signal registry, accounts,
    employees, products, order lines and inventory are as before. *)
Theorem transitions_touch_production_only (request : Request.t) (object_id : Z)
    (s s' : State) (response : Response) :
  (WorkOrderAdmin.start_work_order request object_id s = Ok (response, s')
   → same_outside_production s s')
  ∧ (WorkOrderAdmin.stop_work_order request object_id s = Ok (response, s')
     → same_outside_production s s')
  ∧ (WorkOrderAdmin.pause_work_order request object_id s = Ok (response, s')
     → same_outside_production s s')
  ∧ (WorkOrderAdmin.resume_work_order request object_id s = Ok (response, s')
     → same_outside_production s s').
Proof. split; [|split; [|split]]; transition_frame_tac. Qed.

Lemma action_buttons_by_status (obj : WorkOrder.t) :
  (WorkOrder.status obj = "ready" →
     WorkOrderAdmin.action_buttons obj = [(WorkOrderAdmin.href obj "start", "Start")])
  ∧ (WorkOrder.status obj = "in_progress" →
       WorkOrderAdmin.action_buttons obj
       = [(WorkOrderAdmin.href obj "pause", "Pause");
          (WorkOrderAdmin.href obj "stop", "Stop")])
  ∧ (WorkOrder.status obj = "paused" →
       WorkOrderAdmin.action_buttons obj = [(WorkOrderAdmin.href obj "resume", "Resume")])
  ∧ (WorkOrder.status obj ∉ ["ready"; "in_progress"; "paused"] →
       WorkOrderAdmin.action_buttons obj = []).
Proof.
  unfold WorkOrderAdmin.action_buttons.
  repeat apply conj; try (intros ->; reflexivity).
  intros Hnot. rewrite !bool_decide_eq_false_2; [done|..];
    intros Heq; apply Hnot; rewrite Heq; set_solver.
Qed.

(** X4. The buttons of the list follow the transitions: the work order that
    Start or Resume stores is offered Pause and Stop, the one Pause stores is
    offered Resume only, and the one Stop stores is offered nothing. *)
Theorem buttons_follow_transitions (request : Request.t) (object_id : Z) (s : State)
    (wo : WorkOrder.t) :
  work_orders s !! object_id = Some wo →
  let offered (run : Request.t → Z → State → Result (Response * State))
        (actions : list (string * string)) :=
    ∃ response s' wo',
      run request object_id s = Ok (response, s')
      ∧ work_orders s' !! object_id = Some wo'
      ∧ WorkOrderAdmin.action_buttons wo'
        = (λ a, (WorkOrderAdmin.href wo' a.1, a.2)) <$> actions in
  offered WorkOrderAdmin.start_work_order [("pause", "Pause"); ("stop", "Stop")]
  ∧ offered WorkOrderAdmin.resume_work_order [("pause", "Pause"); ("stop", "Stop")]
  ∧ offered WorkOrderAdmin.pause_work_order [("resume", "Resume")]
  ∧ offered WorkOrderAdmin.stop_work_order [].
Proof.
  intros Hwo offered. subst offered. cbv beta.
  destruct (transitions_effect request object_id s wo Hwo)
    as ((r1 & s1 & p1 & Hrun1 & Hwos1 & _) & (r2 & s2 & p2 & Hrun2 & Hwos2 & _)
        & (r3 & s3 & p3 & Hrun3 & Hwos3 & _) & (r4 & s4 & p4 & Hrun4 & Hwos4 & _)).
  repeat apply conj.
  - eexists r1, s1, _. split; [exact Hrun1|]. rewrite Hwos1, lookup_insert_eq.
    split; [reflexivity|]. by apply action_buttons_by_status.
  - eexists r4, s4, _. split; [exact Hrun4|]. rewrite Hwos4, lookup_insert_eq.
    split; [reflexivity|]. by apply action_buttons_by_status.
  - eexists r3, s3, _. split; [exact Hrun3|]. rewrite Hwos3, lookup_insert_eq.
    split; [reflexivity|]. by apply action_buttons_by_status.
  - eexists r2, s2, _. split; [exact Hrun2|]. rewrite Hwos2, lookup_insert_eq.
    split; [reflexivity|]. apply action_buttons_by_status.
    cbn. intros Hin.
    repeat (apply elem_of_cons in Hin as [Heq|Hin]; [discriminate|]).
    by apply elem_of_nil in Hin.
Qed.

Lemma buttons_follow_transitions_witness :
  ∃ response s' wo',
    WorkOrderAdmin.pause_work_order staff_request 8 shop_floor = Ok (response, s')
    ∧ work_orders s' !! 8 = Some wo'
    ∧ WorkOrderAdmin.action_buttons wo' = [("/admin/mes/workorder/8/resume/", "Resume")].
Proof.
  destruct (buttons_follow_transitions staff_request 8 shop_floor _ eq_refl)
    as (_ & _ & (response & s' & wo' & Hrun & Hrow & Hbuttons) & _).
  exists response, s', wo'. split; [exact Hrun|]. split; [exact Hrow|].
  rewrite Hbuttons.
  assert (Hid : WorkOrder.id wo' = Some 8).
  { destruct (transitions_effect staff_request 8 shop_floor _ eq_refl)
      as (_ & _ & (r3 & s3 & p3 & Hrun3 & Hwos3 & _) & _).
    rewrite Hrun in Hrun3. injection Hrun3 as _ <-.
    rewrite Hwos3, lookup_insert_eq in Hrow. by injection Hrow as <-. }
  unfold WorkOrderAdmin.href. cbn [fmap list_fmap fst snd]. rewrite Hid. reflexivity.
Defined.

Lemma transitions_frame (request : Request.t) (object_id : Z)
    (s s' : State) (response : Response) :
  WorkOrderAdmin.start_work_order request object_id s = Ok (response, s')
  ∨ WorkOrderAdmin.stop_work_order request object_id s = Ok (response, s')
  ∨ WorkOrderAdmin.pause_work_order request object_id s = Ok (response, s')
  ∨ WorkOrderAdmin.resume_work_order request object_id s = Ok (response, s') →
  same_outside_production s s'.
Proof. intros [H|[H|[H|H]]]; revert H; transition_frame_tac. Qed.



(** *** The derived indicators and the list columns *)

Lemma Qc_of_Z_pos (n : Z) : (0 < n)%Z → (0 < Qc_of_Z n)%Qc.
Proof. intros H. by apply (Z2Qc_inj_lt 0 n). Qed.

Lemma Qc_le_div (t x y : Qc) : (0 < y)%Qc → (t ≤ x / y)%Qc ↔ (t * y ≤ x)%Qc.
Proof.
  intros Hy. rewrite (Qcmult_le_mono_pos_r t (x / y) y Hy).
  replace (x / y * y)%Qc with x; [done|].
  field. intros ->. by apply (irreflexivity Qclt) in Hy.
Qed.

Lemma Qc_le_div_mul (t x y c : Qc) :
  (0 < y)%Qc → (t ≤ x / y * c)%Qc ↔ (t * y ≤ x * c)%Qc.
Proof.
  intros Hy. replace (x / y * c)%Qc with (x * c / y)%Qc; [by apply Qc_le_div|].
  field. intros ->. by apply (irreflexivity Qclt) in Hy.
Qed.

Lemma pending_or_in_progress (status : string) :
  status ∈ ["in_progress"; "pending"] ↔ status ∈ ["pending"; "in_progress"].
Proof. rewrite !elem_of_cons, !elem_of_nil. tauto. Qed.

Lemma is_delayed_iff (s : State) (obj : WorkOrder.t) :
  WorkOrder_is_delayed s obj = true
  ↔ WorkOrder.status obj ∈ ["pending"; "in_progress"]
    ∧ ∃ planned_end, WorkOrder.planned_end obj = Some planned_end
                     ∧ planned_end < timezone_now s.
Proof.
  unfold WorkOrder_is_delayed. rewrite <- pending_or_in_progress.
  destruct (decide (WorkOrder.status obj ∈ ["in_progress"; "pending"])) as [Hst|Hst].
  - rewrite (bool_decide_eq_true_2 _ Hst).
    destruct (WorkOrder.planned_end obj) as [pe|].
    + rewrite bool_decide_eq_true. split.
      * intros Hlt. split; [done|]. by exists pe.
      * intros (_ & pe' & [= <-] & Hlt). done.
    + split; [done|]. by intros (_ & pe' & [=] & _).
  - rewrite (bool_decide_eq_false_2 _ Hst). split; [done|]. by intros (Hin & _).
Qed.

(** X6. A work order counts as delayed exactly when it is pending or in
    progress and its planned end lies before the current time; the status
    column highlights a row exactly when it is delayed, and that is exactly
    when the delay column reads DELAYED. *)
Theorem delayed_rows_are_highlighted (s : State) (obj : WorkOrder.t) :
  (WorkOrder_is_delayed s obj = true
   ↔ WorkOrder.status obj ∈ ["pending"; "in_progress"]
     ∧ ∃ planned_end, WorkOrder.planned_end obj = Some planned_end
                      ∧ planned_end < timezone_now s)
  ∧ (WorkOrderColumns.bg_style (WorkOrderColumns.status_indicator s obj) ≠ ""
     ↔ WorkOrder_is_delayed s obj = true)
  ∧ (WorkOrderColumns.delay_indicator s obj = ("red", "DELAYED")
     ↔ WorkOrder_is_delayed s obj = true).
Proof.
  split; [apply is_delayed_iff|]. split.
  - cbn [WorkOrderColumns.status_indicator WorkOrderColumns.bg_style].
    destruct (WorkOrder_is_delayed s obj) eqn:Hd; cbn [andb].
    + apply is_delayed_iff in Hd as (Hin & _).
      rewrite bool_decide_eq_true_2 by done. done.
    + done.
  - unfold WorkOrderColumns.delay_indicator.
    by destruct (WorkOrder_is_delayed s obj).
Qed.

Lemma completion_rate_ge (obj : WorkOrder.t) (t : Decimal.t) :
  (0 < t)%Qc →
  (t ≤ WorkOrder_completion_rate obj)%Qc
  ↔ (0 < WorkOrder.planned_quantity obj)%Qc
    ∧ (t * WorkOrder.planned_quantity obj
       ≤ WorkOrder.produced_quantity obj * Decimal.of_Z 100)%Qc.
Proof.
  intros Ht. unfold WorkOrder_completion_rate, Decimal.ltb. case_bool_decide as Hp.
  - rewrite (Qc_le_div_mul _ _ _ _ Hp). tauto.
  - split; [|tauto]. intros Hle. apply Qcle_ngt in Hle. by destruct Hle.
Qed.

(** X7. The progress bar is never wider than 100; it is green exactly when
    something was planned and at least the planned quantity was produced, and
    then it is drawn at full width whatever the figure printed; otherwise its
    width is the completion rate. *)
Theorem progress_bar_reading (obj : WorkOrder.t) :
  let '(width, color, figure) := WorkOrderColumns.progress_bar obj in
  figure = WorkOrder_completion_rate obj
  ∧ (width ≤ Decimal.of_Z 100)%Qc
  ∧ (color = "green"
     ↔ (0 < WorkOrder.planned_quantity obj)%Qc
       ∧ (WorkOrder.planned_quantity obj ≤ WorkOrder.produced_quantity obj)%Qc)
  ∧ (color = "green" → width = Decimal.of_Z 100)
  ∧ (color ≠ "green" → width = figure).
Proof.
  unfold WorkOrderColumns.progress_bar. cbv zeta.
  split; [done|].
  assert (Hgreen : (Decimal.of_Z 100 ≤ WorkOrder_completion_rate obj)%Qc
                   ↔ (0 < WorkOrder.planned_quantity obj)%Qc
                     ∧ (WorkOrder.planned_quantity obj
                        ≤ WorkOrder.produced_quantity obj)%Qc).
  { rewrite completion_rate_ge by (by apply Qc_of_Z_pos).
    split; intros [Hp Hle]; (split; [done|]).
    - rewrite (Qcmult_comm (Decimal.of_Z 100)) in Hle.
      by apply Qcmult_le_mono_pos_r in Hle; [|by apply Qc_of_Z_pos].
    - rewrite (Qcmult_comm (Decimal.of_Z 100)).
      by apply Qcmult_le_mono_pos_r; [by apply Qc_of_Z_pos|]. }
  unfold py_min, Decimal.ltb.
  set (pct := WorkOrder_completion_rate obj) in *.
  destruct (decide (Decimal.of_Z 100 ≤ pct)%Qc) as [H100|H100].
  - rewrite (bool_decide_eq_true_2 _ H100).
    assert (Hw : (if bool_decide (Decimal.of_Z 100 < pct)%Qc
                  then Decimal.of_Z 100 else pct) = Decimal.of_Z 100).
    { destruct (decide (Decimal.of_Z 100 < pct)%Qc) as [Hlt|Hlt].
      - by rewrite (bool_decide_eq_true_2 _ Hlt).
      - rewrite (bool_decide_eq_false_2 _ Hlt).
        apply Qcle_ngt in Hlt. by apply Qcle_antisym. }
    rewrite Hw. split; [done|]. split; [by rewrite <- Hgreen|]. done.
  - assert (Hlt : (pct < Decimal.of_Z 100)%Qc) by (by apply Qclt_nge).
    rewrite (bool_decide_eq_false_2 _ H100).
    rewrite (bool_decide_eq_false_2 (Decimal.of_Z 100 < pct)%Qc)
      by (by apply Qcle_ngt, Qclt_le_weak).
    split; [by apply Qclt_le_weak|].
    split; [|split; [|done]].
    + rewrite <- Hgreen. split; [|done].
      by destruct (bool_decide (Decimal.of_Z 75 ≤ pct)%Qc).
    + by destruct (bool_decide (Decimal.of_Z 75 ≤ pct)%Qc).
Qed.

Lemma pass_rate_ge (obj : QualityCheck.t) (t : Z) :
  0 < t →
  (Decimal.of_Z t ≤ QualityCheck.pass_rate obj)%Qc
  ↔ (0 < QualityCheck.sample_size obj
     ∧ t * QualityCheck.sample_size obj ≤ QualityCheck.passed obj * 100)%Z.
Proof.
  intros Ht. unfold QualityCheck.pass_rate, Decimal.of_Z.
  destruct (decide (0 < QualityCheck.sample_size obj)) as [Hs|Hs].
  - rewrite (bool_decide_eq_true_2 _ Hs).
    rewrite (Qc_le_div_mul _ _ _ _ (Qc_of_Z_pos _ Hs)).
    rewrite <- !Z2Qc_inj_mul, <- Z2Qc_inj_le. tauto.
  - rewrite (bool_decide_eq_false_2 _ Hs). split; [|tauto].
    intros Hle. apply (Z2Qc_inj_le t 0) in Hle. lia.
Qed.

(** X8. The pass rate of a quality check is shown green exactly when the
    sample is not empty and at least 95 in 100 passed, orange from 85 in 100,
    and red otherwise, which includes every check with no sample. *)
Theorem pass_rate_colour (obj : QualityCheck.t) :
  let sample_size := QualityCheck.sample_size obj in
  let passed := QualityCheck.passed obj in
  let '(color, rate) := pass_rate_display obj in
  rate = QualityCheck.pass_rate obj
  ∧ (color = "green" ↔ (0 < sample_size ∧ 95 * sample_size ≤ 100 * passed)%Z)
  ∧ (color = "orange"
     ↔ (0 < sample_size ∧ 85 * sample_size ≤ 100 * passed < 95 * sample_size)%Z)
  ∧ (color = "red" ↔ (sample_size ≤ 0 ∨ 100 * passed < 85 * sample_size)%Z).
Proof.
  cbv zeta. unfold pass_rate_display. split; [done|].
  pose proof (pass_rate_ge obj 95 eq_refl) as H95.
  pose proof (pass_rate_ge obj 85 eq_refl) as H85.
  destruct (decide (Decimal.of_Z 95 ≤ QualityCheck.pass_rate obj)%Qc) as [Hg|Hg].
  - rewrite (bool_decide_eq_true_2 _ Hg). apply H95 in Hg.
    split; [split; [lia|done]|]. split; (split; [done|lia]).
  - rewrite (bool_decide_eq_false_2 _ Hg). rewrite H95 in Hg.
    destruct (decide (Decimal.of_Z 85 ≤ QualityCheck.pass_rate obj)%Qc) as [Ho|Ho].
    + rewrite (bool_decide_eq_true_2 _ Ho). apply H85 in Ho.
      split; [split; [done|lia]|]. split; [split; [lia|done]|].
      split; [done|lia].
    + rewrite (bool_decide_eq_false_2 _ Ho). rewrite H85 in Ho.
      split; [split; [done|lia]|]. split; [split; [done|lia]|].
      split; [lia|done].
Qed.

(** 19 passed in a sample of 20 is shown green, 17 orange, and a check with
    no sample red. *)
Example pass_rate_colours :
  (pass_rate_display (sample_quality_check 20 19 1)).1 = "green"
  ∧ (pass_rate_display (sample_quality_check 20 17 3)).1 = "orange"
  ∧ (pass_rate_display (sample_quality_check 0 0 0)).1 = "red".
Proof. repeat split; vm_compute; reflexivity. Qed.

Lemma duration_minutes_elapsed (s : State) (obj : Downtime.t) :
  Downtime.duration_minutes s obj
  = (Qc_of_Z (elapsed s obj) / Qc_of_Z 60000000)%Qc.
Proof.
  unfold Downtime.duration_minutes, elapsed, total_seconds, Decimal.of_Z.
  change 60000000 with (1000000 * 60). rewrite Z2Qc_inj_mul.
  assert (Ha : Qc_of_Z 1000000 ≠ 0%Qc) by done.
  assert (Hb : Qc_of_Z 60 ≠ 0%Qc) by done.
  revert Ha Hb. generalize (Qc_of_Z 1000000) (Qc_of_Z 60). intros a b Ha Hb.
  destruct (Downtime.end_time obj) as [e|]; cbn [from_option id]; by field.
Qed.

(** X9. A downtime is shown in hours exactly when it has lasted one hour or
    more, up to its end or up to now while it is open, and in minutes
    otherwise; the figure shown is the time elapsed in the unit shown. *)
Theorem duration_display_reading (s : State) (obj : Downtime.t) :
  let '(figure, unit) := duration_display s obj in
  (unit = "hrs" ↔ (3600000000 ≤ elapsed s obj)%Z)
  ∧ (unit = "min" ↔ (elapsed s obj < 3600000000)%Z)
  ∧ (unit = "hrs" → (figure * Qc_of_Z 3600000000)%Qc = Qc_of_Z (elapsed s obj))
  ∧ (unit = "min" → (figure * Qc_of_Z 60000000)%Qc = Qc_of_Z (elapsed s obj)).
Proof.
  unfold duration_display. cbv zeta. rewrite duration_minutes_elapsed.
  unfold Decimal.of_Z.
  assert (H60 : (Qc_of_Z 60 ≤ Qc_of_Z (elapsed s obj) / Qc_of_Z 60000000)%Qc
                ↔ (3600000000 ≤ elapsed s obj)%Z).
  { rewrite (Qc_le_div _ _ _ (Qc_of_Z_pos 60000000 eq_refl)).
    by rewrite <- Z2Qc_inj_mul, <- Z2Qc_inj_le. }
  destruct (decide (Qc_of_Z 60 ≤ Qc_of_Z (elapsed s obj) / Qc_of_Z 60000000)%Qc)
    as [Hh|Hh].
  - rewrite (bool_decide_eq_true_2 _ Hh). apply H60 in Hh.
    split; [done|]. split; [split; [done|lia]|]. split; [|done].
    intros _. change 3600000000 with (60000000 * 60) at 1.
    rewrite Z2Qc_inj_mul. by field.
  - rewrite (bool_decide_eq_false_2 _ Hh). rewrite H60 in Hh.
    split; [split; [done|lia]|]. split; [split; [lia|done]|]. split; [done|].
    intros _. by field.
Qed.

(** X10. The duration of a downtime that has ended does not depend on when
    it is read; the duration of an open downtime never shrinks as the clock
    advances. *)
Theorem open_downtime_never_shrinks (d : timedelta) (s : State) (obj : Downtime.t) :
  (0 ≤ d)%Z →
  (Downtime.duration_minutes s obj ≤ Downtime.duration_minutes (later d s) obj)%Qc
  ∧ (is_Some (Downtime.end_time obj) →
     Downtime.duration_minutes (later d s) obj = Downtime.duration_minutes s obj).
Proof.
  intros Hd. rewrite !duration_minutes_elapsed. unfold elapsed, timezone_now.
  cbn [later clock].
  destruct (Downtime.end_time obj) as [e|]; cbn [from_option id].
  - by split.
  - split; [|by intros [? [=]]].
    apply Qc_le_div; [by apply Qc_of_Z_pos|].
    replace (Qc_of_Z (clock s - Downtime.start_time obj) / Qc_of_Z 60000000
             * Qc_of_Z 60000000)%Qc
      with (Qc_of_Z (clock s - Downtime.start_time obj)) by (by field).
    apply (proj1 (Z2Qc_inj_le _ _)). lia.
Qed.

(** Two minutes later, an open downtime is not shorter, and one that ended
    after ten minutes is still ten minutes long. *)
Lemma open_downtime_never_shrinks_witness :
  (Downtime.duration_minutes started (sample_downtime 1699999000000000 None)
   ≤ Downtime.duration_minutes (later 120000000 started)
       (sample_downtime 1699999000000000 None))%Qc
  ∧ Downtime.duration_minutes (later 120000000 started)
      (sample_downtime 1699999000000000 (Some 1699999600000000))
    = Decimal.of_Z 10.
Proof.
  split.
  - apply (open_downtime_never_shrinks 120000000 started
             (sample_downtime 1699999000000000 None)). done.
  - rewrite (proj2 (open_downtime_never_shrinks 120000000 started
                      (sample_downtime 1699999000000000 (Some 1699999600000000))
                      ltac:(done))) by (by eexists).
    by apply Qc_is_canon.
Defined.

Lemma total_seconds_pos (d : timedelta) : (0 < total_seconds d)%Qc ↔ (0 < d)%Z.
Proof.
  unfold total_seconds, Qcdiv. rewrite (Z2Qc_inj_lt 0 d), Z2Qc_inj_0.
  rewrite (Qcmult_lt_mono_pos_r 0 (Qc_of_Z d) (/ Qc_of_Z 1000000)) by done.
  by rewrite Qcmult_0_l.
Qed.

(** X11. A work order has an efficiency exactly when its four planned and
    actual times are all set and it ended after it started; the figure is
    then 100 or more exactly when the run took no longer than planned. *)
Theorem efficiency_defined_iff (wo : WorkOrder.t) :
  (is_Some (WorkOrder.efficiency wo)
   ↔ ∃ p_start p_end a_start a_end,
       WorkOrder.planned_start wo = Some p_start
       ∧ WorkOrder.planned_end wo = Some p_end
       ∧ WorkOrder.actual_start wo = Some a_start
       ∧ WorkOrder.actual_end wo = Some a_end
       ∧ (a_start < a_end)%Z)
  ∧ (∀ p_start p_end a_start a_end e,
       WorkOrder.planned_start wo = Some p_start →
       WorkOrder.planned_end wo = Some p_end →
       WorkOrder.actual_start wo = Some a_start →
       WorkOrder.actual_end wo = Some a_end →
       WorkOrder.efficiency wo = Some e →
       (Decimal.of_Z 100 ≤ e)%Qc ↔ (a_end - a_start ≤ p_end - p_start)%Z).
Proof.
  unfold WorkOrder.efficiency, Decimal.ltb. split.
  - destruct (WorkOrder.actual_start wo) as [a_start|];
      [|split; [by intros [? [=]]|by intros (?&?&?&?&_&_&[=]&_)]].
    destruct (WorkOrder.actual_end wo) as [a_end|];
      [|split; [by intros [? [=]]|by intros (?&?&?&?&_&_&_&[=]&_)]].
    destruct (WorkOrder.planned_end wo) as [p_end|];
      [|split; [by intros [? [=]]|by intros (?&?&?&?&_&[=]&_)]].
    destruct (WorkOrder.planned_start wo) as [p_start|];
      [|split; [by intros [? [=]]|by intros (?&?&?&?&[=]&_)]].
    cbv zeta.
    destruct (decide (0 < total_seconds (a_end - a_start))%Qc) as [Hpos|Hpos].
    + rewrite (bool_decide_eq_true_2 _ Hpos).
      apply (proj1 (total_seconds_pos _)) in Hpos.
      split; [|by eexists]. intros _. exists p_start, p_end, a_start, a_end.
      do 4 (split; [done|]). lia.
    + rewrite (bool_decide_eq_false_2 _ Hpos). split; [by intros [? [=]]|].
      intros (?&?&a&b&_&_&[= <-]&[= <-]&Hlt). destruct Hpos.
      apply (proj2 (total_seconds_pos _)). lia.
  - intros p_start p_end a_start a_end e -> -> -> ->. cbv zeta.
    destruct (decide (0 < total_seconds (a_end - a_start))%Qc) as [Hpos|Hpos].
    + rewrite (bool_decide_eq_true_2 _ Hpos). intros [= <-].
      rewrite (Qc_le_div_mul _ _ _ _ Hpos). unfold total_seconds, Decimal.of_Z.
      rewrite (Qcmult_comm (Qc_of_Z 100)).
      rewrite <- (Qcmult_le_mono_pos_r _ _ (Qc_of_Z 100)) by done.
      unfold Qcdiv.
      rewrite <- (Qcmult_le_mono_pos_r _ _ (/ Qc_of_Z 1000000)) by done.
      by rewrite <- Z2Qc_inj_le.
    + by rewrite (bool_decide_eq_false_2 _ Hpos).
Qed.

(** X12. With a quantity and a scrap factor that are not negative, the
    adjusted quantity of a bill-of-materials line is at least its quantity,
    and equal to it exactly when the quantity or the scrap factor is zero. *)
Theorem adjusted_quantity_covers_scrap (line : BOMLine.t) :
  (0 ≤ BOMLine.quantity line)%Qc →
  (0 ≤ BOMLine.scrap_factor line)%Qc →
  (BOMLine.quantity line ≤ BOMLine.adjusted_quantity line)%Qc
  ∧ (BOMLine.adjusted_quantity line = BOMLine.quantity line
     ↔ BOMLine.quantity line = 0%Qc ∨ BOMLine.scrap_factor line = 0%Qc).
Proof.
  intros Hq Hs. unfold BOMLine.adjusted_quantity, Decimal.of_Z.
  set (q := BOMLine.quantity line) in *. set (f := BOMLine.scrap_factor line) in *.
  assert (Heq : (q * (1 + f / Qc_of_Z 100))%Qc
                = (q + q * f * / Qc_of_Z 100)%Qc) by (by field).
  rewrite Heq. split.
  - rewrite <- (Qcplus_0_r q) at 1. apply Qcplus_le_mono_l.
    apply Qcmult_nonneg_nonneg; [by apply Qcmult_nonneg_nonneg|done].
  - split.
    + intros H. assert (H0 : (q * f * / Qc_of_Z 100)%Qc = 0%Qc).
      { apply (inj (Qcplus q)). by rewrite Qcplus_0_r. }
      apply Qcmult_integral in H0 as [H0|H0]; [|done].
      by apply Qcmult_integral in H0.
    + intros [-> | ->]; ring.
Qed.

Lemma adjusted_quantity_covers_scrap_witness :
  (Decimal.of_Z 2 ≤ BOMLine.adjusted_quantity
                      (sample_bom_line 1 (Some (sample_material 50)) None 2 10))%Qc.
Proof.
  by apply (adjusted_quantity_covers_scrap
              (sample_bom_line 1 (Some (sample_material 50)) None 2 10)).
Defined.

(** *** The audit writer and its receivers *)

Lemma substring_length_le (m : nat) (s : string) :
  (String.length (substring 0 m s) ≤ m)%nat.
Proof.
  revert s. induction m as [|m IH]; intros [|c s]; cbn; try lia.
  specialize (IH s). lia.
Qed.

Lemma substring_length_long (m : nat) (s : string) :
  (m ≤ String.length s)%nat → String.length (substring 0 m s) = m.
Proof.
  revert s. induction m as [|m IH]; intros [|c s]; cbn; try lia.
  intros H. rewrite IH; lia.
Qed.

Lemma string_app_assoc (a b c : string) : (a ++ b) ++ c = a ++ b ++ c.
Proof.
  induction a as [|x a IH]; [done|].
  change (String x ((a ++ b) ++ c) = String x (a ++ b ++ c)). by rewrite IH.
Qed.

Lemma string_app_length (a b : string) :
  String.length (a ++ b) = (String.length a + String.length b)%nat.
Proof. induction a as [|c a IH]; simpl; [done|]. f_equal. exact IH. Qed.

(** The row that [create_log] writes. *)
Lemma create_log_entry a d u e m o n s :
  ∃ row,
    create_log a d u e m o n s
    = with_log_data (<[fresh_pk (log_data s) := row]> (log_data s)) s
    ∧ LogData.id row = Some (fresh_pk (log_data s))
    ∧ LogData.action_type row = a
    ∧ LogData.description row = d
    ∧ LogData.model_name row = m
    ∧ LogData.object_id row = o
    ∧ LogData.nfc_uid row = n
    ∧ LogData.timestamp row = timezone_now s
    ∧ LogData.ip_address row = thread_request s ≫= Request.REMOTE_ADDR
    ∧ LogData.device_info row
      = (λ request, substring 0 200 (default "" (Request.HTTP_USER_AGENT request)))
          <$> thread_request s
    ∧ LogData.user row
      = match thread_request s, u with
        | Some request, None =>
            if User.is_authenticated (Request.user request)
            then Some (User.id (Request.user request)) else None
        | _, _ => u
        end
    ∧ LogData.employee row
      = match thread_request s, e with
        | Some request, None => WorkOrderAdmin.operator_of request
        | _, _ => e
        end.
Proof.
  eexists. split; [reflexivity|]. do 10 (split; [reflexivity|]).
  cbn. unfold get_current_request, WorkOrderAdmin.operator_of.
  destruct (thread_request s) as [request|], e; reflexivity.
Qed.

(** X13. Whatever the caller passes, the row that the audit writer adds is
    new, stamped with the current time, and holds at most 200 characters of
    device information.  Outside a request it records no address and no
    device, and the account and employee are the ones passed.  Inside a
    request an account that was passed is kept; where none was passed the
    account of the request is recorded if it is authenticated, and no account
    otherwise. *)
Theorem create_log_enrichment a d u e m o n s :
  ∃ row,
    appended (log_data s) (log_data (create_log a d u e m o n s)) row
    ∧ only_log s (create_log a d u e m o n s)
    ∧ LogData.timestamp row = timezone_now s
    ∧ (∀ info, LogData.device_info row = Some info → (String.length info ≤ 200)%nat)
    ∧ (thread_request s = None →
       LogData.ip_address row = None ∧ LogData.device_info row = None
       ∧ LogData.user row = u ∧ LogData.employee row = e)
    ∧ (∀ request, thread_request s = Some request →
       LogData.ip_address row = Request.REMOTE_ADDR request
       ∧ is_Some (LogData.device_info row)
       ∧ (is_Some u → LogData.user row = u)
       ∧ (u = None → User.is_authenticated (Request.user request) = true →
          LogData.user row = Some (User.id (Request.user request)))
       ∧ (u = None → User.is_authenticated (Request.user request) = false →
          LogData.user row = None)).
Proof.
  destruct (create_log_entry a d u e m o n s)
    as (row & Hs & _ & _ & _ & _ & _ & _ & Hts & Hip & Hdev & Huser & Hemp).
  exists row. rewrite Hs. cbn [log_data with_log_data].
  split; [exists (fresh_pk (log_data s)); split; [apply fresh_pk_None|done]|].
  split; [apply only_log_with_log_data|]. split; [done|]. split; [|split].
  - intros info. rewrite Hdev. destruct (thread_request s); [|done].
    intros [= <-]. apply substring_length_le.
  - intros Hnone. rewrite Hnone in *. done.
  - intros request Hreq. rewrite Hreq in *. split; [done|]. split; [by eexists|].
    split; [by intros [? ->]|]. split; intros -> Hauth; by rewrite Hauth in Huser.
Qed.

(** The receivers that the registry holds for a tracked model when the
    application has started with [DEBUG] on. *)
Lemma tracked_listeners (model_class model_name : string) :
  (model_class, model_name) ∈ models_to_track →
  filter (λ r, listens post_save model_class r = true) startup_receivers
  = [ {| signal := post_save; sender := model_class;
         handler := log_model_save model_name |} ]
  ∧ filter (λ r, listens post_delete model_class r = true) startup_receivers
    = [ {| signal := post_delete; sender := model_class;
           handler := log_model_delete model_name |} ].
Proof.
  unfold models_to_track. intros Hin.
  repeat (apply elem_of_cons in Hin as [[= -> ->]|Hin]; [by split|]).
  by apply elem_of_nil in Hin.
Qed.

Lemma tracked_not_module_level (model_class model_name : string) :
  (model_class, model_name) ∈ models_to_track →
  model_class ≠ "Employee" ∧ model_class ≠ "UserProfile".
Proof.
  unfold models_to_track. intros Hin.
  repeat (apply elem_of_cons in Hin as [[= -> ->]|Hin]; [by split|]).
  by apply elem_of_nil in Hin.
Qed.

Lemma send_startup sig cls k label owner created s :
  receivers s = startup_receivers →
  send sig cls k label owner created s
  = foldl (λ acc r, s ← acc; run_handler (handler r) k label owner created s) (Ok s)
      (filter (λ r, listens sig cls r = true) startup_receivers).
Proof. intros Hr. unfold send. by rewrite Hr. Qed.

Lemma Inventory_str_loaded_raises (s : State) (inv : Inventory.t) (product_id : Z) :
  Inventory_product_id inv = Some product_id →
  products s !! product_id = None →
  Inventory_str_loaded s inv = Raise (DoesNotExist "Product").
Proof. intros Hpid Hrow. unfold Inventory_str_loaded. by rewrite Hpid, Hrow. Qed.

(** X14. What a write of a model on the tracked list adds to the audit log
    depends on the [DEBUG] setting the application started with.  With
    [DEBUG] off the signal reaches no receiver and the state is left as it
    is.  With [DEBUG] on it reaches exactly one receiver, which prints the
    instance: where that succeeds, a save adds one row with action create or
    update and a deletion one row with action delete, each under the model's
    name, with the key of the instance and a description made of the model's
    name and the instance's text, and nothing else changes; where printing
    the instance raises, the exception leaves the signal and no row is
    added.  Printing raises for an inventory row loaded without its product
    once the product's row is gone. *)
Theorem tracked_models_logged_under_debug (model_class model_name : string) (k : Z)
    (owner : option User.t) (created : bool) (s : State) :
  (model_class, model_name) ∈ models_to_track →
  (receivers s = production_receivers →
     ∀ label,
       send post_save model_class k label owner created s = Ok s
       ∧ send post_delete model_class k label owner created s = Ok s)
  ∧ (receivers s = startup_receivers →
     (∀ text, ∃ row,
        send post_save model_class k (Ok text) owner created s
        = Ok (with_log_data (<[fresh_pk (log_data s) := row]> (log_data s)) s)
        ∧ LogData.action_type row = (if created then "create" else "update")
        ∧ LogData.model_name row = Some model_name
        ∧ LogData.object_id row = Some k
        ∧ LogData.description row
          = model_name ++ " " ++ text ++ " " ++ (if created then "created" else "updated"))
     ∧ (∀ text, ∃ row,
          send post_delete model_class k (Ok text) owner created s
          = Ok (with_log_data (<[fresh_pk (log_data s) := row]> (log_data s)) s)
          ∧ LogData.action_type row = "delete"
          ∧ LogData.model_name row = Some model_name
          ∧ LogData.object_id row = Some k
          ∧ LogData.description row = model_name ++ " " ++ text ++ " deleted")
     ∧ (∀ e,
          send post_save model_class k (Raise e) owner created s = Raise e
          ∧ send post_delete model_class k (Raise e) owner created s = Raise e))
  ∧ (∀ (inv : Inventory.t) (product_id : Z),
       Inventory_product_id inv = Some product_id →
       products s !! product_id = None →
       Inventory_str_loaded s inv = Raise (DoesNotExist "Product")).
Proof.
  intros Hin. destruct (tracked_listeners _ _ Hin) as [Hsave Hdelete].
  destruct (tracked_not_module_level _ _ Hin) as [Hemp Hprof].
  split; [|split].
  - intros Hr label. split; apply send_nobody; by apply nobody_in_production.
  - intros Hr. split; [|split].
    + intros text. rewrite send_startup by exact Hr. rewrite Hsave.
      cbn [foldl handler run_handler mbind Result_bind log_entry].
      match goal with
      | |- context [create_log ?a ?d ?u ?e ?m ?o ?n s] =>
          destruct (create_log_entry a d u e m o n s)
            as (row & -> & _ & Hact & Hd & Hm & Ho & _)
      end.
      by exists row.
    + intros text. rewrite send_startup by exact Hr. rewrite Hdelete.
      cbn [foldl handler run_handler mbind Result_bind log_entry].
      match goal with
      | |- context [create_log ?a ?d ?u ?e ?m ?o ?n s] =>
          destruct (create_log_entry a d u e m o n s)
            as (row & -> & _ & Hact & Hd & Hm & Ho & _)
      end.
      by exists row.
    + intros e. rewrite !send_startup by exact Hr. rewrite Hsave, Hdelete. by split.
  - intros inv product_id. apply Inventory_str_loaded_raises.
Qed.

(** The deletion of an invoice: audited under [DEBUG], silent in production. *)
Lemma tracked_models_logged_under_debug_witness :
  (∃ row,
     send post_delete "Invoice" 5 (Ok "INV-005 - Sales Invoice") None false started
     = Ok (with_log_data (<[fresh_pk (log_data started) := row]> (log_data started))
             started)
     ∧ LogData.description row = "Invoice INV-005 - Sales Invoice deleted")
  ∧ send post_delete "Invoice" 5 (Ok "INV-005 - Sales Invoice") None false
      started_production
    = Ok started_production.
Proof.
  assert (Hin : ("Invoice", "Invoice") ∈ models_to_track).
  { unfold models_to_track. do 3 apply list_elem_of_further. apply list_elem_of_here. }
  split.
  - destruct (tracked_models_logged_under_debug "Invoice" "Invoice" 5 None false
                started Hin) as (_ & Hdebug & _).
    destruct (Hdebug eq_refl) as (_ & Hdel & _).
    destruct (Hdel "INV-005 - Sales Invoice") as (row & Hsend & _ & _ & _ & Hd).
    by exists row.
  - destruct (tracked_models_logged_under_debug "Invoice" "Invoice" 5 None false
                started_production Hin) as (Hproduction & _).
    apply (Hproduction eq_refl).
Defined.

Lemma deliver_tracked_save (model_class model_name : string) k text owner created s :
  receivers s = startup_receivers →
  (model_class, model_name) ∈ models_to_track →
  deliver post_save model_class k text owner created s
  = create_log (if created then "create" else "update")
      (model_name ++ " " ++ text ++ " " ++ (if created then "created" else "updated"))
      None None (Some model_name) (Some k) None s.
Proof.
  intros Hr Hin. rewrite deliver_startup by exact Hr.
  by rewrite (proj1 (tracked_listeners _ _ Hin)).
Qed.

Lemma filter_none {A : Type} (P : A → Prop) `{!∀ x, Decision (P x)} (l : list A) :
  Forall (λ x, ¬ P x) l → filter P l = [].
Proof.
  induction 1 as [|x l Hx _ IH]; [done|].
  by rewrite filter_cons, decide_False.
Qed.

Lemma startup_senders :
  Forall (λ r, sender r ∈ "Employee" :: "UserProfile" :: (fst <$> models_to_track))
    startup_receivers.
Proof.
  repeat (apply Forall_cons; split;
          [repeat first [apply list_elem_of_here | apply list_elem_of_further]|]).
  apply Forall_nil_2.
Qed.

Lemma nobody_for_untracked sig (model_class : string) (s : State) :
  receivers s = startup_receivers ∨ receivers s = production_receivers →
  model_class ≠ "Employee" →
  model_class ≠ "UserProfile" →
  model_class ∉ (fst <$> models_to_track) →
  filter (λ r, listens sig model_class r = true) (receivers s) = [].
Proof.
  intros [Hr|Hr] Hemp Hprof Hin; [|by apply nobody_in_production].
  rewrite Hr. rewrite filter_none; [done|].
  eapply Forall_impl; [apply startup_senders|].
  intros r Hsender. unfold listens. intros Hl.
  apply andb_prop in Hl as [_ Hcls]. apply bool_decide_eq_true in Hcls.
  cbv beta in Hsender. rewrite Hcls in Hsender.
  apply elem_of_cons in Hsender as [->|Hsender]; [done|].
  apply elem_of_cons in Hsender as [->|Hsender]; done.
Qed.

Lemma line_classes_untracked :
  ("PurchaseOrderLine" ∉ fst <$> models_to_track)
  ∧ ("SalesOrderLine" ∉ fst <$> models_to_track).
Proof.
  split; cbn; intros Hin;
    repeat (apply elem_of_cons in Hin as [Heq|Hin]; [discriminate|]);
    by apply elem_of_nil in Hin.
Qed.

Lemma module_level_listeners (s : State) :
  receivers s = startup_receivers ∨ receivers s = production_receivers →
  filter (λ r, listens post_save "Employee" r = true) (receivers s)
  = [ {| signal := post_save; sender := "Employee"; handler := log_employee_save |} ]
  ∧ filter (λ r, listens post_save "UserProfile" r = true) (receivers s)
    = [ {| signal := post_save; sender := "UserProfile"; handler := log_profile_save |} ]
  ∧ filter (λ r, listens post_delete "Employee" r = true) (receivers s) = []
  ∧ filter (λ r, listens post_delete "UserProfile" r = true) (receivers s) = [].
Proof. intros [-> | ->]; repeat split. Qed.





Lemma tracked_work_order : ("WorkOrder", "WorkOrder") ∈ models_to_track.
Proof. unfold models_to_track. do 4 apply list_elem_of_further. apply list_elem_of_here. Qed.

Lemma tracked_production_log : ("ProductionLog", "ProductionLog") ∈ models_to_track.
Proof. unfold models_to_track. do 5 apply list_elem_of_further. apply list_elem_of_here. Qed.

(** A transition run while the request is held in the thread-local slot:
    the audit rows of the work order and of its production log. *)
Lemma transition_audit (request : Request.t) (prepared : WorkOrder.t)
    (action : string) (s : State) :
  receivers s = startup_receivers →
  thread_request s = Some request →
  User.is_authenticated (Request.user request) = true →
  ∃ k1 e1 k2 e2,
    log_data (WorkOrderAdmin.log_transition request (Model_save prepared s).1 action
                (Model_save prepared s).2)
    = <[k2 := e2]> (<[k1 := e1]> (log_data s))
    ∧ log_data s !! k1 = None ∧ log_data s !! k2 = None ∧ k1 ≠ k2
    ∧ LogData.model_name e1 = Some "WorkOrder"
    ∧ LogData.object_id e1 = WorkOrder.id (Model_save prepared s).1
    ∧ LogData.model_name e2 = Some "ProductionLog"
    ∧ LogData.action_type e2 = "create"
    ∧ Forall (λ e, LogData.user e = Some (User.id (Request.user request))
                   ∧ LogData.ip_address e = Request.REMOTE_ADDR request
                   ∧ LogData.employee e = WorkOrderAdmin.operator_of request
                   ∧ LogData.timestamp e = timezone_now s) [e1; e2].
Proof.
  intros Hr Hreq Hauth.
  unfold WorkOrderAdmin.log_transition, objects_create, Model_save.
  cbn [fst snd class_name WorkOrder_Model ProductionLog_Model pk objects with_objects
       with_pk to_str pre_save ProductionLog.id].
  rewrite (deliver_tracked_save "WorkOrder" "WorkOrder")
    by (exact Hr || exact tracked_work_order).
  match goal with
  | |- context [create_log ?a ?d ?u ?e ?m ?o ?n ?s1] =>
      destruct (create_log_entry a d u e m o n s1)
        as (e1 & Hs1 & _ & _ & _ & Hm1 & Ho1 & _ & Hts1 & Hip1 & _ & Hu1 & He1)
  end.
  cbn [thread_request log_data with_work_orders timezone_now clock] in *.
  rewrite Hreq, Hauth in *. rewrite Hs1. clear Hs1.
  rewrite (deliver_tracked_save "ProductionLog" "ProductionLog")
    by (exact Hr || exact tracked_production_log).
  match goal with
  | |- context [create_log ?a ?d ?u ?e ?m ?o ?n ?s2] =>
      destruct (create_log_entry a d u e m o n s2)
        as (e2 & Hs2 & _ & Hact2 & _ & Hm2 & _ & _ & Hts2 & Hip2 & _ & Hu2 & He2)
  end.
  cbn [thread_request log_data with_work_orders with_production_logs with_log_data
       timezone_now clock] in *.
  rewrite Hreq, Hauth in *. rewrite Hs2. clear Hs2.
  cbn [log_data with_log_data].
  set (k1 := fresh_pk (log_data s)) in *.
  assert (Hk1 : log_data s !! k1 = None) by apply fresh_pk_None.
  set (k2 := fresh_pk (<[k1 := e1]> (log_data s))).
  assert (Hk2 : <[k1 := e1]> (log_data s) !! k2 = None) by apply fresh_pk_None.
  assert (Hne : k1 ≠ k2).
  { intros Heq. rewrite <- Heq, lookup_insert_eq in Hk2. done. }
  exists k1, e1, k2, e2. split; [done|]. split; [done|].
  split; [by rewrite lookup_insert_ne in Hk2|]. split; [done|].
  split; [done|]. split; [done|]. split; [done|]. split; [done|].
  repeat (apply Forall_cons; split; [done|]). apply Forall_nil_2.
Qed.

(** The same transition in production: no audit row. *)
Lemma transition_unaudited (request : Request.t) (prepared : WorkOrder.t)
    (action : string) (s : State) :
  receivers s = production_receivers →
  log_data (WorkOrderAdmin.log_transition request (Model_save prepared s).1 action
              (Model_save prepared s).2)
  = log_data s.
Proof.
  intros Hr.
  unfold WorkOrderAdmin.log_transition, objects_create, Model_save.
  cbn [fst snd class_name WorkOrder_Model ProductionLog_Model].
  rewrite (deliver_nobody post_save "WorkOrder") by (by apply nobody_in_production).
  rewrite (deliver_nobody post_save "ProductionLog") by (by apply nobody_in_production).
  reflexivity.
Qed.

(** What the console runs for a transition that a staff account requests for
    a work order that exists. *)
Lemma console_transition (request : Request.t) (object_id : Z) (s : State)
    (wo : WorkOrder.t) (op : Console) :
  User.is_authenticated (Request.user request) = true →
  User.is_staff (Request.user request) = true →
  work_orders s !! object_id = Some wo →
  op ∈ [workorder_start object_id; workorder_stop object_id;
        workorder_pause object_id; workorder_resume object_id] →
  let s0 := set_current_request (Some request) s in
  ∃ prepared action,
    WorkOrder.id prepared = Some object_id
    ∧ console op request s
      = Ok (set_current_request None
              (WorkOrderAdmin.log_transition request (Model_save prepared s0).1 action
                 (Model_save prepared s0).2)).
Proof.
  intros Hauth Hstaff Hwo Hop s0.
  unfold console, RequestMiddleware, admin_view. rewrite Hauth, Hstaff. cbn [andb].
  fold s0.
  assert (Hwo0 : work_orders s0 !! object_id = Some wo) by exact Hwo.
  repeat (apply elem_of_cons in Hop as [->|Hop]);
    [..|by apply elem_of_nil in Hop];
    cbn [view];
    unfold WorkOrderAdmin.start_work_order, WorkOrderAdmin.stop_work_order,
      WorkOrderAdmin.pause_work_order, WorkOrderAdmin.resume_work_order, objects_get;
    cbn [objects WorkOrder_Model with_pk class_name];
    rewrite Hwo0; cbn [mbind Result_bind];
    match goal with
    | |- context [Model_save ?prepared s0] =>
        match goal with
        | |- context [WorkOrderAdmin.log_transition request _ ?action _] =>
            exists prepared, action
        end;
        split; [reflexivity|];
        destruct (Model_save prepared s0) as [wo1 s1]; reflexivity
    end.
Qed.

(** X17. Each of the four console transitions, requested by a staff account
    for a work order that exists, is answered, and the request no longer
    sits in the thread-local slot afterwards.  What it adds to the audit log
    depends on the [DEBUG] setting the application started with.  With
    [DEBUG] on it adds exactly two audit rows: one for the work order and
    one, with action create, for the production log; both carry the account,
    the address and the employee of the request.  With [DEBUG] off it adds no
    audit row, while the work order is written and the production log row
    added all the same. *)
Theorem transitions_are_audited_under_debug (request : Request.t) (object_id : Z)
    (s : State) (wo : WorkOrder.t) (op : Console) :
  User.is_authenticated (Request.user request) = true →
  User.is_staff (Request.user request) = true →
  work_orders s !! object_id = Some wo →
  op ∈ [workorder_start object_id; workorder_stop object_id;
        workorder_pause object_id; workorder_resume object_id] →
  (receivers s = startup_receivers →
     ∃ s' k1 e1 k2 e2,
       console op request s = Ok s'
       ∧ thread_request s' = None
       ∧ log_data s' = <[k2 := e2]> (<[k1 := e1]> (log_data s))
       ∧ log_data s !! k1 = None ∧ log_data s !! k2 = None ∧ k1 ≠ k2
       ∧ LogData.model_name e1 = Some "WorkOrder"
       ∧ LogData.object_id e1 = Some object_id
       ∧ LogData.model_name e2 = Some "ProductionLog"
       ∧ LogData.action_type e2 = "create"
       ∧ Forall (λ e, LogData.user e = Some (User.id (Request.user request))
                      ∧ LogData.ip_address e = Request.REMOTE_ADDR request
                      ∧ LogData.employee e = WorkOrderAdmin.operator_of request
                      ∧ LogData.timestamp e = timezone_now s) [e1; e2])
  ∧ (receivers s = production_receivers →
     ∃ s' wo' pl,
       console op request s = Ok s'
       ∧ thread_request s' = None
       ∧ log_data s' = log_data s
       ∧ work_orders s' = <[object_id := wo']> (work_orders s)
       ∧ WorkOrder.updated_at wo' = timezone_now s
       ∧ appended (production_logs s) (production_logs s') pl
       ∧ ProductionLog.work_order pl = wo').
Proof.
  intros Hauth Hstaff Hwo Hop.
  destruct (console_transition request object_id s wo op Hauth Hstaff Hwo Hop)
    as (prepared & action & Hid & ->).
  set (s0 := set_current_request (Some request) s).
  split; intros Hr.
  - assert (Hr0 : receivers s0 = startup_receivers) by exact Hr.
    assert (Hreq0 : thread_request s0 = Some request) by reflexivity.
    destruct (transition_audit request prepared action s0 Hr0 Hreq0 Hauth)
      as (k1 & e1 & k2 & e2 & Hlog & Hk1 & Hk2 & Hne & Hm1 & Ho1 & Hm2 & Hact2 & Hall).
    assert (Hsaved : WorkOrder.id (Model_save prepared s0).1 = Some object_id).
    { unfold Model_save. cbn [fst pk with_pk pre_save WorkOrder_Model]. by rewrite Hid. }
    rewrite Hsaved in Ho1.
    eexists _, k1, e1, k2, e2. split; [reflexivity|]. split; [reflexivity|].
    split; [exact Hlog|]. done.
  - assert (Hr0 : receivers s0 = production_receivers) by exact Hr.
    assert (Hrow0 : is_Some (work_orders s0 !! object_id)) by (by exists wo).
    destruct (transition_effect request object_id s0 prepared action Hid Hrow0)
      as (Hwos & pl & Hlogs & _ & Hpl & _).
    eexists _, _, pl. split; [reflexivity|]. split; [reflexivity|].
    split; [exact (transition_unaudited request prepared action s0 Hr0)|].
    split; [exact Hwos|]. split; [reflexivity|]. split; [exact Hlogs | exact Hpl].
Qed.

(** Pausing work order 8 on the sample shop floor: two audit rows under
    [DEBUG], none in production, where the work order is paused and its
    production log written all the same. *)
Lemma transitions_are_audited_under_debug_witness :
  (∃ s',
     console (workorder_pause 8) staff_request shop_floor = Ok s'
     ∧ thread_request s' = None
     ∧ size (log_data s') = 2%nat)
  ∧ (∃ s' wo',
       console (workorder_pause 8) staff_request shop_floor_production = Ok s'
       ∧ log_data s' = ∅
       ∧ work_orders s' !! 8 = Some wo'
       ∧ WorkOrder.updated_at wo' = 1700000000000000
       ∧ size (production_logs s') = 1%nat).
Proof.
  assert (Hop : workorder_pause 8
                ∈ [workorder_start 8; workorder_stop 8; workorder_pause 8;
                   workorder_resume 8])
    by (do 2 apply list_elem_of_further; apply list_elem_of_here).
  split.
  - destruct (transitions_are_audited_under_debug staff_request 8 shop_floor _
                (workorder_pause 8) eq_refl eq_refl eq_refl Hop) as [Hdebug _].
    destruct (Hdebug eq_refl)
      as (s' & k1 & e1 & k2 & e2 & Hrun & Hslot & Hlog & Hk1 & Hk2 & Hne & _).
    exists s'. split; [exact Hrun|]. split; [exact Hslot|].
    rewrite Hlog, map_size_insert_None by (by rewrite lookup_insert_ne).
    by rewrite map_size_insert_None.
  - destruct (transitions_are_audited_under_debug staff_request 8 shop_floor_production _
                (workorder_pause 8) eq_refl eq_refl eq_refl Hop) as [_ Hproduction].
    destruct (Hproduction eq_refl)
      as (s' & wo' & pl & Hrun & _ & Hlog & Hwos & Hupd & (k & Hk & Hlogs) & _).
    exists s', wo'. split; [exact Hrun|]. split; [exact Hlog|].
    rewrite Hwos, lookup_insert_eq. split; [reflexivity|]. split; [exact Hupd|].
    rewrite Hlogs. by rewrite map_size_insert_None.
Defined.

(** X18. A login adds one audit row with action login for the account that
    logged in, whatever account the request in the thread-local slot carries,
    with the NFC identifier of the account's profile; a logout adds one row
    with action logout for the account, and none for a session that had no
    account. *)
Theorem sessions_are_logged (request : Request.t) (user : User.t) (s : State) :
  (∃ row,
     appended (log_data s) (log_data (log_user_login request user s)) row
     ∧ only_log s (log_user_login request user s)
     ∧ LogData.action_type row = "login"
     ∧ LogData.user row = Some (User.id user)
     ∧ LogData.nfc_uid row = User.profile user ≫= UserProfile.nfc_uid
     ∧ LogData.description row = "User " ++ User.username user ++ " logged in"
     ∧ LogData.model_name row = None)
  ∧ (∃ row,
       appended (log_data s) (log_data (log_user_logout request (Some user) s)) row
       ∧ only_log s (log_user_logout request (Some user) s)
       ∧ LogData.action_type row = "logout"
       ∧ LogData.user row = Some (User.id user)
       ∧ LogData.description row = "User " ++ User.username user ++ " logged out")
  ∧ log_user_logout request None s = s.
Proof.
  split; [|split; [|done]].
  - unfold log_user_login.
    match goal with
    | |- context [create_log ?a ?d ?u ?e ?m ?o ?n s] =>
        destruct (create_log_entry a d u e m o n s)
          as (row & -> & _ & Hact & Hd & Hm & _ & Hn & _ & _ & _ & Hu & _)
    end.
    exists row. cbn [log_data with_log_data].
    split; [exists (fresh_pk (log_data s)); split; [apply fresh_pk_None|done]|].
    split; [apply only_log_with_log_data|]. split; [done|].
    split; [by destruct (thread_request s)|].
    split; [by destruct (User.profile user)|]. done.
  - unfold log_user_logout.
    match goal with
    | |- context [create_log ?a ?d ?u ?e ?m ?o ?n s] =>
        destruct (create_log_entry a d u e m o n s)
          as (row & -> & _ & Hact & Hd & Hm & _ & Hn & _ & _ & _ & Hu & _)
    end.
    exists row. cbn [log_data with_log_data].
    split; [exists (fresh_pk (log_data s)); split; [apply fresh_pk_None|done]|].
    split; [apply only_log_with_log_data|]. split; [done|].
    split; [by destruct (thread_request s)|]. done.
Qed.

Lemma py_len_app (a b : string) : py_len (a ++ b) = (py_len a + py_len b)%nat.
Proof.
  induction a as [|c a IH]; simpl; [done|].
  destruct (is_continuation c); [exact IH | cbn [Nat.add]; f_equal; exact IH].
Qed.

Lemma py_len_take (n : nat) (s : string) : py_len (py_take n s) = (n `min` py_len s)%nat.
Proof.
  revert n. induction s as [|c s IH]; intros n; cbn [py_take py_len].
  - by rewrite Nat.min_0_r.
  - destruct (is_continuation c) eqn:Hc.
    + cbn [py_len]. rewrite Hc. apply IH.
    + destruct n as [|n]; [done|]. cbn [py_len]. rewrite Hc, IH. reflexivity.
Qed.

Lemma py_take_prefix (n : nat) (s : string) : ∃ rest, s = py_take n s ++ rest.
Proof.
  revert n. induction s as [|c s IH]; intros n; cbn [py_take].
  - by exists "".
  - destruct (is_continuation c).
    + destruct (IH n) as [rest Hrest]. exists rest.
      change (String c s = String c (py_take n s ++ rest)). by rewrite <- Hrest.
    + destruct n as [|n]; [by eexists|].
      destruct (IH n) as [rest Hrest]. exists rest.
      change (String c s = String c (py_take n s ++ rest)). by rewrite <- Hrest.
Qed.

(** On text without bytes above the 7-bit range, code points are bytes. *)
Lemma py_len_take_ascii (n : nat) (s : string) :
  Forall (λ c, is_continuation c = false) (list_ascii_of_string s) →
  py_len s = String.length s ∧ py_take n s = substring 0 n s.
Proof.
  revert n. induction s as [|c s IH]; intros n Hall; cbn [py_len py_take String.length].
  - by destruct n.
  - cbn [list_ascii_of_string] in Hall. apply Forall_cons in Hall as [Hc Hall].
    rewrite Hc. split; [by rewrite (proj1 (IH 0%nat Hall))|].
    destruct n as [|n]; [done|]. cbn [substring]. by rewrite (proj2 (IH n Hall)).
Qed.

(** X19. The description column of the audit log shows a description of at
    most 50 characters as it is, and a longer one as its first 50 characters
    followed by three dots; what it shows is never longer than 53
    characters.  Characters are code points, as Python counts them, not
    bytes; on text of 7-bit characters the two agree. *)
Theorem short_description_truncates (obj : LogData.t) :
  (py_len (short_description obj) ≤ 53)%nat
  ∧ ((py_len (LogData.description obj) ≤ 50)%nat →
     short_description obj = LogData.description obj)
  ∧ ((50 < py_len (LogData.description obj))%nat →
     short_description obj = py_take 50 (LogData.description obj) ++ "..."
     ∧ py_len (short_description obj) = 53%nat
     ∧ py_len (py_take 50 (LogData.description obj)) = 50%nat
     ∧ ∃ rest, LogData.description obj = py_take 50 (LogData.description obj) ++ rest)
  ∧ (Forall (λ c, is_continuation c = false)
       (list_ascii_of_string (LogData.description obj)) →
     py_len (LogData.description obj) = String.length (LogData.description obj)
     ∧ py_take 50 (LogData.description obj) = substring 0 50 (LogData.description obj)).
Proof.
  unfold short_description.
  split; [|split; [|split]]; [| | |apply py_len_take_ascii].
  - destruct (decide (50 < py_len (LogData.description obj))%nat) as [Hlong|Hshort].
    + rewrite (bool_decide_eq_true_2 _ Hlong), py_len_app, py_len_take.
      rewrite Nat.min_l by lia. change (py_len "...") with 3%nat. lia.
    + rewrite (bool_decide_eq_false_2 _ Hshort). lia.
  - intros Hshort. rewrite bool_decide_eq_false_2 by lia. reflexivity.
  - intros Hlong. rewrite (bool_decide_eq_true_2 _ Hlong).
    split; [reflexivity|]. rewrite py_len_app, py_len_take.
    rewrite Nat.min_l by lia. change (py_len "...") with 3%nat.
    split; [lia|]. split; [lia|]. apply py_take_prefix.
Qed.

(** A description of 19 Japanese characters takes 57 bytes and is shown
    whole; one of 66 characters is cut after the fiftieth. *)
Example short_description_counts_characters :
  let shown (d : string) :=
    short_description
      {| LogData.id := Some 1; LogData.user := None; LogData.employee := None;
         LogData.action_type := "update"; LogData.model_name := Some "Product";
         LogData.object_id := Some 1; LogData.description := d;
         LogData.ip_address := None; LogData.device_info := None;
         LogData.nfc_uid := None; LogData.timestamp := 0 |} in
  String.length "製品スマートウィジェットを更新しました" = 57%nat
  ∧ py_len "製品スマートウィジェットを更新しました" = 19%nat
  ∧ shown "製品スマートウィジェットを更新しました" = "製品スマートウィジェットを更新しました"
  ∧ shown "作業指示 WO-2024-0017 を開始しました。担当者: 佐藤 愛子、ライン: 第一組立ライン、数量: 200 個、優先度: 高"
    = "作業指示 WO-2024-0017 を開始しました。担当者: 佐藤 愛子、ライン: 第一組立ライン、...".
Proof. repeat split. Qed.

(** *** Products, purchase orders and invoices in the console *)

Lemma Qc_lt_div_mul (t x y c : Qc) :
  (0 < y)%Qc → (t < x / y * c)%Qc ↔ (t * y < x * c)%Qc.
Proof.
  intros Hy. rewrite (Qcmult_lt_mono_pos_r t (x / y * c) y Hy).
  replace (x / y * c * y)%Qc with (x * c)%Qc; [done|].
  field. intros ->. by apply (irreflexivity Qclt) in Hy.
Qed.

Lemma margin_gt (obj : Product.t) (t : Z) :
  (0 ≤ t)%Z →
  (Decimal.of_Z t < Product.margin obj)%Qc
  ↔ (0 < Product.price obj)%Qc
    ∧ (Decimal.of_Z t * Product.price obj
       < (Product.price obj - Product.cost obj) * Decimal.of_Z 100)%Qc.
Proof.
  intros Ht. unfold Product.margin, Decimal.ltb.
  destruct (decide (0 < Product.price obj)%Qc) as [Hp|Hp].
  - rewrite (bool_decide_eq_true_2 _ Hp), (Qc_lt_div_mul _ _ _ _ Hp). tauto.
  - rewrite (bool_decide_eq_false_2 _ Hp). split; [|tauto].
    intros Hlt. apply (Z2Qc_inj_lt t 0) in Hlt. lia.
Qed.

(** X20. The margin of a product is shown green exactly when the price is
    positive and the margin is above 20 in 100, orange exactly when it is
    above 10 and not above 20, and red exactly when the price is not positive
    or the margin is 10 in 100 or less; in particular a product with no
    positive price, or sold at its cost or below, is shown red. *)
Theorem margin_colour (obj : Product.t) :
  let price := Product.price obj in
  let cost := Product.cost obj in
  let '(color, margin) := margin_display obj in
  margin = Product.margin obj
  ∧ (color = "green"
     ↔ (0 < price)%Qc ∧ (Decimal.of_Z 20 * price < (price - cost) * Decimal.of_Z 100)%Qc)
  ∧ (color = "orange"
     ↔ (0 < price)%Qc
       ∧ (Decimal.of_Z 10 * price < (price - cost) * Decimal.of_Z 100)%Qc
       ∧ ((price - cost) * Decimal.of_Z 100 ≤ Decimal.of_Z 20 * price)%Qc)
  ∧ (color = "red"
     ↔ (price ≤ 0)%Qc
       ∨ ((price - cost) * Decimal.of_Z 100 ≤ Decimal.of_Z 10 * price)%Qc)
  ∧ ((price ≤ 0)%Qc ∨ (price ≤ cost)%Qc → color = "red").
Proof.
  cbv zeta. unfold margin_display, Decimal.ltb. split; [done|].
  pose proof (margin_gt obj 20 ltac:(done)) as H20.
  pose proof (margin_gt obj 10 ltac:(done)) as H10.
  assert (Hlow : ¬ (Decimal.of_Z 10 < Product.margin obj)%Qc
                 ↔ (Product.price obj ≤ 0)%Qc
                   ∨ ((Product.price obj - Product.cost obj) * Decimal.of_Z 100
                      ≤ Decimal.of_Z 10 * Product.price obj)%Qc).
  { rewrite H10. split.
    - intros Hnot. destruct (decide (0 < Product.price obj)%Qc) as [Hp|Hp].
      + right. apply Qcnot_lt_le. tauto.
      + left. by apply Qcnot_lt_le.
    - intros [Hle|Hle] [Hp Hlt].
      + by apply Qcle_ngt in Hle.
      + by apply Qcle_ngt in Hle. }
  assert (Hred : (Product.price obj ≤ 0)%Qc ∨ (Product.price obj ≤ Product.cost obj)%Qc
                 → ¬ (Decimal.of_Z 10 < Product.margin obj)%Qc).
  { intros Hor Hlt. apply H10 in Hlt as [Hp Hlt]. destruct Hor as [Hle|Hle].
    - by apply Qcle_ngt in Hle.
    - apply Qclt_nge in Hlt. apply Hlt.
      assert (Hd : (Product.price obj - Product.cost obj ≤ 0)%Qc).
      { apply (Qcplus_le_mono_r _ _ (Product.cost obj)).
        replace (Product.price obj - Product.cost obj + Product.cost obj)%Qc
          with (Product.price obj) by ring.
        by rewrite Qcplus_0_l. }
      etrans.
      + apply (Qcmult_le_mono_nonneg_r _ 0 (Decimal.of_Z 100)); [done|exact Hd].
      + rewrite Qcmult_0_l. apply Qcmult_nonneg_nonneg; [done|].
        by apply Qclt_le_weak. }
  destruct (decide (Decimal.of_Z 20 < Product.margin obj)%Qc) as [Hg|Hg].
  - rewrite (bool_decide_eq_true_2 _ Hg).
    assert (Ho : (Decimal.of_Z 10 < Product.margin obj)%Qc)
      by (etrans; [|exact Hg]; done).
    split; [by rewrite <- H20|]. split; [|split].
    + split; [done|]. intros (_ & _ & Hle). apply H20 in Hg as [_ Hg].
      by apply Qclt_nge in Hg.
    + split; [done|]. intros Hor. by apply Hlow in Hor.
    + intros Hor. by destruct (Hred Hor).
  - rewrite (bool_decide_eq_false_2 _ Hg).
    destruct (decide (Decimal.of_Z 10 < Product.margin obj)%Qc) as [Ho|Ho].
    + rewrite (bool_decide_eq_true_2 _ Ho).
      split; [split; [done|by rewrite <- H20]|]. split; [|split].
      * split; [|done]. intros _. apply H10 in Ho as [Hp Ho].
        split; [done|]. split; [done|]. apply Qcle_ngt. intros Hlt.
        apply Hg, H20. done.
      * split; [done|]. intros Hor. by apply Hlow in Hor.
      * intros Hor. by destruct (Hred Hor).
    + rewrite (bool_decide_eq_false_2 _ Ho).
      split; [split; [done|by rewrite <- H20]|]. split; [|split; [|done]].
      * split; [done|]. intros (Hp & Hlt & _). destruct Ho. by apply H10.
      * split; [|done]. intros _. by apply Hlow.
Qed.

(** The specification's product at price 150 and cost 80 is shown green; at
    cost 125 it is orange; at cost 135, at its cost and with no price it is
    red. *)
Example margin_colours :
  (margin_display (sample_product 150 80 0)).1 = "green"
  ∧ (margin_display (sample_product 150 125 0)).1 = "orange"
  ∧ (margin_display (sample_product 150 135 0)).1 = "red"
  ∧ (margin_display (sample_product 150 150 0)).1 = "red"
  ∧ (margin_display (sample_product 0 80 0)).1 = "red".
Proof. repeat split. Qed.

Lemma QuerySet_update_lookup {A : Type} (matches : Z → A → bool) (assign : A → A)
    (table : gmap Z A) (k : Z) :
  (QuerySet_update matches assign table).2 !! k
  = (λ row, if matches k row then assign row else row) <$> table !! k.
Proof.
  unfold QuerySet_update. cbn [snd]. rewrite map_lookup_imap.
  by destruct (table !! k).
Qed.

Lemma QuerySet_update_none {A : Type} (matches : Z → A → bool) (assign : A → A)
    (table : gmap Z A) :
  (∀ k row, table !! k = Some row → matches k row = false) →
  QuerySet_update matches assign table = (0, table).
Proof.
  intros Hnone. unfold QuerySet_update. f_equal.
  - replace (filter (λ row, matches row.1 row.2 = true) table) with (∅ : gmap Z A);
      [by rewrite map_size_empty|].
    symmetry. apply map_empty. intros k. apply map_lookup_filter_None_2.
    right. intros row Hrow. cbn. by rewrite (Hnone k row Hrow).
  - apply map_eq. intros k. rewrite map_lookup_imap.
    destruct (table !! k) as [row|] eqn:Hrow; [|done]. cbn.
    by rewrite (Hnone k row Hrow).
Qed.

Lemma products_update (v : bool) (queryset : list Z) (s : State) :
  let table :=
    (QuerySet_update (λ k _, bool_decide (k ∈ queryset)) (Product_with_active v)
       (products s)).2 in
  (∀ k, is_Some (table !! k) ↔ is_Some (products s !! k))
  ∧ (∀ k row, products s !! k = Some row →
     ∃ row', table !! k = Some row'
       ∧ Product.active row' = (if bool_decide (k ∈ queryset) then v else Product.active row)
       ∧ Product.updated_at row' = Product.updated_at row
       ∧ Product_with_active (Product.active row) row' = row)
  ∧ (QuerySet_update (λ k _, bool_decide (k ∈ queryset)) (Product_with_active v) table).2
    = table.
Proof.
  intros table. subst table. split; [|split].
  - intros k. rewrite QuerySet_update_lookup. by rewrite fmap_is_Some.
  - intros k row Hrow. rewrite QuerySet_update_lookup, Hrow. cbn [fmap option_fmap option_map].
    eexists. split; [reflexivity|]. destruct row. by case_bool_decide.
  - apply map_eq. intros k. rewrite !QuerySet_update_lookup.
    destruct (products s !! k) as [row|]; [|done]. cbn. f_equal.
    by case_bool_decide.
Qed.

(** X21. The two bulk actions of the product list set the active flag of the
    ticked products and touch nothing else: no other column of a product, in
    particular not its updated_at, no product that was not ticked, no other
    table, and no audit row is written.  Running the action again changes
    nothing more. *)
Theorem bulk_activation_bypasses_audit (request : Request.t) (queryset : list Z)
    (s : State) :
  let activated := (activate_products request queryset s).2 in
  let deactivated := (deactivate_products request queryset s).2 in
  (activated = with_products (products activated) s
   ∧ deactivated = with_products (products deactivated) s)
  ∧ (∀ k row, products s !! k = Some row →
     ∃ on off,
       products activated !! k = Some on
       ∧ products deactivated !! k = Some off
       ∧ Product.active on = (if bool_decide (k ∈ queryset) then true else Product.active row)
       ∧ Product.active off
         = (if bool_decide (k ∈ queryset) then false else Product.active row)
       ∧ Product.updated_at on = Product.updated_at row
       ∧ Product.updated_at off = Product.updated_at row
       ∧ Product_with_active (Product.active row) on = row
       ∧ Product_with_active (Product.active row) off = row)
  ∧ (∀ k, products s !! k = None →
     products activated !! k = None ∧ products deactivated !! k = None)
  ∧ (activate_products request queryset activated).2 = activated
  ∧ (deactivate_products request queryset deactivated).2 = deactivated.
Proof.
  intros activated deactivated. subst activated deactivated.
  unfold activate_products, deactivate_products.
  destruct (products_update true queryset s) as (Hdom1 & Hrows1 & Hagain1).
  destruct (products_update false queryset s) as (Hdom0 & Hrows0 & Hagain0).
  cbv zeta in *. unfold QuerySet_update in *. cbn [snd products with_products] in *.
  split; [done|]. split; [|split; [|split]].
  - intros k row Hrow.
    destruct (Hrows1 k row Hrow) as (on & Hon & Hact1 & Hup1 & Hrest1).
    destruct (Hrows0 k row Hrow) as (off & Hoff & Hact0 & Hup0 & Hrest0).
    exists on, off. done.
  - intros k Hnone. split; apply eq_None_not_Some.
    + rewrite Hdom1, Hnone. by intros [? [=]].
    + rewrite Hdom0, Hnone. by intros [? [=]].
  - by rewrite Hagain1.
  - by rewrite Hagain0.
Qed.


(** X23. An invoice is shown as Paid exactly when the amount paid reaches its
    total, whatever its status says; otherwise the balance shown, in red, is
    the total less the amount paid, and it is positive. *)
Theorem balance_shown_until_paid (obj : Invoice.t) :
  (balance_display obj = inl ("green", "Paid")
   ↔ (Invoice.total obj ≤ Invoice.paid_amount obj)%Qc)
  ∧ (∀ color balance,
       balance_display obj = inr (color, balance) →
       color = "red"
       ∧ balance = (Invoice.total obj - Invoice.paid_amount obj)%Qc
       ∧ (0 < balance)%Qc
       ∧ (Invoice.paid_amount obj < Invoice.total obj)%Qc).
Proof.
  unfold balance_display, Invoice.balance, Decimal.ltb. cbv zeta.
  assert (Hpos : (0 < Invoice.total obj - Invoice.paid_amount obj)%Qc
                 ↔ (Invoice.paid_amount obj < Invoice.total obj)%Qc).
  { rewrite (Qcplus_lt_mono_r 0 _ (Invoice.paid_amount obj)).
    replace (Invoice.total obj - Invoice.paid_amount obj + Invoice.paid_amount obj)%Qc
      with (Invoice.total obj) by ring.
    by rewrite Qcplus_0_l. }
  destruct (decide (0 < Invoice.total obj - Invoice.paid_amount obj)%Qc) as [Hb|Hb].
  - rewrite (bool_decide_eq_true_2 _ Hb). split.
    + split; [done|]. intros Hle. apply Hpos in Hb. by apply Qcle_ngt in Hle.
    + intros color balance [= <- <-]. split; [done|]. split; [done|]. split; [done|].
      by apply Hpos.
  - rewrite (bool_decide_eq_false_2 _ Hb). split; [|done].
    split; [|done]. intros _. apply Qcle_ngt. by rewrite <- Hpos.
Qed.

(** An invoice of 100 with 100 paid reads Paid while its status still says
    sent; with 60 paid it shows a balance. *)
Example balance_of_sample_invoices :
  balance_display (sample_invoice 100 100 "sent") = inl ("green", "Paid")
  ∧ (∃ balance, balance_display (sample_invoice 100 60 "paid") = inr ("red", balance)).
Proof. split; [reflexivity|]. eexists. reflexivity. Qed.

(** X24. Marking purchase orders as sent moves the ticked drafts to sent and
    leaves every other order as it is; marking the same selection again
    finds nothing to do and reports 0 orders.  Marking as confirmed right
    after confirms exactly the ticked orders that were draft or sent at the
    start; orders received or cancelled are never touched. *)
Theorem purchase_orders_move_one_step (request : Request.t) (queryset : list Z)
    (purchase_orders : gmap Z PurchaseOrder.t) :
  let sent := (mark_as_sent request queryset purchase_orders).2 in
  let confirmed := (mark_as_confirmed request queryset sent).2 in
  (∀ k,
     sent !! k
     = (λ po, if bool_decide (k ∈ queryset ∧ PurchaseOrder.status po = "draft")
              then PurchaseOrder.with_status "sent" po else po)
         <$> purchase_orders !! k)
  ∧ mark_as_sent request queryset sent = ("0 orders marked as sent.", sent)
  ∧ (∀ k,
       confirmed !! k
       = (λ po, if bool_decide (k ∈ queryset
                                ∧ PurchaseOrder.status po ∈ ["draft"; "sent"])
                then PurchaseOrder.with_status "confirmed" po else po)
           <$> purchase_orders !! k).
Proof.
  intros sent confirmed.
  assert (Hsent : ∀ k,
            sent !! k
            = (λ po, if bool_decide (k ∈ queryset ∧ PurchaseOrder.status po = "draft")
                     then PurchaseOrder.with_status "sent" po else po)
                <$> purchase_orders !! k).
  { intros k. subst sent. unfold mark_as_sent.
    pose proof (QuerySet_update_lookup
                  (λ k row, bool_decide (k ∈ queryset)
                            && bool_decide (PurchaseOrder.status row = "draft"))
                  (PurchaseOrder.with_status "sent") purchase_orders k) as Hk.
    destruct (QuerySet_update _ _ purchase_orders) as [updated table].
    cbn [snd] in *. rewrite Hk. destruct (purchase_orders !! k) as [po|]; [|done].
    cbn. f_equal. rewrite <- bool_decide_and. done. }
  split; [exact Hsent|]. split.
  - unfold mark_as_sent. rewrite QuerySet_update_none; [done|].
    intros k row Hrow. rewrite Hsent in Hrow.
    destruct (purchase_orders !! k) as [po|]; [|done]. cbn in Hrow.
    injection Hrow as <-. apply andb_false_iff.
    destruct (decide (k ∈ queryset)) as [Hin|Hin];
      [|left; by apply bool_decide_eq_false_2].
    right. apply bool_decide_eq_false_2.
    destruct (decide (PurchaseOrder.status po = "draft")) as [Hd|Hd].
    + by rewrite bool_decide_eq_true_2.
    + rewrite bool_decide_eq_false_2 by tauto. done.
  - intros k. subst confirmed. unfold mark_as_confirmed.
    pose proof (QuerySet_update_lookup
                  (λ k row, bool_decide (k ∈ queryset)
                            && bool_decide (PurchaseOrder.status row = "sent"))
                  (PurchaseOrder.with_status "confirmed") sent k) as Hk.
    destruct (QuerySet_update _ _ sent) as [updated table].
    cbn [snd] in *. rewrite Hk, Hsent.
    destruct (purchase_orders !! k) as [po|]; [|done]. cbn. f_equal.
    destruct (decide (k ∈ queryset)) as [Hin|Hin].
    + rewrite (bool_decide_eq_true_2 _ Hin). cbn [andb].
      destruct (decide (PurchaseOrder.status po = "draft")) as [Hd|Hd].
      * rewrite (bool_decide_eq_true_2 (_ ∧ _)) by done. cbn.
        rewrite (bool_decide_eq_true_2 (_ ∧ _ ∈ _)); [done|].
        split; [done|]. rewrite Hd. apply list_elem_of_here.
      * rewrite (bool_decide_eq_false_2 (_ ∧ _ = _)) by tauto.
        destruct (decide (PurchaseOrder.status po = "sent")) as [Hs|Hs].
        -- rewrite (bool_decide_eq_true_2 _ Hs).
           rewrite (bool_decide_eq_true_2 (_ ∧ _ ∈ _)); [done|].
           split; [done|]. rewrite Hs. apply list_elem_of_further, list_elem_of_here.
        -- rewrite (bool_decide_eq_false_2 _ Hs).
           rewrite (bool_decide_eq_false_2 (_ ∧ _ ∈ _)); [done|].
           intros [_ Hst]. apply elem_of_cons in Hst as [?|Hst]; [done|].
           apply elem_of_cons in Hst as [?|Hst]; [done|]. by apply elem_of_nil in Hst.
    + rewrite (bool_decide_eq_false_2 _ Hin). cbn [andb].
      rewrite (bool_decide_eq_false_2 (_ ∧ _ = _)) by tauto.
      rewrite (bool_decide_eq_false_2 (_ ∧ _ ∈ _)) by tauto. done.
Qed.

(** Of the orders 1 (draft), 2 (received) and 3 (draft), with 1 and 2 ticked,
    one is marked as sent; order 3 stays a draft. *)
Example mark_as_sent_on_three_orders :
  let table : gmap Z PurchaseOrder.t :=
    <[1 := sample_purchase_order 1 "draft"]>
      (<[2 := sample_purchase_order 2 "received"]>
         (<[3 := sample_purchase_order 3 "draft"]> ∅)) in
  let '(message, table') := mark_as_sent staff_request [1; 2] table in
  message = "1 orders marked as sent."
  ∧ (PurchaseOrder.status <$> table' !! 1) = Some "sent"
  ∧ (PurchaseOrder.status <$> table' !! 2) = Some "received"
  ∧ (PurchaseOrder.status <$> table' !! 3) = Some "draft".
Proof. vm_compute. repeat split. Qed.

(** *** Stock on the inventory list and on the dashboard *)

Lemma is_low_stock_spec (self : Inventory.t) :
  Inventory.is_low_stock self = true
  ↔ ∃ p, Inventory.product self = Some p
         ∧ Product.min_stock p ≠ 0%Qc
         ∧ (Inventory.quantity_available self < Product.min_stock p)%Qc.
Proof.
  unfold Inventory.is_low_stock, Decimal.truthy, Decimal.ltb.
  destruct (Inventory.product self) as [p|]; [|split; [done|by intros (? & [=] & _)]].
  destruct (decide (Product.min_stock p = 0%Qc)) as [Hz|Hz].
  - rewrite (bool_decide_eq_true_2 _ Hz). cbn [negb].
    split; [done|]. by intros (? & [= <-] & ? & _).
  - rewrite (bool_decide_eq_false_2 _ Hz). cbn [negb]. rewrite bool_decide_eq_true.
    split; [by exists p|]. by intros (? & [= <-] & _ & ?).
Qed.

(** X25. The status of an inventory row reads LOW exactly when the row is
    low on stock, OUT exactly when it is not low and nothing is available,
    and OK exactly when it is not low and something is available.  A row with
    no product never reads LOW, and a row that has just been saved and reads
    OK has more on hand than reserved. *)
Theorem stock_status_reading (obj : Inventory.t) (s : State) :
  (stock_status obj = "LOW" ↔ Inventory.is_low_stock obj = true)
  ∧ (stock_status obj = "OUT"
     ↔ Inventory.is_low_stock obj = false ∧ (Inventory.quantity_available obj ≤ 0)%Qc)
  ∧ (stock_status obj = "OK"
     ↔ Inventory.is_low_stock obj = false ∧ (0 < Inventory.quantity_available obj)%Qc)
  ∧ (Inventory.product obj = None → stock_status obj ≠ "LOW")
  ∧ (stock_status (Inventory_save obj s).1 = "OK" →
     (Inventory.quantity_reserved obj < Inventory.quantity_on_hand obj)%Qc).
Proof.
  assert (Hcases : ∀ inv : Inventory.t,
            (stock_status inv = "LOW" ↔ Inventory.is_low_stock inv = true)
            ∧ (stock_status inv = "OUT"
               ↔ Inventory.is_low_stock inv = false
                 ∧ (Inventory.quantity_available inv ≤ 0)%Qc)
            ∧ (stock_status inv = "OK"
               ↔ Inventory.is_low_stock inv = false
                 ∧ (0 < Inventory.quantity_available inv)%Qc)).
  { intros inv. unfold stock_status.
    destruct (Inventory.is_low_stock inv);
      [split; [done|]; split; (split; [done | by intros [? ?]])|].
    destruct (decide (Inventory.quantity_available inv ≤ 0)%Qc) as [Hle|Hle].
    - rewrite (bool_decide_eq_true_2 _ Hle). split; [done|]. split; [done|].
      split; [done|]. intros [_ Hlt]. by apply Qcle_ngt in Hle.
    - rewrite (bool_decide_eq_false_2 _ Hle). split; [done|].
      split; [split; [done | by intros [_ ?]]|].
      split; [|done]. intros _. split; [done|]. by apply Qclt_nge. }
  destruct (Hcases obj) as (Hlow & Hout & Hok).
  split; [exact Hlow|]. split; [exact Hout|]. split; [exact Hok|]. split.
  - intros Hnone Hl. apply Hlow, is_low_stock_spec in Hl as (p & Hp & _). congruence.
  - intros Hsaved. apply (Hcases (Inventory_save obj s).1) in Hsaved as [_ Hpos].
    unfold Inventory_save, Model_save in Hpos.
    cbn [fst Inventory.quantity_available pre_save with_pk Inventory_Model
         Inventory.with_updated_at Inventory.with_id Inventory.with_quantity_available]
      in Hpos.
    apply (Qcplus_lt_mono_r _ _ (Inventory.quantity_reserved obj)) in Hpos.
    rewrite Qcplus_0_l in Hpos.
    by replace (Inventory.quantity_on_hand obj - Inventory.quantity_reserved obj
                + Inventory.quantity_reserved obj)%Qc
      with (Inventory.quantity_on_hand obj) in Hpos by ring.
Qed.

Lemma low_stock_Q_covers (inv : Inventory.t) :
  (Inventory.is_low_stock inv = true → low_stock_Q inv = true)
  ∧ (low_stock_Q inv = true → Inventory.is_low_stock inv = false →
     (Inventory.quantity_available inv < 0)%Qc).
Proof.
  unfold low_stock_Q, Decimal.ltb. split.
  - intros (p & -> & _ & Hlt)%is_low_stock_spec.
    by rewrite (bool_decide_eq_true_2 _ Hlt).
  - intros HQ Hnot. apply orb_prop in HQ as [HQ|HQ].
    + destruct (Inventory.product inv) as [p|] eqn:Hp; [|done].
      apply bool_decide_eq_true in HQ.
      destruct (decide (Product.min_stock p = 0%Qc)) as [Hz|Hz]; [by rewrite Hz in HQ|].
      assert (Inventory.is_low_stock inv = true); [|congruence].
      apply is_low_stock_spec. by exists p.
    + destruct (Inventory.material inv); [|done]. by apply bool_decide_eq_true in HQ.
Qed.

(** X26. The low-stock figure of the dashboard counts every inventory row
    that is low on stock, so it is never below their number; a row it counts
    that is not low on stock has a negative available quantity. *)
Theorem low_stock_count_covers_low_rows (s : State) :
  (Z.of_nat (length (filter (λ inv, Inventory.is_low_stock inv = true) (objects_all s)))
   ≤ low_stock_count s)%Z
  ∧ (∀ inv, inv ∈ objects_all s →
       Inventory.is_low_stock inv = true → low_stock_Q inv = true)
  ∧ (∀ inv, inv ∈ objects_all s →
       low_stock_Q inv = true → Inventory.is_low_stock inv = false →
       (Inventory.quantity_available inv < 0)%Qc).
Proof.
  unfold low_stock_count. split; [|split].
  - apply inj_le. generalize (objects_all (A := Inventory.t) s).
    intros rows. induction rows as [|inv rows IH]; [done|].
    rewrite !filter_cons.
    destruct (decide (Inventory.is_low_stock inv = true)) as [Hlow|Hlow].
    + rewrite decide_True by (by apply low_stock_Q_covers). cbn [length]. lia.
    + destruct (decide (low_stock_Q inv = true)); cbn [length]; lia.
  - intros inv _. apply low_stock_Q_covers.
  - intros inv _. apply low_stock_Q_covers.
Qed.

Lemma work_order_rows_insert (m : gmap Z WorkOrder.t) (k : Z) (old new : WorkOrder.t) :
  m !! k = Some old →
  ∃ rest : list WorkOrder.t,
    (λ row : Z * WorkOrder.t, WorkOrder.with_id row.1 row.2) <$> map_to_list (<[k := new]> m)
    ≡ₚ WorkOrder.with_id k new :: rest
    ∧ (λ row : Z * WorkOrder.t, WorkOrder.with_id row.1 row.2) <$> map_to_list m
      ≡ₚ WorkOrder.with_id k old :: rest.
Proof.
  intros Hold.
  exists ((λ row : Z * WorkOrder.t, WorkOrder.with_id row.1 row.2)
            <$> map_to_list (delete k m)).
  split.
  - rewrite <- insert_delete_eq.
    rewrite map_to_list_insert by apply lookup_delete_eq. by rewrite fmap_cons.
  - rewrite <- (map_to_list_delete m k old Hold). by rewrite fmap_cons.
Qed.

Lemma work_order_counts_after_write (s s' : State) (k : Z) (old new : WorkOrder.t) :
  work_orders s !! k = Some old →
  work_orders s' = <[k := new]> (work_orders s) →
  let active (wo : WorkOrder.t) : Z :=
    if bool_decide (WorkOrder.status wo = "in_progress") then 1 else 0 in
  let pending (wo : WorkOrder.t) : Z :=
    if bool_decide (WorkOrder.status wo ∈ ["pending"; "ready"]) then 1 else 0 in
  active_work_orders s' = (active_work_orders s - active old + active new)%Z
  ∧ pending_work_orders s' = (pending_work_orders s - pending old + pending new)%Z.
Proof.
  intros Hold Hnew active pending. subst active pending.
  unfold active_work_orders, pending_work_orders, objects_all.
  cbn [objects with_pk WorkOrder_Model]. rewrite Hnew.
  destruct (work_order_rows_insert (work_orders s) k old new Hold)
    as (rest & Hrows' & Hrows).
  rewrite Hrows', Hrows, !filter_cons. cbn [WorkOrder.status WorkOrder.with_id].
  split.
  - destruct (decide (WorkOrder.status new = "in_progress")) as [Hn|Hn];
      [rewrite (bool_decide_eq_true_2 _ Hn)|rewrite (bool_decide_eq_false_2 _ Hn)];
      (destruct (decide (WorkOrder.status old = "in_progress")) as [Ho|Ho];
       [rewrite (bool_decide_eq_true_2 _ Ho)|rewrite (bool_decide_eq_false_2 _ Ho)]);
      cbn [length]; lia.
  - destruct (decide (WorkOrder.status new ∈ ["pending"; "ready"])) as [Hn|Hn];
      [rewrite (bool_decide_eq_true_2 _ Hn)|rewrite (bool_decide_eq_false_2 _ Hn)];
      (destruct (decide (WorkOrder.status old ∈ ["pending"; "ready"])) as [Ho|Ho];
       [rewrite (bool_decide_eq_true_2 _ Ho)|rewrite (bool_decide_eq_false_2 _ Ho)]);
      cbn [length]; lia.
Qed.

Lemma not_pending_or_ready (status : string) :
  status ∈ ["in_progress"; "completed"; "paused"] → status ∉ ["pending"; "ready"].
Proof.
  intros Hin Hin'.
  repeat (apply elem_of_cons in Hin as [->|Hin];
          [repeat (apply elem_of_cons in Hin' as [?|Hin']; [done|]);
           by apply elem_of_nil in Hin'|]).
  by apply elem_of_nil in Hin.
Qed.

(** X27. The work-order figures of the dashboard follow the console
    transitions.  Start and Resume leave the order counted as active: the
    active figure grows by one unless it was active already.  Stop and Pause
    leave it uncounted: the active figure drops by one if it was active.
    After any of the four the order is no longer counted as pending, so the
    pending figure drops by one if it was pending or ready. *)
Theorem transitions_move_the_counts (request : Request.t) (object_id : Z) (s : State)
    (wo : WorkOrder.t) :
  work_orders s !! object_id = Some wo →
  let was_active : Z :=
    if bool_decide (WorkOrder.status wo = "in_progress") then 1 else 0 in
  let was_pending : Z :=
    if bool_decide (WorkOrder.status wo ∈ ["pending"; "ready"]) then 1 else 0 in
  let moves (run : Request.t → Z → State → Result (Response * State)) (active : Z) :=
    ∃ response s',
      run request object_id s = Ok (response, s')
      ∧ active_work_orders s' = (active_work_orders s - was_active + active)%Z
      ∧ pending_work_orders s' = (pending_work_orders s - was_pending)%Z in
  moves WorkOrderAdmin.start_work_order 1
  ∧ moves WorkOrderAdmin.stop_work_order 0
  ∧ moves WorkOrderAdmin.pause_work_order 0
  ∧ moves WorkOrderAdmin.resume_work_order 1.
Proof.
  intros Hwo was_active was_pending moves. subst was_active was_pending moves.
  cbv beta.
  destruct (transitions_effect request object_id s wo Hwo)
    as ((r1 & s1 & ? & Hrun1 & Hwos1 & _) & (r2 & s2 & ? & Hrun2 & Hwos2 & _)
        & (r3 & s3 & ? & Hrun3 & Hwos3 & _) & (r4 & s4 & ? & Hrun4 & Hwos4 & _)).
  split; [|split; [|split]].
  - exists r1, s1. split; [exact Hrun1|].
    destruct (work_order_counts_after_write s s1 object_id wo _ Hwo Hwos1) as [Ha Hp].
    cbn [WorkOrder.status WorkOrder.with_timestamps WorkOrder.with_actual_start
         WorkOrder.with_status] in Ha, Hp.
    rewrite (bool_decide_eq_true_2 ("in_progress" = _)) in Ha by done.
    rewrite (bool_decide_eq_false_2 ("in_progress" ∈ _)) in Hp
      by (apply not_pending_or_ready, list_elem_of_here).
    split; [exact Ha | lia].
  - exists r2, s2. split; [exact Hrun2|].
    destruct (work_order_counts_after_write s s2 object_id wo _ Hwo Hwos2) as [Ha Hp].
    cbn [WorkOrder.status WorkOrder.with_timestamps WorkOrder.with_actual_end
         WorkOrder.with_status] in Ha, Hp.
    rewrite (bool_decide_eq_false_2 ("completed" = _)) in Ha by done.
    rewrite (bool_decide_eq_false_2 ("completed" ∈ _)) in Hp
      by (apply not_pending_or_ready, list_elem_of_further, list_elem_of_here).
    split; [exact Ha | lia].
  - exists r3, s3. split; [exact Hrun3|].
    destruct (work_order_counts_after_write s s3 object_id wo _ Hwo Hwos3) as [Ha Hp].
    cbn [WorkOrder.status WorkOrder.with_timestamps WorkOrder.with_status] in Ha, Hp.
    rewrite (bool_decide_eq_false_2 ("paused" = _)) in Ha by done.
    rewrite (bool_decide_eq_false_2 ("paused" ∈ _)) in Hp
      by (apply not_pending_or_ready; do 2 apply list_elem_of_further;
          apply list_elem_of_here).
    split; [exact Ha | lia].
  - exists r4, s4. split; [exact Hrun4|].
    destruct (work_order_counts_after_write s s4 object_id wo _ Hwo Hwos4) as [Ha Hp].
    cbn [WorkOrder.status WorkOrder.with_timestamps WorkOrder.with_status] in Ha, Hp.
    rewrite (bool_decide_eq_true_2 ("in_progress" = _)) in Ha by done.
    rewrite (bool_decide_eq_false_2 ("in_progress" ∈ _)) in Hp
      by (apply not_pending_or_ready, list_elem_of_here).
    split; [exact Ha | lia].
Qed.

Lemma transitions_move_the_counts_witness :
  ∃ response s',
    WorkOrderAdmin.stop_work_order staff_request 8 shop_floor = Ok (response, s')
    ∧ active_work_orders shop_floor = 1
    ∧ active_work_orders s' = 0.
Proof.
  destruct (transitions_move_the_counts staff_request 8 shop_floor _ eq_refl)
    as (_ & (response & s' & Hrun & Ha & _) & _).
  exists response, s'. split; [exact Hrun|]. split; [reflexivity|].
  rewrite Ha. reflexivity.
Defined.

(** X28. The dashboard lists at most twenty inventory alerts.  Each alert
    is marked high exactly when nothing is available; a low-stock alert
    gives a minimum that the available quantity is below, and a low-material
    alert stands for less than ten available.  Where no more than ten rows
    are below their product's minimum, every row that is low on stock has
    its alert. *)
Theorem inventory_alerts_reading (s : State) :
  (length (get_inventory_alerts s) ≤ 20)%nat
  ∧ Forall (λ a,
      (severity a = "high" ↔ (current a ≤ 0)%Qc)
      ∧ (alert_type a = "low_stock" ∨ alert_type a = "low_material")
      ∧ (alert_type a = "low_stock" → ∃ m, minimum a = Some m ∧ (current a < m)%Qc)
      ∧ (alert_type a = "low_material" →
         minimum a = None ∧ (current a < Decimal.of_Z 10)%Qc))
      (get_inventory_alerts s)
  ∧ ((length (omap low_stock_alert (objects_all s)) ≤ 10)%nat →
     ∀ inv, inv ∈ objects_all s →
       Inventory.is_low_stock inv = true →
       ∃ a product,
         a ∈ get_inventory_alerts s
         ∧ Inventory.product inv = Some product
         ∧ alert_type a = "low_stock"
         ∧ item a = Product.name product
         ∧ current a = Inventory.quantity_available inv
         ∧ minimum a = Some (Product.min_stock product)).
Proof.
  unfold get_inventory_alerts.
  assert (Hsev : ∀ inv, alert_severity inv = "high"
                        ↔ (Inventory.quantity_available inv ≤ 0)%Qc).
  { intros inv. unfold alert_severity. case_bool_decide; naive_solver. }
  split; [|split].
  - rewrite length_app, !length_take. lia.
  - apply Forall_app. split; apply Forall_take, Forall_forall; intros a Ha;
      apply list_elem_of_omap in Ha as (inv & _ & Ha).
    + unfold low_stock_alert, Decimal.ltb in Ha.
      destruct (Inventory.product inv) as [p|]; [|done].
      case_bool_decide as Hlt; [|done]. injection Ha as <-.
      cbn [severity current alert_type minimum].
      split; [apply Hsev|]. split; [by left|]. split; [|done].
      intros _. by exists (Product.min_stock p).
    + unfold low_material_alert, Decimal.ltb in Ha.
      destruct (Inventory.material inv) as [m|]; [|done].
      case_bool_decide as Hlt; [|done]. injection Ha as <-.
      cbn [severity current alert_type minimum].
      split; [apply Hsev|]. split; [by right|]. split; [done|]. done.
  - intros Hfew inv Hin (p & Hp & _ & Hlt)%is_low_stock_spec.
    eexists _, p. split; [|split; [exact Hp|]].
    + apply elem_of_app. left. rewrite take_ge by exact Hfew.
      apply list_elem_of_omap. exists inv. split; [exact Hin|].
      unfold low_stock_alert, Decimal.ltb. rewrite Hp.
      by rewrite (bool_decide_eq_true_2 _ Hlt).
    + done.
Qed.

(** X29. The activity feed of the dashboard shows the twenty newest audit
    rows, or all of them where there are fewer, newest first: no row left
    out is newer than a row shown.  A row without an account is shown under
    the name System. *)
Theorem recent_activities_are_the_newest (s : State) :
  length (get_recent_activities s) = (20 `min` size (log_data s))%nat
  ∧ StronglySorted (λ a b, (activity_timestamp b ≤ activity_timestamp a)%Z)
      (get_recent_activities s)
  ∧ (∀ log a,
       log ∈ objects_all s →
       log ∉ take 20 (LogData_objects_all s) →
       a ∈ get_recent_activities s →
       (LogData.timestamp log ≤ activity_timestamp a)%Z)
  ∧ (∀ log, LogData.user log = None → activity_user (activity_of s log) = "System").
Proof.
  destruct (LogData_objects_all_newest_first s) as [Hsorted Hperm].
  unfold get_recent_activities.
  rewrite <- (take_drop 20 (LogData_objects_all s)) in Hsorted.
  split; [|split; [|split]].
  - rewrite length_fmap, length_take, Hperm. unfold objects_all.
    rewrite length_fmap, length_map_to_list. done.
  - apply (StronglySorted_fmap _ LogData.newer_or_equal); [done|].
    by apply StronglySorted_app_1_l in Hsorted.
  - intros log a Hlog Hout Ha.
    apply list_elem_of_fmap in Ha as (shown & -> & Hshown).
    rewrite <- Hperm, <- (take_drop 20 (LogData_objects_all s)) in Hlog.
    apply elem_of_app in Hlog as [Hlog|Hlog]; [done|].
    exact (StronglySorted_app_1_elem_of _ _ _ _ _ Hsorted Hshown Hlog).
  - intros log Hnone. unfold activity_of. cbn [activity_user]. by rewrite Hnone.
Qed.

(** *** Deleting a product *)

Lemma Exists_objects_all `{Model A} (P : A → Prop) (s : State) :
  Exists P (objects_all s) ↔ ∃ j row, objects s !! j = Some row ∧ P (with_pk j row).
Proof.
  unfold objects_all. rewrite Exists_exists. split.
  - intros (x & Hx & HP). apply list_elem_of_fmap in Hx as ([j row] & -> & Hin).
    apply elem_of_map_to_list in Hin. by exists j, row.
  - intros (j & row & Hrow & HP). exists (with_pk j row). split; [|done].
    apply list_elem_of_fmap. exists (j, row). split; [done|].
    by apply elem_of_map_to_list.
Qed.

Lemma Product_protected_iff (k : Z) (s : State) :
  Product_protected k s = true
  ↔ (∃ j line, purchase_order_lines s !! j = Some line
               ∧ PurchaseOrderLine.product line = k)
    ∨ (∃ j line, sales_order_lines s !! j = Some line ∧ SalesOrderLine.product line = k)
    ∨ (∃ j wo, work_orders s !! j = Some wo
               ∧ Product.id (WorkOrder.product wo) = Some k).
Proof.
  unfold Product_protected. rewrite !orb_true_iff, !bool_decide_eq_true.
  rewrite !Exists_objects_all.
  cbn [objects with_pk PurchaseOrderLine_Model SalesOrderLine_Model WorkOrder_Model].
  split.
  - intros [[(j & l & Hl & Hp)|(j & l & Hl & Hp)]|(j & wo & Hwo & Hp)].
    + left. by exists j, l.
    + right. left. by exists j, l.
    + right. right. by exists j, wo.
  - intros [(j & l & Hl & Hp)|[(j & l & Hl & Hp)|(j & wo & Hwo & Hp)]].
    + left. left. by exists j, l.
    + left. right. by exists j, l.
    + right. by exists j, wo.
Qed.

Lemma Product_inventory_nil (k : Z) (s : State) :
  Product_inventory k s = []
  ↔ ¬ ∃ j inv, inventory s !! j = Some inv ∧ Inventory_product_id inv = Some k.
Proof.
  unfold Product_inventory. split.
  - intros Hnil (j & inv & Hrow & Hk).
    assert (Inventory.with_id j inv
            ∈ filter (λ inv, Inventory_product_id inv = Some k)
                (objects_all (A := Inventory.t) s)) as Hin.
    { apply list_elem_of_filter. split; [exact Hk|].
      apply list_elem_of_fmap. exists (j, inv). split; [done|].
      by apply elem_of_map_to_list. }
    rewrite Hnil in Hin. by apply elem_of_nil in Hin.
  - intros Hnone.
    destruct (filter _ _) as [|x rows] eqn:Hrows; [done|]. exfalso. apply Hnone.
    assert (x ∈ filter (λ inv, Inventory_product_id inv = Some k)
                  (objects_all (A := Inventory.t) s)) as Hin
      by (rewrite Hrows; apply list_elem_of_here).
    apply list_elem_of_filter in Hin as [Hk Hin].
    apply list_elem_of_fmap in Hin as ([j inv] & -> & Hin).
    apply elem_of_map_to_list in Hin. by exists j, inv.
Qed.

Lemma without_product_inventory (k j : Z) (s : State) :
  inventory (without_product k s) !! j
  = match inventory s !! j with
    | Some inv => if bool_decide (Inventory_product_id inv = Some k) then None else Some inv
    | None => None
    end.
Proof.
  unfold without_product. cbn [inventory with_inventory with_products].
  destruct (inventory s !! j) as [inv|] eqn:Hrow.
  - destruct (decide (Inventory_product_id inv = Some k)) as [Hk|Hk].
    + rewrite (bool_decide_eq_true_2 _ Hk). apply map_lookup_filter_None_2.
      right. intros inv' Hrow'. rewrite Hrow in Hrow'. injection Hrow' as <-.
      cbn. tauto.
    + rewrite (bool_decide_eq_false_2 _ Hk). by apply map_lookup_filter_Some_2.
  - apply map_lookup_filter_None_2. by left.
Qed.


